(** * FileForge: a shallow embedding of the conversion core

    The development follows the layout of the repository:

    - [utils]              : [backend/utils.py], the format registry;
    - [converters]         : [converters.py], the library front end
                             (results, statistics, options, routing, batches);
    - [backend_image]      : [backend/converters/image.py];
    - [backend_document]   : [backend/converters/document.py];
    - [backend_data]       : [backend/converters/data.py];
    - [backend_main]       : the format gate of [backend/main.py].

    Python values are modelled as they occur in the code: [str] as [string]
    (the UTF-8 encoding of the text, so that [len(s.encode("utf-8"))] is
    [String.length]), [int] as [Z], a [dict] whose iteration order matters
    as an association list, an exception as a value of an error type, and
    file-system or library effects as an explicit trace of events. *)

From Stdlib Require Import List String Ascii ZArith QArith Bool Lia DecimalString.
Import ListNotations.

Local Open Scope string_scope.
Local Open Scope Z_scope.

(** ** Python prelude *)

Module py.

(** [str.lower()] on ASCII text. *)
Definition lower_ascii (c : ascii) : ascii :=
  let n := nat_of_ascii c in
  if (Nat.leb 65 n && Nat.leb n 90)%bool then ascii_of_nat (n + 32) else c.

Fixpoint lower (s : string) : string :=
  match s with
  | EmptyString => EmptyString
  | String c s' => String (lower_ascii c) (lower s')
  end.

(** [s.lstrip(".")]: every leading dot is removed. *)
Fixpoint lstrip_dot (s : string) : string :=
  match s with
  | String "."%char s' => lstrip_dot s'
  | _ => s
  end.

(** [x in xs] for a list of strings. *)
Fixpoint str_in (x : string) (xs : list string) : bool :=
  match xs with
  | [] => false
  | y :: ys => (x =? y)%string || str_in x ys
  end.

(** [d.get(k)] on a dictionary kept in insertion order. *)
Fixpoint dict_get {V : Type} (k : string) (d : list (string * V)) : option V :=
  match d with
  | [] => None
  | (k', v) :: d' => if (k =? k')%string then Some v else dict_get k d'
  end.

Definition dict_keys {V : Type} (d : list (string * V)) : list string :=
  map fst d.

(** [str(n)] for an integer. *)
Definition str_of_Z (n : Z) : string :=
  NilZero.string_of_int (Z.to_int n).

(** Python's conditional results: a returned value or a raised exception. *)
Inductive result (E A : Type) : Type :=
| Return (a : A)
| Raise (e : E).
Arguments Return {E A} a.
Arguments Raise {E A} e.

Definition bind {E A B : Type} (m : result E A) (k : A -> result E B)
  : result E B :=
  match m with
  | Return a => k a
  | Raise e => Raise e
  end.

(** Dynamically typed values ([Any]): option bags and parsed JSON.  A
    finite [float] is kept as the rational it denotes. *)
#[warnings="-register-all"]
Inductive value : Type :=
| VNone
| VBool (b : bool)
| VInt (z : Z)
| VFloat (q : Q)
| VStr (s : string)
| VList (l : list value)
| VTuple (l : list value)
| VDict (d : list (string * value)).

Definition dict : Type := list (string * value).

(** Truthiness, as [if v:] tests it. *)
Definition truthy (v : value) : bool :=
  match v with
  | VNone => false
  | VBool b => b
  | VInt z => negb (z =? 0)
  | VFloat q => negb (Qeq_bool q 0)
  | VStr s => negb (s =? "")%string
  | VList l | VTuple l => match l with [] => false | _ => true end
  | VDict d => match d with [] => false | _ => true end
  end.

(** [d.get(k, default)]. *)
Definition get_default (k : string) (d : dict) (default : value) : value :=
  match dict_get k d with
  | Some v => v
  | None => default
  end.

(** [d.get(k)], with [None] for a missing key. *)
Definition get (k : string) (d : dict) : value := get_default k d VNone.

(** [range(a, b)]. *)
Definition range (a b : Z) : list Z :=
  map (fun i => a + Z.of_nat i) (seq 0 (Z.to_nat (b - a))).

(** [len(xs)] as a Python integer. *)
Definition len {A : Type} (xs : list A) : Z := Z.of_nat (List.length xs).

(** [len(s.encode("utf-8"))]. *)
Definition str_len (s : string) : Z := Z.of_nat (String.length s).

(** [xs[i]]: negative indices count from the end, and an index outside
    the list raises [IndexError] ([None] here). *)
Definition index {A : Type} (xs : list A) (i : Z) : option A :=
  let j := if i <? 0 then i + len xs else i in
  if j <? 0 then None else nth_error xs (Z.to_nat j).

(** [sep.join(parts)]. *)
Fixpoint join (sep : string) (parts : list string) : string :=
  match parts with
  | [] => ""
  | [p] => p
  | p :: ps => p ++ sep ++ join sep ps
  end.

(** The newline character, and [len(s)] in code points for UTF-8 text. *)
Definition nl : string := String (ascii_of_nat 10) EmptyString.

Definition is_continuation (c : ascii) : bool :=
  let n := nat_of_ascii c in (Nat.leb 128 n && Nat.leb n 191)%bool.

Fixpoint char_len (s : string) : Z :=
  match s with
  | EmptyString => 0
  | String c s' => (if is_continuation c then 0 else 1) + char_len s'
  end.

(** A [pathlib.Path], by the parts the code reads. *)
Record Path := mkPath { parent : string; stem : string; suffix : string }.

Definition name (p : Path) : string := stem p ++ suffix p.
Definition path_str (p : Path) : string := parent p ++ "/" ++ name p.

(** [path.with_suffix(ext)]. *)
Definition with_suffix (p : Path) (ext : string) : Path :=
  mkPath (parent p) (stem p) ext.

(** *** Text, character by character *)

Definition byte (c : ascii) : Z := Z.of_nat (nat_of_ascii c).

(** The characters of a text: each a leading byte with the continuation
    bytes that follow it. *)
Fixpoint chars (s : string) : list string :=
  match s with
  | EmptyString => []
  | String c s' =>
      match chars s' with
      | String c' r :: rest =>
          if is_continuation c' then String c (String c' r) :: rest
          else String c EmptyString :: String c' r :: rest
      | rest => String c EmptyString :: rest
      end
  end.

(** [ord(ch)] for one character of well-formed UTF-8. *)
Definition ord (ch : string) : Z :=
  match ch with
  | EmptyString => 0
  | String b0 rest =>
      let n := byte b0 in
      let lead := if n <? 128 then n
                  else if n <? 224 then n - 192
                  else if n <? 240 then n - 224
                  else n - 240 in
      fold_left (fun acc b => acc * 64 + (byte b - 128))
                (list_ascii_of_string rest) lead
  end.

(** [ch.isspace()]: the white space of the Unicode database, which is
    what [str.strip()] removes. *)
Definition isspace (n : Z) : bool :=
  ((9 <=? n) && (n <=? 13)) || ((28 <=? n) && (n <=? 32))
  || (n =? 133) || (n =? 160) || (n =? 5760)
  || ((8192 <=? n) && (n <=? 8202))
  || (n =? 8232) || (n =? 8233) || (n =? 8239) || (n =? 8287)
  || (n =? 12288).

Definition is_space (ch : string) : bool := isspace (ord ch).

Fixpoint lstrip_chars (cs : list string) : list string :=
  match cs with
  | c :: cs' => if is_space c then lstrip_chars cs' else cs
  | [] => []
  end.

Definition rstrip_chars (cs : list string) : list string :=
  rev (lstrip_chars (rev cs)).

(** [s.strip()]. *)
Definition strip (s : string) : string :=
  String.concat "" (rstrip_chars (lstrip_chars (chars s))).

(** *** [int(x)] *)

(** What the code takes from the interpreter it runs on. *)
Record Interpreter := mkInterpreter {
  (** the digit a character outside ASCII stands for, when the Unicode
      database of the interpreter has it as a decimal digit *)
  to_decimal : Z -> option Z;
  (** [sys.get_int_max_str_digits()]: 0 for no limit, or at least 640 *)
  int_max_str_digits : Z
}.

(** The white space [int] skips around a literal, once the text is ASCII. *)
Definition is_ascii_space (c : ascii) : bool :=
  let n := byte c in ((9 <=? n) && (n <=? 13)) || (n =? 32).

(** Before it parses a text, [int] turns every character outside ASCII
    into ASCII: white space into a blank, a decimal digit into its ASCII
    digit, anything else into a character no literal has. *)
Definition to_ascii (i : Interpreter) (ch : string) : ascii :=
  let n := ord ch in
  if n <? 128 then ascii_of_nat (Z.to_nat n)
  else if isspace n then " "%char
  else match to_decimal i n with
       | Some d => if (0 <=? d) && (d <=? 9)
                   then ascii_of_nat (Z.to_nat (48 + d)) else "?"%char
       | None => "?"%char
       end.

Fixpoint lstrip_ascii (s : string) : string :=
  match s with
  | String c s' => if is_ascii_space c then lstrip_ascii s' else s
  | EmptyString => EmptyString
  end.

Fixpoint rstrip_ascii (s : string) : string :=
  match s with
  | EmptyString => EmptyString
  | String c s' =>
      match rstrip_ascii s' with
      | EmptyString => if is_ascii_space c then EmptyString
                       else String c EmptyString
      | r => String c r
      end
  end.

Definition digit_of (c : ascii) : option Z :=
  let n := byte c in
  if (48 <=? n) && (n <=? 57) then Some (n - 48) else None.

(** The digits of a decimal literal: single underscores are allowed
    between digits. *)
Fixpoint parse_digits (s : string) (acc : Z) (after_digit : bool) : option Z :=
  match s with
  | EmptyString => if after_digit then Some acc else None
  | String c s' =>
      match digit_of c with
      | Some d => parse_digits s' (10 * acc + d) true
      | None =>
          if (Ascii.eqb c "_" && after_digit)%bool
          then parse_digits s' acc false
          else None
      end
  end.

Fixpoint count_digits (s : string) : Z :=
  match s with
  | EmptyString => 0
  | String c s' =>
      (match digit_of c with Some _ => 1 | None => 0 end) + count_digits s'
  end.

(** [int(text)]: a decimal literal with an optional sign and surrounding
    white space; [None] for [ValueError], which a literal of more digits
    than the interpreter allows raises too. *)
Definition int_of_text (i : Interpreter) (s : string) : option Z :=
  let literal :=
    rstrip_ascii (lstrip_ascii
      (string_of_list_ascii (map (to_ascii i) (chars s)))) in
  if (0 <? int_max_str_digits i)
     && (int_max_str_digits i <? count_digits literal)
  then None
  else
    match literal with
    | String "-"%char s' => option_map Z.opp (parse_digits s' 0 false)
    | String "+"%char s' => parse_digits s' 0 false
    | s' => parse_digits s' 0 false
    end.

(** A value that is an [int] ([bool] is a subclass of it). *)
Definition as_int (v : value) : option Z :=
  match v with
  | VInt z => Some z
  | VBool b => Some (if b then 1 else 0)
  | _ => None
  end.

(** An argument typed [Any]: a value as above, or one of the floats that
    are no number of [value]. *)
Inductive Any :=
| Obj (v : value)
| Float_inf (negative : bool)
| Float_nan.

Inductive int_error := IntValueError | IntTypeError | IntOverflowError.

(** [int(x)]: a float is truncated towards zero, a text is parsed; the
    infinities have no integer value and overflow. *)
Definition int_ (i : Interpreter) (x : Any) : result int_error Z :=
  match x with
  | Obj (VInt z) => Return z
  | Obj (VBool b) => Return (if b then 1 else 0)
  | Obj (VFloat q) => Return (Z.quot (Qnum q) (Zpos (Qden q)))
  | Obj (VStr s) =>
      match int_of_text i s with
      | Some z => Return z
      | None => Raise IntValueError
      end
  | Obj _ => Raise IntTypeError
  | Float_inf _ => Raise IntOverflowError
  | Float_nan => Raise IntValueError
  end.

(** Strict UTF-8: the well-formed byte sequences of the Unicode standard. *)
Definition byte_in (lo hi : nat) (c : ascii) : bool :=
  let n := nat_of_ascii c in (Nat.leb lo n && Nat.leb n hi)%bool.

Fixpoint utf8_valid (s : string) : bool :=
  match s with
  | EmptyString => true
  | String b0 r0 =>
      if byte_in 0 127 b0 then utf8_valid r0
      else
        match r0 with
        | EmptyString => false
        | String b1 r1 =>
            if byte_in 194 223 b0 then byte_in 128 191 b1 && utf8_valid r1
            else
              match r1 with
              | EmptyString => false
              | String b2 r2 =>
                  if byte_in 224 239 b0 then
                    (if byte_in 224 224 b0 then byte_in 160 191 b1
                     else if byte_in 237 237 b0 then byte_in 128 159 b1
                     else byte_in 128 191 b1)
                    && byte_in 128 191 b2 && utf8_valid r2
                  else
                    match r2 with
                    | EmptyString => false
                    | String b3 r3 =>
                        byte_in 240 244 b0
                        && (if byte_in 240 240 b0 then byte_in 144 191 b1
                            else if byte_in 244 244 b0 then byte_in 128 143 b1
                            else byte_in 128 191 b1)
                        && byte_in 128 191 b2 && byte_in 128 191 b3
                        && utf8_valid r3
                    end
              end
        end
  end.

(** The text a latin-1 byte denotes, in UTF-8. *)
Definition latin1_char (c : ascii) : string :=
  let n := nat_of_ascii c in
  if Nat.leb n 127 then String c EmptyString
  else String (ascii_of_nat (192 + n / 64))
         (String (ascii_of_nat (128 + n mod 64)) EmptyString).

Fixpoint latin1_decode (bytes : string) : string :=
  match bytes with
  | EmptyString => EmptyString
  | String c r => latin1_char c ++ latin1_decode r
  end.

Fixpoint is_ascii (bytes : string) : bool :=
  match bytes with
  | EmptyString => true
  | String c r => byte_in 0 127 c && is_ascii r
  end.

(** [sub in s] for strings. *)
Fixpoint str_contains (sub s : string) : bool :=
  String.prefix sub s
  || match s with
     | EmptyString => false
     | String _ s' => str_contains sub s'
     end.

(** What reading a file in text mode does to its line ends: "\r\n" and
    "\r" are read as "\n". *)
Fixpoint universal_newlines (s : string) : string :=
  match s with
  | EmptyString => EmptyString
  | String c r =>
      if (c =? ascii_of_nat 13)%char then
        match r with
        | String c' r' =>
            if (c' =? ascii_of_nat 10)%char
            then String c' (universal_newlines r')
            else String (ascii_of_nat 10) (universal_newlines r)
        | EmptyString => String (ascii_of_nat 10) EmptyString
        end
      else String c (universal_newlines r)
  end.

End py.

Notation "x <- m ;; k" := (py.bind m (fun x => k))
  (at level 61, m at next level, right associativity).
Notation "' pat <- m ;; k" :=
  (py.bind m (fun x => match x with pat => k end))
  (at level 61, pat pattern, m at next level, right associativity).

(** ** backend/utils.py *)

Module utils.

Inductive FileCategory := IMAGE | DOCUMENT | DATA | UNKNOWN.

Definition EXTENSION_TO_CATEGORY : list (string * FileCategory) :=
  [ (".png", IMAGE); (".jpg", IMAGE); (".jpeg", IMAGE); (".webp", IMAGE);
    (".bmp", IMAGE); (".gif", IMAGE);
    (".pdf", DOCUMENT); (".txt", DOCUMENT);
    (".csv", DATA); (".json", DATA); (".xlsx", DATA); (".xls", DATA) ].

Definition FORMAT_COMPATIBILITY : list (string * list string) :=
  [ ("png",  ["jpg"; "jpeg"; "webp"; "bmp"; "gif"]);
    ("jpg",  ["png"; "webp"; "bmp"; "gif"]);
    ("jpeg", ["png"; "webp"; "bmp"; "gif"]);
    ("webp", ["png"; "jpg"; "jpeg"; "bmp"; "gif"]);
    ("bmp",  ["png"; "jpg"; "jpeg"; "webp"; "gif"]);
    ("gif",  ["png"; "jpg"; "jpeg"; "webp"; "bmp"]);
    ("pdf",  ["txt"; "png"; "jpg"]);
    ("csv",  ["json"; "xlsx"]);
    ("json", ["csv"; "xlsx"]);
    ("xlsx", ["csv"; "json"]);
    ("xls",  ["csv"; "json"]) ].

(** The registered input formats: the keys of [FORMAT_COMPATIBILITY]. *)
Definition registered_formats : list string :=
  py.dict_keys FORMAT_COMPATIBILITY.

Definition get_compatible_formats (input_format : string) : list string :=
  let normalized_format := py.lstrip_dot (py.lower input_format) in
  match py.dict_get normalized_format FORMAT_COMPATIBILITY with
  | Some outs => outs
  | None => []
  end.

Definition get_file_extension_for_format (format_name : string) : string :=
  "." ++ py.lstrip_dot (py.lower format_name).

Definition validate_conversion (input_format output_format : string) : bool :=
  let compatible := get_compatible_formats input_format in
  py.str_in (py.lstrip_dot (py.lower output_format)) compatible.

End utils.

(** ** Pillow, as the converters use it

    Images are rasters of pixels in row-major order, each pixel a list
    with one value per band.  What Pillow computes with algorithms of its
    own (mode conversion through palettes and colour matrices, resampling,
    the mixing of partially transparent pixels, colour names) is a field
    of [Pillow]; pasting through a matte, band splitting and solid fills
    are written out. *)

Module pil.

Inductive Mode := RGBA | LA | P | RGB | L | OtherMode (name : string).

Definition mode_eqb (a b : Mode) : bool :=
  match a, b with
  | RGBA, RGBA | LA, LA | P, P | RGB, RGB | L, L => true
  | OtherMode x, OtherMode y => (x =? y)%string
  | _, _ => false
  end.

(** [mode in (...)]. *)
Definition mode_in (m : Mode) (ms : list Mode) : bool :=
  existsb (mode_eqb m) ms.

Definition pixel : Type := list Z.

Record Image := mkImage {
  mode : Mode;
  size : Z * Z;                 (* (width, height) *)
  data : list pixel;            (* row-major, one entry per pixel *)
  info_transparency : bool      (* ["transparency" in image.info] *)
}.

(** An exception raised by the platform: the operating system or one of
    the libraries (Pillow, pypdf, pandas). *)
Record ext_exn := mkExt { exn_class : string; exn_text : string }.

Record Pillow := mkPillow {
  (** one band of [paste] through a matte: destination, source, mask *)
  blend : Z -> Z -> Z -> Z;
  (** the raster of [image.convert(mode)] *)
  convert_data : Mode -> Image -> list pixel;
  (** [image.resize((w, h), LANCZOS)] *)
  resize : Image -> Z * Z -> py.result ext_exn Image;
  (** the ink of a colour that is not a tuple of integers (a name, ...) *)
  getcolor : py.value -> option (Z * Z * Z)
}.

Definition clip8 (v : Z) : Z := Z.max 0 (Z.min 255 v).

(** The ink Pillow fills an RGB image with; [None] when it rejects the
    colour. *)
Definition ink (pl : Pillow) (color : py.value) : option (Z * Z * Z) :=
  match color with
  | py.VTuple [py.VInt r; py.VInt g; py.VInt b]
  | py.VTuple [py.VInt r; py.VInt g; py.VInt b; py.VInt _] =>
      Some (clip8 r, clip8 g, clip8 b)
  | _ => getcolor pl color
  end.

Definition npixels (sz : Z * Z) : nat := Z.to_nat (fst sz * snd sz).

(** [Image.new("RGB", size, color)]. *)
Definition new_rgb (pl : Pillow) (sz : Z * Z) (color : py.value)
  : py.result ext_exn Image :=
  match ink pl color with
  | Some (r, g, b) =>
      py.Return (mkImage RGB sz (repeat [r; g; b] (npixels sz)) false)
  | None => py.Raise (mkExt "ValueError" "unknown color specifier")
  end.

(** [image.split()[-1]]: the last band. *)
Definition last_band (im : Image) : list Z :=
  map (fun px => last px 0) (data im).

(** [image.convert(mode)]. *)
Definition convert (pl : Pillow) (target : Mode) (im : Image) : Image :=
  mkImage target (size im) (convert_data pl target im) false.

(** One pixel of [dst.paste(src, mask=mask)] for an RGB destination: the
    colour bands of the source are mixed into the destination according
    to the mask. *)
Definition paste_pixel (pl : Pillow) (d s : pixel) (m : Z) : pixel :=
  map (fun ds => blend pl (fst ds) (snd ds) m) (combine d s).

Fixpoint paste_data (pl : Pillow) (dst src : list pixel) (mask : list Z)
  : list pixel :=
  match dst, src, mask with
  | d :: dst', s :: src', m :: mask' =>
      paste_pixel pl d s m :: paste_data pl dst' src' mask'
  | _, _, _ => dst
  end.

(** The colour bands of a source pixel as an RGB destination reads them. *)
Definition rgb_bands (m : Mode) (px : pixel) : pixel :=
  match m with
  | LA | L => let l := hd 0 px in [l; l; l]
  | _ => firstn 3 px
  end.

Definition paste (pl : Pillow) (dst src : Image) (mask : list Z) : Image :=
  mkImage (mode dst) (size dst)
          (paste_data pl (data dst) (map (rgb_bands (mode src)) (data src)) mask)
          (info_transparency dst).

(** [image.getpixel] by raster index. *)
Definition getpixel (im : Image) (i : nat) : option pixel :=
  nth_error (data im) i.

End pil.

(** ** pandas, as the converters use it

    A frame is a list of typed, named columns over a shared row index; a
    cell is a value or missing ([NaN]).  What the readers and the
    transformations depend on is written out: the rows, columns and index
    of the frames built from JSON, [dropna], the [str] accessor, [rename]
    and the selection of columns by name.  The dtype pandas gives a column
    of Python objects, the form in which it stores them, its parsers and
    every call outside these shapes are fields of [Pandas]. *)

Module pandas.

Import py.

Inductive label := LStr (s : string) | LInt (z : Z).

Definition label_eqb (a b : label) : bool :=
  match a, b with
  | LStr x, LStr y => (x =? y)%string
  | LInt x, LInt y => x =? y
  | _, _ => false
  end.

Definition label_in (l : label) (ls : list label) : bool :=
  existsb (label_eqb l) ls.

(** A cell: [None] is [NaN], [Some VNone] is a stored [None]. *)
Definition cell : Type := option value.

Inductive Dtype := object | int64 | float64 | bool_ | other_dtype (name : string).

Record Column := mkColumn {
  col_name : label;
  dtype : Dtype;
  cells : list cell
}.

Record DataFrame := mkFrame {
  index : list label;
  cols : list Column
}.

(** [df.columns] and [len(df)]. *)
Definition columns (df : DataFrame) : list label := map col_name (cols df).
Definition nrows (df : DataFrame) : Z := len (index df).

(** Row [i], one cell per column. *)
Definition row (df : DataFrame) (i : nat) : list (label * cell) :=
  map (fun c => (col_name c, nth i (cells c) None)) (cols df).

(** The rows of a frame, top to bottom: the label of each with its cells. *)
Definition rows (df : DataFrame) : list (label * list cell) :=
  map (fun i => (nth i (index df) (LInt (Z.of_nat i)),
                 map (fun c => nth i (cells c) None) (cols df)))
      (seq 0 (List.length (index df))).

(** Every column of a frame has one cell per row. *)
Definition wf (df : DataFrame) : Prop :=
  Forall (fun c => List.length (cells c) = List.length (index df)) (cols df).

(** The calls whose results the converters use. *)
Inductive frame_call :=
| DataFrame_ (data : value)                       (* pd.DataFrame(data) *)
| DataFrame_columns (data columns : value)        (* pd.DataFrame(data, columns=...) *)
| from_dict_index (data : value)                  (* pd.DataFrame.from_dict(data, orient="index") *)
| read_json (content : string) (orient : value)   (* pd.read_json(content, orient=...) *)
| read_json_path (path : py.Path) (orient encoding : value)
                                  (* pd.read_json(path, orient=..., encoding=...) *)
| rename_columns (df : DataFrame) (mapping : dict)  (* df.rename(columns=mapping) *)
| getitem_list (df : DataFrame) (key : list value). (* df[key] *)

Record Pandas := mkPandas {
  (** a call outside the shapes written out below *)
  other_frame : frame_call -> result pil.ext_exn DataFrame;
  (** the dtype of a column built from these Python objects *)
  infer_dtype : list cell -> Dtype;
  (** the form in which a column of that dtype stores an object: an
      integer of a [float64] column is stored as a float *)
  store : Dtype -> cell -> cell;
  (** [key in index] for a key that is no [str] and no [int] *)
  contains_other : list label -> value -> result pil.ext_exn bool;
  (** [pd.read_csv(path, encoding=..., delimiter=..., header=...,
      low_memory=False, on_bad_lines="warn")] *)
  read_csv : Path -> value -> value -> value -> result pil.ext_exn DataFrame
}.

Definition is_missing (c : cell) : bool :=
  match c with None | Some VNone => true | _ => false end.

Definition is_number_or_missing (c : cell) : bool :=
  match c with
  | None | Some VNone | Some (VInt _) | Some (VFloat _) => true
  | _ => false
  end.
Definition is_bool_cell (c : cell) : bool :=
  match c with Some (VBool _) => true | _ => false end.

(** A column built from Python objects. *)
Definition column_of (pd : Pandas) (name : label) (objects : list cell) : Column :=
  let dtype := infer_dtype pd objects in
  mkColumn name dtype (map (store pd dtype) objects).

Definition range_index (n : nat) : list label :=
  map (fun i => LInt (Z.of_nat i)) (seq 0 n).

(** Keys in order of first appearance. *)
Fixpoint add_keys (seen : list string) (ks : list string) : list string :=
  match ks with
  | [] => seen
  | k :: ks' => add_keys (if str_in k seen then seen else (seen ++ [k])%list) ks'
  end.

(** The keys of several dictionaries, in order of first appearance. *)
Definition all_keys {V : Type} (ds : list (list (string * V))) : list string :=
  fold_left (fun seen d => add_keys seen (dict_keys d)) ds [].

Definition as_object (v : value) : option dict :=
  match v with VDict d => Some d | _ => None end.
Definition as_array (v : value) : option (list value) :=
  match v with VList l => Some l | _ => None end.

Definition is_object (v : value) : bool :=
  match v with VDict _ => true | _ => false end.
Definition is_array (v : value) : bool :=
  match v with VList _ => true | _ => false end.

(** All records of a list of objects, when every element is one. *)
Fixpoint all_objects (l : list value) : option (list dict) :=
  match l with
  | [] => Some []
  | v :: l' =>
      match as_object v, all_objects l' with
      | Some d, Some ds => Some (d :: ds)
      | _, _ => None
      end
  end.

Fixpoint all_arrays (l : list value) : option (list (list value)) :=
  match l with
  | [] => Some []
  | v :: l' =>
      match as_array v, all_arrays l' with
      | Some a, Some rest => Some (a :: rest)
      | _, _ => None
      end
  end.

(** A frame with one row per record: the columns are the keys in order of
    first appearance, a key a record lacks is a missing cell. *)
Definition of_records (pd : Pandas) (records : list dict) : DataFrame :=
  mkFrame (range_index (List.length records))
    (map (fun k => column_of pd (LStr k) (map (fun d => dict_get k d) records))
         (all_keys records)).

(** A frame with one column per key, each array a column. *)
Definition of_columns (pd : Pandas) (keys : list string)
  (arrays : list (list value)) (n : nat) : DataFrame :=
  mkFrame (range_index n)
    (map (fun ka => column_of pd (LStr (fst ka)) (map Some (snd ka)))
         (combine keys arrays)).

(** [pd.DataFrame(data)]: a list of objects is a list of records; an
    object whose values are arrays of one length is a table by columns. *)
Definition DataFrame_of (pd : Pandas) (data : value)
  : result pil.ext_exn DataFrame :=
  match data with
  | VList l =>
      match all_objects l with
      | Some records => Return (of_records pd records)
      | None => other_frame pd (DataFrame_ data)
      end
  | VDict ((_ :: _) as d) =>
      match all_arrays (map snd d) with
      | Some ((a :: _) as arrays) =>
          if forallb (fun b => Nat.eqb (List.length b) (List.length a)) arrays
          then Return (of_columns pd (dict_keys d) arrays (List.length a))
          else other_frame pd (DataFrame_ data)
      | _ => other_frame pd (DataFrame_ data)
      end
  | _ => other_frame pd (DataFrame_ data)
  end.

(** [_from_nested_dict]: the objects of an object, turned round.  Every
    inner key, in order of first appearance, is given the outer keys that
    hold it, with their values. *)
Definition from_nested_dict (d : list (string * dict))
  : list (string * dict) :=
  map (fun col =>
         (col, flat_map (fun entry =>
                           match dict_get col (snd entry) with
                           | Some v => [(fst entry, v)]
                           | None => []
                           end) d))
      (all_keys (map snd d)).

(** The frame of an object of objects by columns: the index is made of the
    keys of the columns in order of first appearance, and a key a column
    lacks is a missing cell. *)
Definition of_nested (pd : Pandas) (new_data : list (string * dict)) : DataFrame :=
  let idx := all_keys (map snd new_data) in
  mkFrame (map LStr idx)
    (map (fun col => column_of pd (LStr (fst col))
                       (map (fun k => dict_get k (snd col)) idx))
         new_data).

Fixpoint all_entries (d : dict) : option (list (string * dict)) :=
  match d with
  | [] => Some []
  | (k, v) :: d' =>
      match as_object v, all_entries d' with
      | Some o, Some rest => Some ((k, o) :: rest)
      | _, _ => None
      end
  end.

(** [pd.DataFrame.from_dict(data, orient="index")] for an object of
    objects. *)
Definition DataFrame_from_dict_index (pd : Pandas) (data : value)
  : result pil.ext_exn DataFrame :=
  match data with
  | VDict ((_ :: _) as d) =>
      match all_entries d with
      | Some entries => Return (of_nested pd (from_nested_dict entries))
      | None => other_frame pd (from_dict_index data)
      end
  | _ => other_frame pd (from_dict_index data)
  end.

(** The label a [str] or an [int] is in an index. *)
Definition value_label (v : value) : option label :=
  match v with
  | VStr s => Some (LStr s)
  | VInt z => Some (LInt z)
  | _ => None
  end.

Fixpoint all_labels (vs : list value) : option (list label) :=
  match vs with
  | [] => Some []
  | v :: vs' =>
      match value_label v, all_labels vs' with
      | Some l, Some ls => Some (l :: ls)
      | _, _ => None
      end
  end.

(** [key in index]. *)
Definition contains (pd : Pandas) (idx : list label) (key : value)
  : result pil.ext_exn bool :=
  match value_label key with
  | Some l => Return (label_in l idx)
  | None => contains_other pd idx key
  end.

(** [df.dropna(how="all")]: a row goes when every cell of it is missing. *)
Definition row_all_missing (df : DataFrame) (i : nat) : bool :=
  forallb (fun c => is_missing (nth i (cells c) None)) (cols df).

Fixpoint keep_at {A : Type} (keep : nat -> bool) (i : nat) (xs : list A) : list A :=
  match xs with
  | [] => []
  | x :: xs' =>
      if keep i then x :: keep_at keep (S i) xs' else keep_at keep (S i) xs'
  end.

Definition dropna_rows (df : DataFrame) : DataFrame :=
  let keep := fun i => negb (row_all_missing df i) in
  mkFrame (keep_at keep 0%nat (index df))
    (map (fun c => mkColumn (col_name c) (dtype c) (keep_at keep 0%nat (cells c)))
         (cols df)).

(** [df.dropna(axis=1, how="all")]: a column goes when every cell of it
    is missing. *)
Definition dropna_columns (df : DataFrame) : DataFrame :=
  mkFrame (index df)
    (filter (fun c => negb (forallb is_missing (cells c))) (cols df)).

Definition dtype_is_object (d : Dtype) : bool :=
  match d with object => true | _ => false end.

(** [df.select_dtypes(include=["object"]).columns]. *)
Definition object_columns (df : DataFrame) : list label :=
  map col_name (filter (fun c => dtype_is_object (dtype c)) (cols df)).

(** One cell of [series.str.strip()]: text is stripped, anything else
    becomes missing. *)
Definition str_strip_cell (c : cell) : cell :=
  match c with
  | Some (VStr s) => Some (VStr (strip s))
  | _ => None
  end.

(** Whether [series.str] exists: pandas refuses the accessor on an object
    column whose values are all numbers or all booleans. *)
Definition str_accessor_ok (cs : list cell) : bool :=
  let present := filter (fun c => negb (is_missing c)) cs in
  match present with
  | [] => true
  | _ =>
      negb (forallb is_number_or_missing present)
      && negb (forallb is_bool_cell present)
  end.

(** [df[col] = df[col].str.strip()]: the result of the accessor is an
    object column.  With two columns of that name [df[col]] is a frame,
    which has no [str]. *)
Definition strip_column (df : DataFrame) (col : label)
  : result pil.ext_exn DataFrame :=
  match filter (fun c => label_eqb (col_name c) col) (cols df) with
  | [c] =>
      if str_accessor_ok (cells c) then
        Return (mkFrame (index df)
          (map (fun c' =>
                  if label_eqb (col_name c') col
                  then mkColumn col object (map str_strip_cell (cells c'))
                  else c')
               (cols df)))
      else Raise (pil.mkExt "AttributeError"
                    "Can only use .str accessor with string values!")
  | _ => Raise (pil.mkExt "AttributeError"
                  "'DataFrame' object has no attribute 'str'")
  end.

(** *** What the transformations make of a frame *)

Definition has_value (cs : list cell) : bool :=
  existsb (fun c => negb (is_missing c)) cs.

(** [out] is [df] without the rows that hold no value: the rows that stay
    are in their order, and the columns keep their names and dtypes. *)
Definition rows_dropped (df out : DataFrame) : Prop :=
  rows out = filter (fun r => has_value (snd r)) (rows df)
  /\ map col_name (cols out) = map col_name (cols df)
  /\ map dtype (cols out) = map dtype (cols df)
  /\ wf out.

(** [out] is [df] without the columns that hold no value. *)
Definition columns_dropped (df out : DataFrame) : Prop :=
  index out = index df
  /\ cols out = filter (fun c => has_value (cells c)) (cols df).

(** Every object column of [df] can be stripped: it is the only column of
    its name, and its [str] accessor exists. *)
Definition strippable (df : DataFrame) : Prop :=
  forall c, In c (cols df) -> dtype c = object ->
    filter (fun c' => label_eqb (col_name c') (col_name c)) (cols df) = [c]
    /\ str_accessor_ok (cells c) = true.

(** [out] is [df] with every object column stripped: its texts are
    stripped, and its cells that are no text become missing. *)
Definition stripped (df out : DataFrame) : Prop :=
  index out = index df
  /\ Forall2 (fun c c' =>
                if dtype_is_object (dtype c)
                then c' = mkColumn (col_name c) object
                            (map str_strip_cell (cells c))
                else c' = c)
             (cols df) (cols out).

(** [out] is [df] with the columns named by a key of [mapping] renamed. *)
Definition renamed (mapping : list (string * label)) (df out : DataFrame) : Prop :=
  index out = index df
  /\ Forall2 (fun c c' =>
                col_name c' = match col_name c with
                              | LStr s => match dict_get s mapping with
                                          | Some l => l
                                          | None => LStr s
                                          end
                              | LInt z => LInt z
                              end
                /\ dtype c' = dtype c /\ cells c' = cells c)
             (cols df) (cols out).

(** [out] is [df] reduced to the columns of the names that are columns of
    [df], in the order of [names]; when none of the names is a column,
    [out] is [df]. *)
Definition selected (names : list label) (df out : DataFrame) : Prop :=
  match filter (fun l => label_in l (columns df)) names with
  | [] => out = df
  | present =>
      index out = index df
      /\ cols out
         = flat_map (fun l => filter (fun c => label_eqb (col_name c) l) (cols df))
                    present
  end.

(** *** The shapes of the frames built from JSON *)

(** The column [c] holds the objects [objects], one per row, in the form
    in which a column of its dtype stores them. *)
Definition holds (pd : Pandas) (c : Column) (objects : list cell) : Prop :=
  cells c = map (store pd (dtype c)) objects.

(** One row per record, in order, under the index 0, 1, ...; one column
    per key, in order of first appearance; the cell of a record under a
    key holds the entry of the record, and is missing when it has none. *)
Definition rows_of_records (pd : Pandas) (records : list dict)
  (df : DataFrame) : Prop :=
  index df = range_index (List.length records)
  /\ Forall2 (fun k c => col_name c = LStr k
                         /\ holds pd c (map (fun d => dict_get k d) records))
             (all_keys records) (cols df).

(** One column per key, in order, holding the array of the key; one row
    per element, under the index 0, 1, ... *)
Definition columns_of_arrays (pd : Pandas) (keys : list string)
  (arrays : list (list value)) (n : nat) (df : DataFrame) : Prop :=
  index df = range_index n
  /\ Forall2 (fun ka c => col_name c = LStr (fst ka)
                          /\ holds pd c (map Some (snd ka)))
             (combine keys arrays) (cols df).

(** One row per outer key whose object is not empty, labelled by the key;
    one column per inner key, in order of first appearance; the cell of an
    outer key under an inner key holds the entry of its object, and is
    missing when the object has none.  The rows are in the order of the
    outer keys when every object has the first key of the first. *)
Definition rows_of_entries (pd : Pandas) (entries : list (string * dict))
  (df : DataFrame) : Prop :=
  exists idx,
    index df = map LStr idx
    /\ NoDup idx
    /\ (forall o, In o idx <-> exists d, In (o, d) entries /\ d <> [])
    /\ ((exists k0, hd_error (all_keys (map snd entries)) = Some k0
                    /\ forall o d, In (o, d) entries -> In k0 (dict_keys d)) ->
        idx = map fst entries)
    /\ Forall2 (fun k c =>
                  col_name c = LStr k
                  /\ holds pd c
                       (map (fun o => match dict_get o entries with
                                      | Some d => dict_get k d
                                      | None => None
                                      end) idx))
               (all_keys (map snd entries)) (cols df).

(** [df.rename(columns=mapping)] for a mapping to names: a column whose
    name is a key of the mapping takes the mapped name. *)
Definition rename_label (mapping : list (string * label)) (l : label) : label :=
  match l with
  | LStr s => match dict_get s mapping with Some l' => l' | None => l end
  | LInt _ => l
  end.

Definition rename (df : DataFrame) (mapping : list (string * label)) : DataFrame :=
  mkFrame (index df)
    (map (fun c => mkColumn (rename_label mapping (col_name c)) (dtype c) (cells c))
         (cols df)).

(** [df[labels]] for labels that are all columns of [df]: the columns of
    each requested name, in the order requested. *)
Definition getitem (df : DataFrame) (labels : list label) : DataFrame :=
  mkFrame (index df)
    (flat_map (fun l => filter (fun c => label_eqb (col_name c) l) (cols df))
              labels).

End pandas.

(** ** pypdf, as the converters use it *)

Module pypdf.

(** A page, by what [page.extract_text()] gives: text, nothing, or an
    exception of the parser. *)
Record Page := mkPage {
  extract_text : py.result pil.ext_exn (option string)
}.

(** [text or ""], and the truthiness of an extracted text. *)
Definition text_or_empty (t : option string) : string :=
  match t with Some s => s | None => "" end.

(** The pages numbered [nums] can all be read, with these results: each
    is a page of the document whose text extraction returns. *)
Definition readable (pages : list Page) (nums : list Z)
  (texts : list (option string)) : Prop :=
  Forall2 (fun n t => exists p, py.index pages n = Some p
                                /\ extract_text p = py.Return t)
          nums texts.

End pypdf.

(** ** converters.py *)

Module converters.

Import py.

Inductive ConversionStatus := SUCCESS | PARTIAL_SUCCESS | FAILURE | SKIPPED.

Definition status_eqb (a b : ConversionStatus) : bool :=
  match a, b with
  | SUCCESS, SUCCESS | PARTIAL_SUCCESS, PARTIAL_SUCCESS
  | FAILURE, FAILURE | SKIPPED, SKIPPED => true
  | _, _ => false
  end.

(** [duration_seconds] is a [float] that is only ever summed; it is kept
    as a rational. *)
Record ConversionStatistics := mkStats {
  files_processed : Z;
  files_succeeded : Z;
  files_failed : Z;
  files_skipped : Z;
  total_bytes_read : Z;
  total_bytes_written : Z;
  duration_seconds : Q
}.

(** [ConversionStatistics()]: every field at its default. *)
Definition no_statistics : ConversionStatistics :=
  mkStats 0 0 0 0 0 0 0%Q.

Record ConversionResult := mkResult {
  status : ConversionStatus;
  input_path : Path;
  output_path : option Path;
  error_message : option string;
  statistics : ConversionStatistics;
  metadata : dict
}.

Definition is_success (r : ConversionResult) : bool :=
  status_eqb (status r) SUCCESS || status_eqb (status r) PARTIAL_SUCCESS.

Record BatchConversionResult := mkBatch {
  results : list ConversionResult;
  batch_statistics : ConversionStatistics
}.

(** [BatchConversionResult()]. *)
Definition empty_batch : BatchConversionResult := mkBatch [] no_statistics.

(** [sum(1 for r in self.results if r.is_success)]. *)
Definition successes (rs : list ConversionResult) : Z :=
  len (filter is_success rs).

(** The [status] property of a batch. *)
Definition batch_status (b : BatchConversionResult) : ConversionStatus :=
  match results b with
  | [] => SKIPPED
  | _ =>
      if successes (results b) =? len (results b) then SUCCESS
      else if successes (results b) >? 0 then PARTIAL_SUCCESS
      else FAILURE
  end.

Definition batch_is_success (b : BatchConversionResult) : bool :=
  status_eqb (batch_status b) SUCCESS
  || status_eqb (batch_status b) PARTIAL_SUCCESS.

Definition _update_statistics (self : ConversionStatistics)
  (result : ConversionResult) : ConversionStatistics :=
  let stats := statistics result in
  mkStats
    (files_processed self + 1)
    (files_succeeded self + (if is_success result then 1 else 0))
    (files_failed self + (if status_eqb (status result) FAILURE then 1 else 0))
    (files_skipped self + (if status_eqb (status result) SKIPPED then 1 else 0))
    (total_bytes_read self + total_bytes_read stats)
    (total_bytes_written self + total_bytes_written stats)
    (duration_seconds self + duration_seconds stats)%Q.

Definition add_result (self : BatchConversionResult)
  (result : ConversionResult) : BatchConversionResult :=
  mkBatch (results self ++ [result])
          (_update_statistics (batch_statistics self) result).

(** *** Exceptions *)

Inductive exn :=
| ConversionError (message : string)
| UnsupportedFormatError (format_name : string) (supported_formats : list string)
| FileNotFoundError (path : Path)
| InvalidInputError (message : string)
| OutputError (message : string)
| ValueError (message : string)
| External (e : pil.ext_exn).

(** [str(e)]. *)
Definition exn_message (e : exn) : string :=
  match e with
  | ConversionError m | InvalidInputError m | OutputError m | ValueError m => m
  | UnsupportedFormatError f supported =>
      "Unsupported format: '" ++ f ++ "'. Supported formats: "
      ++ join ", " supported
  | FileNotFoundError p => "File not found: " ++ path_str p
  | External e => pil.exn_text e
  end.

Definition is_UnsupportedFormatError (e : exn) : bool :=
  match e with UnsupportedFormatError _ _ => true | _ => false end.

(** A platform call inside library code. *)
Definition platform {A : Type} (r : result pil.ext_exn A) : result exn A :=
  match r with
  | Return a => Return a
  | Raise e => Raise (External e)
  end.

(** The file system and clock, as one conversion call sees them. *)
Record FileSystem := mkFS {
  path_exists : Path -> bool;
  path_is_file : Path -> bool;
  (** [_get_file_size] of an input: its size, 0 when it cannot be read *)
  file_size : Path -> Z;
  (** [mkdir(parents=True, exist_ok=True)] *)
  mkdir : string -> result pil.ext_exn unit;
  (** [time.time() - start_time] at the end of the call *)
  elapsed : Q
}.

Definition _validate_input_file (fs : FileSystem) (input_path : Path)
  : result exn unit :=
  if negb (path_exists fs input_path) then Raise (FileNotFoundError input_path)
  else if negb (path_is_file fs input_path) then
    Raise (InvalidInputError ("Path is not a file: " ++ path_str input_path))
  else Return tt.

Definition _ensure_output_dir (fs : FileSystem) (output_path : Path)
  : result exn unit :=
  platform (mkdir fs (parent output_path)).

(** The [Failure] result every converter builds in its [except] clause. *)
Definition failure_result (fs : FileSystem) (input_path : Path) (e : exn)
  : ConversionResult :=
  mkResult FAILURE input_path None (Some (exn_message e))
    (mkStats 1 0 1 0 0 0 (elapsed fs)) [].

Definition success_result (fs : FileSystem) (input_path output_path : Path)
  (bytes_read bytes_written : Z) (meta : dict) : ConversionResult :=
  mkResult SUCCESS input_path (Some output_path) None
    (mkStats 1 1 0 0 bytes_read bytes_written (elapsed fs)) meta.

(** *** Image converter *)

Inductive ImageFormat := PNG | JPG | JPEG | WEBP | BMP | GIF.

Definition ImageFormat_value (f : ImageFormat) : string :=
  match f with
  | PNG => "png" | JPG => "jpg" | JPEG => "jpeg"
  | WEBP => "webp" | BMP => "bmp" | GIF => "gif"
  end.

Definition ImageFormat_all : list ImageFormat := [PNG; JPG; JPEG; WEBP; BMP; GIF].

Definition ImageFormat_eqb (a b : ImageFormat) : bool :=
  (ImageFormat_value a =? ImageFormat_value b)%string.

Definition ImageFormat_from_extension (ext : string) : result exn ImageFormat :=
  let ext := lstrip_dot (lower ext) in
  match find (fun f => (ImageFormat_value f =? ext)%string) ImageFormat_all with
  | Some f => Return f
  | None => Raise (UnsupportedFormatError ext (map ImageFormat_value ImageFormat_all))
  end.

Definition get_pillow_format (f : ImageFormat) : string :=
  match f with
  | PNG => "PNG" | JPG | JPEG => "JPEG"
  | WEBP => "WEBP" | BMP => "BMP" | GIF => "GIF"
  end.

Definition supports_quality (f : ImageFormat) : bool :=
  match f with JPG | JPEG | WEBP => true | _ => false end.

Definition get_extension (f : ImageFormat) : string :=
  match f with
  | JPEG => ".jpg"
  | _ => "." ++ ImageFormat_value f
  end.

Record ImageConversionOptions := mkImageOptions {
  quality : Z;
  width : option Z;
  height : option Z;
  scale : option Q;
  preserve_aspect_ratio : bool;
  optimize : bool
}.

(** [__post_init__]. *)
Definition ImageConversionOptions_post_init (self : ImageConversionOptions)
  : result exn unit :=
  if (quality self <? 1) || (quality self >? 100) then
    Raise (ValueError "Quality must be between 1 and 100")
  else if match scale self with Some s => Qle_bool s 0 | None => false end then
    Raise (ValueError "Scale must be positive")
  else if match width self with Some w => w <=? 0 | None => false end then
    Raise (ValueError "Width must be positive")
  else if match height self with Some h => h <=? 0 | None => false end then
    Raise (ValueError "Height must be positive")
  else Return tt.

(** The constructor [ImageConversionOptions(quality=..., ...)]: the
    dataclass is built, then [__post_init__] validates it. *)
Definition new_ImageConversionOptions (quality : Z) (width height : option Z)
  (scale : option Q) (preserve_aspect_ratio optimize : bool)
  : result exn ImageConversionOptions :=
  let self := mkImageOptions quality width height scale
                preserve_aspect_ratio optimize in
  _ <- ImageConversionOptions_post_init self ;;
  Return self.

(** [ImageConversionOptions()]. *)
Definition default_ImageConversionOptions : ImageConversionOptions :=
  mkImageOptions 85 None None None true true.

(** Pillow's file operations and the floating-point size computation of
    the resize step, for one call of [ImageConverter.convert]. *)
Record ImageIO := mkImageIO {
  image_open : Path -> result pil.ext_exn pil.Image;
  (** [img.save(path, format=..., **kwargs)], giving the size of the
      written file *)
  image_save : pil.Image -> Path -> string -> dict -> result pil.ext_exn Z;
  (** [int(img.width * scale)] and [_calculate_new_size] *)
  new_size : pil.Image -> ImageConversionOptions -> Z * Z
}.

Record ImageConverter := mkImageConverter { _pillow_available : bool }.

(** Lines 392-403: compositing onto white for the formats without alpha. *)
Definition flatten_for_output (pl : pil.Pillow) (output_format : ImageFormat)
  (img : pil.Image) : result exn pil.Image :=
  match output_format with
  | JPG | JPEG | BMP =>
      if pil.mode_in (pil.mode img) [pil.RGBA; pil.P; pil.LA] then
        background <- platform (pil.new_rgb pl (pil.size img)
            (VTuple [VInt 255; VInt 255; VInt 255])) ;;
        let img := if pil.mode_eqb (pil.mode img) pil.P
                   then pil.convert pl pil.RGBA img else img in
        let background :=
          if pil.mode_in (pil.mode img) [pil.RGBA; pil.LA]
          then pil.paste pl background img (pil.last_band img)
          else background in
        Return background
      else if negb (pil.mode_eqb (pil.mode img) pil.RGB) then
        Return (pil.convert pl pil.RGB img)
      else Return img
  | _ => Return img
  end.

Definition resize_step (pl : pil.Pillow) (io : ImageIO)
  (options : ImageConversionOptions) (img : pil.Image) : result exn pil.Image :=
  match scale options, width options, height options with
  | None, None, None => Return img
  | _, _, _ => platform (pil.resize pl img (new_size io img options))
  end.

Definition save_kwargs (output_format : ImageFormat)
  (options : ImageConversionOptions) : dict :=
  ((if supports_quality output_format
    then [("quality", VInt (quality options))] else [])
   ++ (if optimize options
          && existsb (ImageFormat_eqb output_format) [PNG; JPG; JPEG]
       then [("optimize", VBool true)] else []))%list.

Definition size_value (sz : Z * Z) : value := VTuple [VInt (fst sz); VInt (snd sz)].

(** The body of the [try] block of [ImageConverter.convert]. *)
Definition convert_try (pl : pil.Pillow) (fs : FileSystem) (io : ImageIO)
  (input_path output_path : Path) (output_format : option ImageFormat)
  (options : ImageConversionOptions) : result exn ConversionResult :=
  _ <- _validate_input_file fs input_path ;;
  output_format <- match output_format with
                   | None => ImageFormat_from_extension (suffix output_path)
                   | Some f => Return f
                   end ;;
  _ <- _ensure_output_dir fs output_path ;;
  let bytes_read := file_size fs input_path in
  img <- platform (image_open io input_path) ;;
  let original_size := pil.size img in
  img <- flatten_for_output pl output_format img ;;
  img <- resize_step pl io options img ;;
  let img := if ImageFormat_eqb output_format GIF
                && negb (pil.mode_in (pil.mode img) [pil.P; pil.L])
             then pil.convert pl pil.P img else img in
  bytes_written <- platform (image_save io img output_path
                     (get_pillow_format output_format)
                     (save_kwargs output_format options)) ;;
  Return (success_result fs input_path output_path bytes_read bytes_written
            [ ("original_size", size_value original_size);
              ("new_size", size_value (pil.size img));
              ("input_format", VStr (lower (suffix input_path)));
              ("output_format", VStr (ImageFormat_value output_format)) ]).

(** [ImageConverter.convert]: [_ensure_pillow] runs before the [try]; an
    [UnsupportedFormatError] is re-raised, every other exception becomes a
    [Failure] result. *)
Definition ImageConverter_convert (self : ImageConverter) (pl : pil.Pillow)
  (fs : FileSystem) (io : ImageIO) (input_path output_path : Path)
  (output_format : option ImageFormat) (options : option ImageConversionOptions)
  : result exn ConversionResult :=
  if negb (_pillow_available self) then
    Raise (ConversionError
      "Pillow library is required for image conversion. Install it with: pip install Pillow")
  else
    let options := match options with
                   | Some o => o
                   | None => default_ImageConversionOptions
                   end in
    match convert_try pl fs io input_path output_path output_format options with
    | Return r => Return r
    | Raise e =>
        if is_UnsupportedFormatError e then Raise e
        else Return (failure_result fs input_path e)
    end.

(** The loop of [batch_convert]: one [convert] per input, in order; an
    exception that escapes [convert] ends the loop and the call. *)
Fixpoint batch_loop (convert_one : Path -> result exn ConversionResult)
  (input_paths : list Path) (batch_result : BatchConversionResult)
  : result exn BatchConversionResult :=
  match input_paths with
  | [] => Return batch_result
  | input_path :: rest =>
      result <- convert_one input_path ;;
      batch_loop convert_one rest (add_result batch_result result)
  end.

Definition ImageConverter_batch_convert (self : ImageConverter)
  (pl : pil.Pillow) (fs : FileSystem) (io : ImageIO)
  (input_paths : list Path) (output_dir : string) (output_format : ImageFormat)
  (options : option ImageConversionOptions)
  : result exn BatchConversionResult :=
  let batch_result := empty_batch in
  if len input_paths =? 0 then Return batch_result
  else
    _ <- platform (mkdir fs output_dir) ;;
    batch_loop
      (fun input_path =>
         let output_path := mkPath output_dir (stem input_path)
                              (get_extension output_format) in
         ImageConverter_convert self pl fs io input_path output_path
           (Some output_format) options)
      input_paths batch_result.

(** *** Document converter *)

Record PDFConversionOptions := mkPDFOptions {
  page_range : option (Z * Z);
  image_dpi : Z;
  image_format : ImageFormat
}.

Definition PDFConversionOptions_post_init (self : PDFConversionOptions)
  : result exn unit :=
  if (image_dpi self <? 72) || (image_dpi self >? 600) then
    Raise (ValueError "DPI must be between 72 and 600")
  else
    match page_range self with
    | Some (start, end_) =>
        if (start <? 0) || (end_ <? start) then
          Raise (ValueError "Invalid page range")
        else Return tt
    | None => Return tt
    end.

Definition new_PDFConversionOptions (page_range : option (Z * Z))
  (image_dpi : Z) (image_format : ImageFormat)
  : result exn PDFConversionOptions :=
  let self := mkPDFOptions page_range image_dpi image_format in
  _ <- PDFConversionOptions_post_init self ;;
  Return self.

Definition default_PDFConversionOptions : PDFConversionOptions :=
  mkPDFOptions None 200 PNG.

Record DocumentIO := mkDocumentIO {
  (** [PdfReader(path).pages] *)
  pdf_pages : Path -> result pil.ext_exn (list pypdf.Page);
  (** [path.write_text(text, encoding="utf-8")], giving the size written *)
  write_text : Path -> string -> result pil.ext_exn Z
}.

Record DocumentConverter := mkDocumentConverter {
  _pypdf_available : bool;
  _pdf2image_available : bool
}.

(** The page marker and text appended for one page. *)
Definition page_entry (page_num : Z) (text : string) : string :=
  "--- Page " ++ str_of_Z (page_num + 1) ++ " ---" ++ nl ++ text ++ nl.

(** The extraction loop over [range(start_page, end_page)]. *)
Fixpoint extract_pages (pages : list pypdf.Page) (page_nums : list Z)
  (extracted_text : list string) (total_chars : Z)
  : result exn (list string * Z) :=
  match page_nums with
  | [] => Return (extracted_text, total_chars)
  | page_num :: rest =>
      page <- match index pages page_num with
              | Some p => Return p
              | None => Raise (External (pil.mkExt "IndexError" "sequence index out of range"))
              end ;;
      t <- platform (pypdf.extract_text page) ;;
      let text := pypdf.text_or_empty t in
      extract_pages pages rest
        (extracted_text ++ [page_entry page_num text])%list
        (total_chars + char_len text)
  end.

(** Lines 682-687: the pages selected by the options. *)
Definition selected_pages (options : PDFConversionOptions) (total_pages : Z)
  : Z * Z :=
  match page_range options with
  | Some (first, last) =>
      (Z.min first (total_pages - 1), Z.min (last + 1) total_pages)
  | None => (0, total_pages)
  end.

(** Lines 680-705: the text to write, with the number of pages processed
    and of characters extracted. *)
Definition extract_full_text (pages : list pypdf.Page)
  (options : PDFConversionOptions) : result exn (string * Z * Z) :=
  let total_pages := len pages in
  let '(start_page, end_page) := selected_pages options total_pages in
  let pages_to_process := end_page - start_page in
  '(extracted_text, total_chars) <-
     extract_pages pages (range start_page end_page) [] 0 ;;
  Return (join nl extracted_text, pages_to_process, total_chars).

Definition pdf_to_text_try (fs : FileSystem) (io : DocumentIO)
  (input_path output_path : Path) (options : PDFConversionOptions)
  : result exn ConversionResult :=
  _ <- _validate_input_file fs input_path ;;
  let bytes_read := file_size fs input_path in
  _ <- _ensure_output_dir fs output_path ;;
  pages <- platform (pdf_pages io input_path) ;;
  '(full_text, pages_to_process, total_chars) <-
     extract_full_text pages options ;;
  bytes_written <- platform (write_text io output_path full_text) ;;
  Return (success_result fs input_path output_path bytes_read bytes_written
            [ ("page_count", VInt (len pages));
              ("pages_extracted", VInt pages_to_process);
              ("total_characters", VInt total_chars) ]).

Definition pdf_to_text (self : DocumentConverter) (fs : FileSystem)
  (io : DocumentIO) (input_path output_path : Path)
  (options : option PDFConversionOptions) : result exn ConversionResult :=
  if negb (_pypdf_available self) then
    Raise (ConversionError
      "pypdf library is required for PDF text extraction. Install it with: pip install pypdf")
  else
    let options := match options with
                   | Some o => o
                   | None => default_PDFConversionOptions
                   end in
    match pdf_to_text_try fs io input_path output_path options with
    | Return r => Return r
    | Raise e => Return (failure_result fs input_path e)
    end.

(** *** Data converter *)

Inductive DataFormat := CSV | JSON | EXCEL.

Definition DataFormat_value (f : DataFormat) : string :=
  match f with CSV => "csv" | JSON => "json" | EXCEL => "xlsx" end.

Definition DataFormat_eqb (a b : DataFormat) : bool :=
  match a, b with
  | CSV, CSV | JSON, JSON | EXCEL, EXCEL => true
  | _, _ => false
  end.

Definition DataFormat_mapping : list (string * DataFormat) :=
  [ ("csv", CSV); ("json", JSON); ("xlsx", EXCEL); ("xls", EXCEL) ].

Definition DataFormat_from_extension (ext : string) : result exn DataFormat :=
  let ext := lstrip_dot (lower ext) in
  match dict_get ext DataFormat_mapping with
  | Some f => Return f
  | None => Raise (UnsupportedFormatError ext (dict_keys DataFormat_mapping))
  end.

Record DataConversionOptions := mkDataOptions {
  csv_delimiter : string;
  csv_encoding : string;
  csv_header : bool;
  json_indent : option Z;
  json_orient : string;
  excel_sheet_name : string;
  excel_index : bool;
  date_format : option string
}.

Definition valid_orients : list string :=
  ["records"; "columns"; "index"; "split"; "table"; "values"].

Definition DataConversionOptions_post_init (self : DataConversionOptions)
  : result exn unit :=
  if negb (str_in (json_orient self) valid_orients) then
    Raise (ValueError ("Invalid json_orient. Must be one of: ["
                       ++ join ", " (map (fun o => "'" ++ o ++ "'") valid_orients)
                       ++ "]"))
  else Return tt.

Definition default_DataConversionOptions : DataConversionOptions :=
  mkDataOptions "," "utf-8" true (Some 2) "records" "Sheet1" false None.

(** The six routes of [conversion_map]. *)
Inductive route :=
| csv_to_json | json_to_csv | csv_to_excel
| excel_to_csv | json_to_excel | excel_to_json.

Definition conversion_map (input_format output_format : DataFormat)
  : option route :=
  match input_format, output_format with
  | CSV, JSON => Some csv_to_json
  | JSON, CSV => Some json_to_csv
  | CSV, EXCEL => Some csv_to_excel
  | EXCEL, CSV => Some excel_to_csv
  | JSON, EXCEL => Some json_to_excel
  | EXCEL, JSON => Some excel_to_json
  | _, _ => None
  end.

(** Lines 1007-1031 of [DataConverter.convert]: the formats and the route,
    or the exception raised. *)
Definition select_route (input_path output_path : Path)
  (output_format : option DataFormat) : result exn route :=
  input_format <- DataFormat_from_extension (suffix input_path) ;;
  output_format <- match output_format with
                   | None => DataFormat_from_extension (suffix output_path)
                   | Some f => Return f
                   end ;;
  match conversion_map input_format output_format with
  | Some converter_func => Return converter_func
  | None =>
      if DataFormat_eqb input_format output_format then
        Raise (ConversionError
                 ("Source and target formats are the same: "
                  ++ DataFormat_value input_format))
      else
        Raise (ConversionError
                 ("Conversion from " ++ DataFormat_value input_format
                  ++ " to " ++ DataFormat_value output_format
                  ++ " is not supported"))
  end.

Record DataIO := mkDataIO {
  (** [path.read_text(encoding="utf-8")] *)
  read_text : Path -> result pil.ext_exn string;
  (** [json.loads] *)
  json_loads : string -> result pil.ext_exn value;
  (** [df.to_csv(path, sep, encoding, index=False, header)], giving the
      size written *)
  to_csv : pandas.DataFrame -> Path -> DataConversionOptions -> result pil.ext_exn Z;
  (** the [try] blocks of the five routes that do not read JSON for CSV:
      each ends in a result, never in an exception *)
  run_other : route -> Path -> Path -> DataConversionOptions -> ConversionResult
}.

Record DataConverter := mkDataConverter {
  _pandas_available : bool;
  _openpyxl_available : bool
}.

Definition has_key (k : string) (d : dict) : bool :=
  match dict_get k d with Some _ => true | None => false end.

(** Lines 1150-1171 of [json_to_csv]: the frame built from parsed JSON. *)
Definition frame_of_json (pd : pandas.Pandas) (input_path : Path)
  (json_content : string) (data : value) : result exn pandas.DataFrame :=
  match data with
  | VList _ => platform (pandas.DataFrame_of pd data)
  | VDict d =>
      if has_key "data" d && has_key "columns" d then
        platform (pandas.other_frame pd
                    (pandas.DataFrame_columns (get "data" d) (get "columns" d)))
      else if has_key "columns" d && has_key "index" d then
        platform (pandas.other_frame pd
                    (pandas.read_json json_content (VStr "split")))
      else
        match pandas.DataFrame_of pd (VList [data]) with
        | Return df => Return df
        | Raise _ => platform (pandas.DataFrame_of pd data)
        end
  | _ => Raise (InvalidInputError
                  ("Unsupported JSON structure in " ++ path_str input_path))
  end.

Definition label_value (l : pandas.label) : value :=
  match l with pandas.LStr s => VStr s | pandas.LInt z => VInt z end.

Definition json_to_csv_try (pd : pandas.Pandas) (fs : FileSystem) (io : DataIO)
  (input_path output_path : Path) (options : DataConversionOptions)
  : result exn ConversionResult :=
  _ <- _validate_input_file fs input_path ;;
  let bytes_read := file_size fs input_path in
  _ <- _ensure_output_dir fs output_path ;;
  json_content <- platform (read_text io input_path) ;;
  data <- platform (json_loads io json_content) ;;
  df <- frame_of_json pd input_path json_content data ;;
  bytes_written <- platform (to_csv io df output_path options) ;;
  Return (success_result fs input_path output_path bytes_read bytes_written
            [ ("row_count", VInt (pandas.nrows df));
              ("column_count", VInt (len (pandas.columns df)));
              ("columns", VList (map label_value (pandas.columns df))) ]).

Definition pandas_required : exn :=
  ConversionError
    "pandas library is required for data conversion. Install it with: pip install pandas".

Definition openpyxl_required : exn :=
  ConversionError
    "openpyxl library is required for Excel conversion. Install it with: pip install openpyxl".

Definition needs_openpyxl (r : route) : bool :=
  match r with
  | csv_to_excel | excel_to_csv | json_to_excel | excel_to_json => true
  | _ => false
  end.

(** One of the six converter functions: the availability checks run
    before the [try], whose [except Exception] turns every failure into a
    [Failure] result. *)
Definition run_route (self : DataConverter) (pd : pandas.Pandas)
  (fs : FileSystem) (io : DataIO) (r : route)
  (input_path output_path : Path) (options : option DataConversionOptions)
  : result exn ConversionResult :=
  if negb (_pandas_available self) then Raise pandas_required
  else if needs_openpyxl r && negb (_openpyxl_available self) then
    Raise openpyxl_required
  else
    let options := match options with
                   | Some o => o
                   | None => default_DataConversionOptions
                   end in
    match r with
    | json_to_csv =>
        match json_to_csv_try pd fs io input_path output_path options with
        | Return res => Return res
        | Raise e => Return (failure_result fs input_path e)
        end
    | _ => Return (run_other io r input_path output_path options)
    end.

Definition DataConverter_convert (self : DataConverter) (pd : pandas.Pandas)
  (fs : FileSystem) (io : DataIO) (input_path output_path : Path)
  (output_format : option DataFormat) (options : option DataConversionOptions)
  : result exn ConversionResult :=
  converter_func <- select_route input_path output_path output_format ;;
  run_route self pd fs io converter_func input_path output_path options.

Definition ext_map (f : DataFormat) : string :=
  match f with CSV => ".csv" | JSON => ".json" | EXCEL => ".xlsx" end.

Definition DataConverter_batch_convert (self : DataConverter)
  (pd : pandas.Pandas) (fs : FileSystem) (io : DataIO)
  (input_paths : list Path) (output_dir : string) (output_format : DataFormat)
  (options : option DataConversionOptions)
  : result exn BatchConversionResult :=
  let batch_result := empty_batch in
  if len input_paths =? 0 then Return batch_result
  else
    _ <- platform (mkdir fs output_dir) ;;
    let output_ext := ext_map output_format in
    batch_loop
      (fun input_path =>
         let output_path := mkPath output_dir (stem input_path) output_ext in
         DataConverter_convert self pd fs io input_path output_path
           (Some output_format) options)
      input_paths batch_result.

End converters.

(** ** backend/converters/image.py *)

Module backend_image.

Import py.

Definition SUPPORTED_OUTPUT_FORMATS : list string :=
  ["png"; "jpg"; "jpeg"; "webp"; "bmp"; "gif"].

Definition NON_TRANSPARENT_FORMATS : list string := ["jpg"; "jpeg"; "bmp"].

Definition DEFAULT_QUALITY : Z := 85.
Definition MIN_QUALITY : Z := 1.
Definition MAX_QUALITY : Z := 100.
Definition MAX_DIMENSION : Z := 10000.

(** What [convert] raises. *)
Inductive exn :=
| ImageConversionError (message : string)
| ValueError (message : string).

(** Exceptions inside the [try] of [convert], by class and text. *)
Definition raise_ {A : Type} (class text : string) : result pil.ext_exn A :=
  Raise (pil.mkExt class text).

(** What the module takes from its platform. *)
Record ImageIO := mkImageIO {
  path_exists : Path -> bool;
  (** [Image.open(path)] *)
  image_open : Path -> result pil.ext_exn pil.Image;
  (** [image.load()] *)
  image_load : pil.Image -> result pil.ext_exn unit;
  (** [image.save(path, format=..., **kwargs)] *)
  image_save : pil.Image -> Path -> string -> dict -> result pil.ext_exn unit;
  (** the interpreter, for [int(quality)] *)
  interpreter : Interpreter
}.

(** [int(quality)] is tried: a [ValueError] or a [TypeError] gives the
    default, any other exception of [int] leaves the function. *)
Definition _validate_quality (i : Interpreter) (quality : Any)
  : result pil.ext_exn Z :=
  match int_ i quality with
  | Return quality => Return (Z.max MIN_QUALITY (Z.min MAX_QUALITY quality))
  | Raise IntValueError | Raise IntTypeError => Return DEFAULT_QUALITY
  | Raise IntOverflowError =>
      raise_ "OverflowError" "cannot convert float infinity to integer"
  end.

Definition _load_image (io : ImageIO) (path : Path)
  : result pil.ext_exn pil.Image :=
  image <- image_open io path ;;
  let '(width, height) := pil.size image in
  if (width >? MAX_DIMENSION) || (height >? MAX_DIMENSION) then
    raise_ "ImageConversionError"
      ("Image dimensions (" ++ str_of_Z width ++ "x" ++ str_of_Z height
       ++ ") exceed maximum allowed (" ++ str_of_Z MAX_DIMENSION ++ "x"
       ++ str_of_Z MAX_DIMENSION ++ ")")
  else
    _ <- image_load io image ;;
    Return image.

(** [width, height = dimensions] for a pair of integers; unpacking or
    comparing any other value is taken to raise. *)
Definition unpack_dimensions (dimensions : value) : option (Z * Z) :=
  match dimensions with
  | VTuple [VInt w; VInt h] | VList [VInt w; VInt h] => Some (w, h)
  | _ => None
  end.

Definition _resize_image (pl : pil.Pillow) (image : pil.Image)
  (dimensions : value) : result pil.ext_exn pil.Image :=
  match unpack_dimensions dimensions with
  | None => raise_ "TypeError" "cannot unpack resize dimensions"
  | Some (width, height) =>
      if (width <=? 0) || (height <=? 0) then
        raise_ "ValueError" "Resize dimensions must be positive"
      else if (width >? MAX_DIMENSION) || (height >? MAX_DIMENSION) then
        raise_ "ValueError"
          ("Resize dimensions exceed maximum: " ++ str_of_Z MAX_DIMENSION)
      else pil.resize pl image (width, height)
  end.

Definition white : value := VTuple [VInt 255; VInt 255; VInt 255].

Definition _handle_transparency (pl : pil.Pillow) (image : pil.Image)
  (options : dict) : result pil.ext_exn pil.Image :=
  let convert_other (image : pil.Image) :=
    if negb (pil.mode_in (pil.mode image) [pil.RGB; pil.L])
    then pil.convert pl pil.RGB image else image in
  if pil.mode_in (pil.mode image) [pil.RGBA; pil.LA; pil.P] then
    let bg_color := get_default "background_color" options white in
    let image :=
      if pil.mode_eqb (pil.mode image) pil.P && pil.info_transparency image
      then pil.convert pl pil.RGBA image else image in
    if pil.mode_in (pil.mode image) [pil.RGBA; pil.LA] then
      background <- pil.new_rgb pl (pil.size image) bg_color ;;
      let image := if pil.mode_eqb (pil.mode image) pil.LA
                   then pil.convert pl pil.RGBA image else image in
      Return (pil.paste pl background image (pil.last_band image))
    else Return (convert_other image)
  else Return (convert_other image).

(** What a [_save_as_*] handler passes to [image.save]. *)
Record save_request := mkSave {
  save_image : pil.Image;
  save_format : string;
  save_options : dict
}.

Definition ensure_mode (pl : pil.Pillow) (allowed : list pil.Mode)
  (target : pil.Mode) (image : pil.Image) : pil.Image :=
  if negb (pil.mode_in (pil.mode image) allowed)
  then pil.convert pl target image else image.

Definition _save_as_png (pl : pil.Pillow) (io : ImageIO) (image : pil.Image)
  (options : dict) : result pil.ext_exn save_request :=
  Return
    (mkSave (ensure_mode pl [pil.RGB; pil.RGBA; pil.L; pil.LA; pil.P] pil.RGBA image)
       "PNG"
       [ ("optimize", get_default "optimize" options (VBool true));
         ("compress_level", get_default "compress_level" options (VInt 6)) ]).

Definition _save_as_jpeg (pl : pil.Pillow) (io : ImageIO) (image : pil.Image)
  (options : dict) : result pil.ext_exn save_request :=
  quality <- _validate_quality (interpreter io)
               (Obj (get_default "quality" options (VInt DEFAULT_QUALITY))) ;;
  Return
    (mkSave (ensure_mode pl [pil.RGB; pil.L] pil.RGB image)
       "JPEG"
       [ ("quality", VInt quality);
         ("optimize", get_default "optimize" options (VBool true));
         ("progressive", get_default "progressive" options (VBool false)) ]).

Definition _save_as_webp (pl : pil.Pillow) (io : ImageIO) (image : pil.Image)
  (options : dict) : result pil.ext_exn save_request :=
  quality <- _validate_quality (interpreter io)
               (Obj (get_default "quality" options (VInt DEFAULT_QUALITY))) ;;
  Return
    (mkSave (ensure_mode pl [pil.RGB; pil.RGBA; pil.L; pil.LA] pil.RGBA image)
       "WEBP"
       [ ("quality", VInt quality);
         ("lossless", get_default "lossless" options (VBool false)) ]).

Definition _save_as_bmp (pl : pil.Pillow) (io : ImageIO) (image : pil.Image)
  (options : dict) : result pil.ext_exn save_request :=
  Return (mkSave (ensure_mode pl [pil.RGB; pil.L] pil.RGB image) "BMP" []).

Definition _save_as_gif (pl : pil.Pillow) (io : ImageIO) (image : pil.Image)
  (options : dict) : result pil.ext_exn save_request :=
  let optimize := get_default "optimize" options (VBool true) in
  if pil.mode_eqb (pil.mode image) pil.RGBA then
    Return (mkSave image "GIF" [("optimize", optimize); ("transparency", VInt 0)])
  else
    Return (mkSave (ensure_mode pl [pil.P] pil.P image) "GIF"
              [("optimize", optimize)]).

(** [self._format_handlers]. *)
Definition _format_handlers
  : list (string * (pil.Pillow -> ImageIO -> pil.Image -> dict
                    -> result pil.ext_exn save_request)) :=
  [ ("png", _save_as_png); ("jpg", _save_as_jpeg); ("jpeg", _save_as_jpeg);
    ("webp", _save_as_webp); ("bmp", _save_as_bmp); ("gif", _save_as_gif) ].

(** The [try] block of [convert] up to the call of [image.save]: the
    request the handler of the output format makes. *)
Definition prepare (pl : pil.Pillow) (io : ImageIO) (input_path : Path)
  (output_format : string) (options : dict)
  : result pil.ext_exn save_request :=
  image <- _load_image io input_path ;;
  let resize_dims := get "resize" options in
  image <- (if truthy resize_dims
            then _resize_image pl image resize_dims else Return image) ;;
  image <- (if str_in output_format NON_TRANSPARENT_FORMATS
            then _handle_transparency pl image options else Return image) ;;
  match dict_get output_format _format_handlers with
  | None => raise_ "ValueError" ("No handler for format: " ++ output_format)
  | Some handler => handler pl io image options
  end.

(** The [except] clauses of [convert]. *)
Definition wrap (e : pil.ext_exn) : exn :=
  if (pil.exn_class e =? "UnidentifiedImageError")%string then
    ImageConversionError ("Invalid or corrupted image file: " ++ pil.exn_text e)
  else if (pil.exn_class e =? "MemoryError")%string then
    ImageConversionError "Image too large to process"
  else ImageConversionError ("Conversion failed: " ++ pil.exn_text e).

Definition convert (pl : pil.Pillow) (io : ImageIO)
  (input_path output_path : Path) (output_format : string)
  (options : option dict) : result exn Path :=
  let options := match options with Some o => o | None => [] end in
  let output_format := lstrip_dot (lower output_format) in
  if negb (str_in output_format SUPPORTED_OUTPUT_FORMATS) then
    (* the message goes on with the repr of the set of supported formats *)
    Raise (ValueError ("Unsupported output format: " ++ output_format))
  else if negb (path_exists io input_path) then
    Raise (ImageConversionError ("Input file not found: " ++ path_str input_path))
  else
    match
      (request <- prepare pl io input_path output_format options ;;
       image_save io (save_image request) output_path
         (save_format request) (save_options request))
    with
    | Return _ => Return output_path
    | Raise e => Raise (wrap e)
    end.

End backend_image.

(** ** backend/converters/document.py *)

Module backend_document.

Import py.

Definition SUPPORTED_INPUT_FORMATS : list string := ["pdf"].
Definition SUPPORTED_OUTPUT_FORMATS : list string := ["txt"; "png"; "jpg"].

Definition MAX_PDF_PAGES : Z := 500.
Definition MAX_TEXT_SIZE_MB : Z := 50.

(** [DocumentConversionError], by the message it carries. *)
Inductive DocumentConversionError :=
| (** "PDF has {total_pages} pages, exceeds maximum of {MAX_PDF_PAGES}" *)
  TooManyPages (total_pages : Z)
| (** "Extracted text size ({text_size_mb:.1f}MB) exceeds maximum
      ({MAX_TEXT_SIZE_MB}MB)", with the size in bytes *)
  TextTooLarge (size_bytes : Z)
| (** "Failed to extract text from PDF: {e}" *)
  FailedToExtract (e : pil.ext_exn).

(** What the extraction does to the document and the file system. *)
Inductive event :=
| ExtractText (page_num : Z)            (* page.extract_text() of that page *)
| WriteFile (path : Path) (text : string).   (* the output file is opened for writing *)

Record DocumentIO := mkDocumentIO {
  (** [PdfReader(str(input_path)).pages] *)
  pdf_pages : Path -> result pil.ext_exn (list pypdf.Page);
  (** [open(path, "w", encoding="utf-8")] and [f.write(text)] *)
  write_file : Path -> string -> result pil.ext_exn unit
}.

(** [start_page, end_page = page_range] and the clamping of lines
    160-166; an exception when the option is not a pair of integers. *)
Definition page_bounds (page_range : value) (total_pages : Z)
  : result pil.ext_exn (Z * Z) :=
  if truthy page_range then
    match page_range with
    | VTuple [a; b] | VList [a; b] =>
        match as_int a, as_int b with
        | Some start_page, Some end_page =>
            Return (Z.max 0 start_page, Z.min total_pages end_page)
        | _, _ => Raise (pil.mkExt "TypeError" "page_range is not a pair of integers")
        end
    | _ => Raise (pil.mkExt "ValueError" "page_range is not a pair")
    end
  else Return (0, total_pages).

(** The parts appended for one page: nothing when its text is empty. *)
Definition page_parts (page_num : Z) (page_text : option string) : list string :=
  match page_text with
  | Some ((String _ _) as text) =>
      ["--- Page " ++ str_of_Z (page_num + 1) ++ " ---" ++ nl; text; nl ++ nl]
  | _ => []
  end.

(** The loop of lines 172-184, with the events it causes. *)
Fixpoint extract_pages (pages : list pypdf.Page) (page_nums : list Z)
  (text_parts : list string) (trace : list event)
  : list event * result pil.ext_exn (list string) :=
  match page_nums with
  | [] => (trace, Return text_parts)
  | page_num :: rest =>
      match index pages page_num with
      | None => (trace, Raise (pil.mkExt "IndexError" "sequence index out of range"))
      | Some page =>
          let trace := (trace ++ [ExtractText page_num])%list in
          match pypdf.extract_text page with
          | Raise e => (trace, Raise e)
          | Return page_text =>
              extract_pages pages rest
                (text_parts ++ page_parts page_num page_text)%list trace
          end
      end
  end.

(** [text_size_mb > MAX_TEXT_SIZE_MB]: dividing by 2^20 is exact in
    floating point, so the test compares byte counts. *)
Definition text_too_large (full_text : string) : bool :=
  str_len full_text >? MAX_TEXT_SIZE_MB * (1024 * 1024).

(** The [try] block after the page-count check. *)
Definition extract_and_write (io : DocumentIO) (pages : list pypdf.Page)
  (output_path : Path) (options : dict)
  : list event * result DocumentConversionError Path :=
  let total_pages := len pages in
  match page_bounds (get "page_range" options) total_pages with
  | Raise e => ([], Raise (FailedToExtract e))
  | Return (start_page, end_page) =>
      match extract_pages pages (range start_page end_page) [] [] with
      | (trace, Raise e) => (trace, Raise (FailedToExtract e))
      | (trace, Return text_parts) =>
          let full_text := join "" text_parts in
          if text_too_large full_text then
            (trace, Raise (TextTooLarge (str_len full_text)))
          else
            let output_path :=
              if negb (lower (suffix output_path) =? ".txt")%string
              then with_suffix output_path ".txt" else output_path in
            let trace := (trace ++ [WriteFile output_path full_text])%list in
            match write_file io output_path full_text with
            | Raise e => (trace, Raise (FailedToExtract e))
            | Return _ => (trace, Return output_path)
            end
      end
  end.

Definition _convert_pdf_to_text (io : DocumentIO) (input_path output_path : Path)
  (options : dict) : list event * result DocumentConversionError Path :=
  match pdf_pages io input_path with
  | Raise e => ([], Raise (FailedToExtract e))
  | Return pages =>
      let total_pages := len pages in
      if total_pages >? MAX_PDF_PAGES then
        ([], Raise (TooManyPages total_pages))
      else extract_and_write io pages output_path options
  end.

End backend_document.

(** ** backend/converters/data.py *)

Module backend_data.

Import py.

Definition SUPPORTED_INPUT_FORMATS : list string := ["csv"; "json"; "xlsx"; "xls"].
Definition SUPPORTED_OUTPUT_FORMATS : list string := ["csv"; "json"; "xlsx"].

Definition MAX_ROWS : Z := 1000000.
Definition MAX_COLUMNS : Z := 1000.
Definition MAX_FILE_SIZE_MB : Z := 100.

(** Exceptions inside the readers and transformations: the module's own
    [DataConversionError], and those of the platform by class and text. *)
Definition raise_ {A : Type} (class text : string) : result pil.ext_exn A :=
  Raise (pil.mkExt class text).

Definition is_class (class : string) (e : pil.ext_exn) : bool :=
  (pil.exn_class e =? class)%string.

(** *** Text files *)

Inductive codec := UTF8 | LATIN1 | ASCII.

(** The codecs behind the usual spellings of an encoding name. *)
Definition lookup_codec (encoding : string) : option codec :=
  let n := lower encoding in
  if str_in n ["utf-8"; "utf8"; "utf_8"; "u8"] then Some UTF8
  else if str_in n ["latin-1"; "latin1"; "latin_1"; "iso-8859-1"; "iso8859-1"; "l1"]
  then Some LATIN1
  else if str_in n ["ascii"; "us-ascii"] then Some ASCII
  else None.

Record DataIO := mkDataIO {
  (** the bytes of a file *)
  read_bytes : Path -> result pil.ext_exn string;
  (** decoding under an encoding that is none of the three codecs above *)
  decode_other : string -> string -> result pil.ext_exn string;
  (** the encoding [open] takes when it is given none: that of the locale *)
  locale_encoding : string;
  (** [json.loads] *)
  json_loads : string -> result pil.ext_exn value
}.

(** Decoding the bytes of a file; a [UnicodeDecodeError] when they are
    not text of the encoding. *)
Definition decode (io : DataIO) (encoding : string) (bytes : string)
  : result pil.ext_exn string :=
  let decode_error := raise_ "UnicodeDecodeError" "invalid byte sequence" in
  match lookup_codec encoding with
  | Some UTF8 => if utf8_valid bytes then Return bytes else decode_error
  | Some LATIN1 => Return (latin1_decode bytes)
  | Some ASCII => if is_ascii bytes then Return bytes else decode_error
  | None => decode_other io encoding bytes
  end.

(** [open(path, "r", encoding=encoding).read()]: text mode, where the
    line ends of the file are read as "\n"; without an encoding the file
    is read in that of the locale. *)
Definition read_text (io : DataIO) (path : Path) (encoding : value)
  : result pil.ext_exn string :=
  match encoding with
  | VNone | VStr _ =>
      let name := match encoding with
                  | VStr name => name
                  | _ => locale_encoding io
                  end in
      bytes <- read_bytes io path ;;
      text <- decode io name bytes ;;
      Return (universal_newlines text)
  | _ => raise_ "TypeError" "open() argument 'encoding' must be str or None"
  end.

(** *** Reading CSV *)

(** [_read_csv], with the encodings of the readings it made, in order:
    a [UnicodeDecodeError] of the first reading is caught and the file is
    read again as latin-1. *)
Definition _read_csv (pd : pandas.Pandas) (path : Path) (options : dict)
  : list value * result pil.ext_exn pandas.DataFrame :=
  let encoding := get_default "encoding" options (VStr "utf-8") in
  let delimiter := get_default "delimiter" options (VStr ",") in
  let header := get_default "header" options (VInt 0) in
  match pandas.read_csv pd path encoding delimiter header with
  | Return df => ([encoding], Return df)
  | Raise e =>
      if is_class "UnicodeDecodeError" e then
        ([encoding; VStr "latin-1"],
         pandas.read_csv pd path (VStr "latin-1") delimiter header)
      else ([encoding], Raise e)
  end.

(** *** Reading JSON *)

(** [next(iter(data.values()), None)]. *)
Definition first_value (data : dict) : value :=
  match data with
  | [] => VNone
  | (_, v) :: _ => v
  end.

Definition _read_json (pd : pandas.Pandas) (io : DataIO) (path : Path)
  (options : dict) : result pil.ext_exn pandas.DataFrame :=
  let encoding := get_default "encoding" options (VStr "utf-8") in
  let orient := get "orient" options in
  content <- read_text io path encoding ;;
  data <- match json_loads io content with
          | Return data => Return data
          | Raise e =>
              if is_class "JSONDecodeError" e
              then raise_ "DataConversionError"
                     ("Invalid JSON file: " ++ pil.exn_text e)
              else Raise e
          end ;;
  match data with
  | VList _ =>
      if truthy orient
      then pandas.other_frame pd (pandas.read_json_path path orient encoding)
      else pandas.DataFrame_of pd data
  | VDict d =>
      if truthy orient
      then pandas.other_frame pd (pandas.read_json_path path orient encoding)
      else
        match first_value d with
        | VList _ => pandas.DataFrame_of pd data
        | VDict _ => pandas.DataFrame_from_dict_index pd data
        | _ => pandas.DataFrame_of pd (VList [data])
        end
  | _ => raise_ "DataConversionError" "JSON must be an object or array"
  end.

(** *** Transformations *)

(** The strip loop: [for col in ...: df[col] = df[col].str.strip()]. *)
Fixpoint strip_columns (df : pandas.DataFrame) (names : list pandas.label)
  : result pil.ext_exn pandas.DataFrame :=
  match names with
  | [] => Return df
  | col :: rest =>
      df <- pandas.strip_column df col ;;
      strip_columns df rest
  end.

(** A rename mapping whose new names are all names ([str] or [int]). *)
Fixpoint label_mapping (mapping : dict) : option (list (string * pandas.label)) :=
  match mapping with
  | [] => Some []
  | (k, v) :: rest =>
      match pandas.value_label v, label_mapping rest with
      | Some l, Some m => Some ((k, l) :: m)
      | _, _ => None
      end
  end.

(** [[c for c in selected_columns if c in df.columns]]. *)
Fixpoint available_columns (pd : pandas.Pandas) (df : pandas.DataFrame)
  (selected_columns : list value) : result pil.ext_exn (list value) :=
  match selected_columns with
  | [] => Return []
  | c :: rest =>
      present <- pandas.contains pd (pandas.columns df) c ;;
      available <- available_columns pd df rest ;;
      Return (if present then c :: available else available)
  end.

(** The five steps of [_apply_transformations], each with its guard. *)
Definition drop_empty_rows_step (options : dict) (df : pandas.DataFrame)
  : pandas.DataFrame :=
  if truthy (get_default "drop_empty_rows" options (VBool false))
  then pandas.dropna_rows df else df.

Definition drop_empty_columns_step (options : dict) (df : pandas.DataFrame)
  : pandas.DataFrame :=
  if truthy (get_default "drop_empty_columns" options (VBool false))
  then pandas.dropna_columns df else df.

Definition strip_whitespace_step (options : dict) (df : pandas.DataFrame)
  : result pil.ext_exn pandas.DataFrame :=
  if truthy (get_default "strip_whitespace" options (VBool false))
  then strip_columns df (pandas.object_columns df) else Return df.

Definition rename_step (pd : pandas.Pandas) (options : dict)
  (df : pandas.DataFrame) : result pil.ext_exn pandas.DataFrame :=
  match get "rename_columns" options with
  | VDict ((_ :: _) as column_mapping) =>
      match label_mapping column_mapping with
      | Some names => Return (pandas.rename df names)
      | None => pandas.other_frame pd (pandas.rename_columns df column_mapping)
      end
  | _ => Return df
  end.

Definition select_step (pd : pandas.Pandas) (options : dict)
  (df : pandas.DataFrame) : result pil.ext_exn pandas.DataFrame :=
  match get "columns" options with
  | VList ((_ :: _) as selected_columns) =>
      available_cols <- available_columns pd df selected_columns ;;
      match available_cols with
      | [] => Return df
      | _ =>
          match pandas.all_labels available_cols with
          | Some names => Return (pandas.getitem df names)
          | None => pandas.other_frame pd (pandas.getitem_list df available_cols)
          end
      end
  | _ => Return df
  end.

Definition _apply_transformations (pd : pandas.Pandas) (df : pandas.DataFrame)
  (options : dict) : result pil.ext_exn pandas.DataFrame :=
  let df := drop_empty_rows_step options df in
  let df := drop_empty_columns_step options df in
  df <- strip_whitespace_step options df ;;
  df <- rename_step pd options df ;;
  select_step pd options df.

End backend_data.

(** ** backend/main.py: the format gate of [convert_file] *)

Module backend_main.

Import py.

Inductive HTTPException := mkHTTPException (status_code : Z) (detail : string).

(** Lines 342 and 356-364: the output format is normalised, and the pair
    is checked against the registry before any conversion starts. *)
Definition validate_request (input_format request_output_format : string)
  : result HTTPException string :=
  let output_format := lstrip_dot (lower request_output_format) in
  if negb (utils.validate_conversion input_format output_format) then
    Raise (mkHTTPException 400
             ("Cannot convert " ++ input_format ++ " to " ++ output_format))
  else Return output_format.

(** The output formats the converter of a category accepts. *)
Definition converter_outputs (category : utils.FileCategory) : list string :=
  match category with
  | utils.IMAGE => backend_image.SUPPORTED_OUTPUT_FORMATS
  | utils.DOCUMENT => backend_document.SUPPORTED_OUTPUT_FORMATS
  | utils.DATA => backend_data.SUPPORTED_OUTPUT_FORMATS
  | utils.UNKNOWN => []
  end.

End backend_main.

(** ** A small platform to run the model on *)

Module fixtures.

Import py.

(** A Pillow whose matte blend is the exact weighted mean; mode
    conversion keeps the raster and resizing keeps the pixels. *)
Definition pillow : pil.Pillow :=
  pil.mkPillow
    (fun d s m => (d * (255 - m) + s * m) / 255)
    (fun _ im => pil.data im)
    (fun im sz => Return (pil.mkImage (pil.mode im) sz (pil.data im) false))
    (fun _ => None).

(** A 2x1 RGBA image: a fully transparent red pixel, an opaque blue one. *)
Definition two_pixels : pil.Image :=
  pil.mkImage pil.RGBA (2, 1) [[255; 0; 0; 0]; [0; 0; 255; 255]] false.

(** A file system where every path exists but those named "missing". *)
Definition fs : converters.FileSystem :=
  converters.mkFS
    (fun p => negb (stem p =? "missing")%string)
    (fun _ => true)
    (fun _ => 8)
    (fun _ => Return tt)
    0%Q.

Definition image_io : converters.ImageIO :=
  converters.mkImageIO
    (fun _ => Return two_pixels)
    (fun _ _ _ _ => Return 6)
    (fun im _ => pil.size im).

(** An interpreter that knows the fullwidth digits (U+FF10 to U+FF19)
    besides the ASCII ones, with the usual limit on the digits of a
    literal. *)
Definition python : Interpreter :=
  mkInterpreter
    (fun n => if (65296 <=? n) && (n <=? 65305) then Some (n - 65296) else None)
    4300.

Definition backend_image_io : backend_image.ImageIO :=
  backend_image.mkImageIO
    (fun _ => true)
    (fun _ => Return two_pixels)
    (fun _ => Return tt)
    (fun _ _ _ _ => Return tt)
    python.

Definition photo : Path := mkPath "in" "photo" ".png".
Definition missing : Path := mkPath "in" "missing" ".png".

Definition page (text : string) : pypdf.Page :=
  pypdf.mkPage (Return (Some text)).

(** A document of three pages. *)
Definition three_pages : list pypdf.Page := [page "one"; page "two"; page "three"].

Definition document_io (pages : list pypdf.Page) : backend_document.DocumentIO :=
  backend_document.mkDocumentIO (fun _ => Return pages) (fun _ _ => Return tt).

(** A text of more than fifty megabytes: an "a", then a text doubled 26
    times. *)
Fixpoint doubled (k : nat) (s : string) : string :=
  match k with
  | O => s
  | S k' => doubled k' (s ++ s)
  end.

Definition big_text : string := String "a" (doubled 26 "a").

Definition doc : Path := mkPath "in" "doc" ".pdf".
Definition out_txt : Path := mkPath "out" "output" ".txt".

(** A pandas for small tables: a column of integers is [int64], a column
    of numbers some of which are missing or floats is [float64] and stores
    its integers as floats, any other column is [object] and stores what
    it is given.  It reads one CSV file, which is no UTF-8 but one line of
    latin-1, and its remaining calls fail. *)
Definition all_integers (cs : list pandas.cell) : bool :=
  forallb (fun c => match c with Some (VInt _) => true | _ => false end) cs.

Definition infer_dtype (cs : list pandas.cell) : pandas.Dtype :=
  match cs with
  | [] => pandas.object
  | _ =>
      if all_integers cs then pandas.int64
      else if forallb pandas.is_number_or_missing cs
              && negb (forallb pandas.is_missing cs)
      then pandas.float64
      else pandas.object
  end.

Definition store (dtype : pandas.Dtype) (c : pandas.cell) : pandas.cell :=
  match dtype, c with
  | pandas.float64, Some (VInt z) => Some (VFloat (inject_Z z))
  | pandas.float64, Some VNone => None
  | _, _ => c
  end.

Definition pandas_ : pandas.Pandas :=
  pandas.mkPandas
    (fun _ => Raise (pil.mkExt "NotImplementedError" "not part of the fixture"))
    infer_dtype
    store
    (fun _ _ => Raise (pil.mkExt "NotImplementedError" "not part of the fixture"))
    (fun _ encoding _ _ =>
       match encoding with
       | VStr "latin-1" =>
           Return (pandas.mkFrame [pandas.LInt 0]
                     [pandas.mkColumn (pandas.LStr "name") pandas.object
                        [Some (VStr (latin1_decode (String (ascii_of_nat 233) "")))]])
       | _ => Raise (pil.mkExt "UnicodeDecodeError"
                       "'utf-8' codec can't decode byte 0xe9")
       end).

(** A table of three rows and three columns; the second row and the third
    column hold no value. *)
Definition table : pandas.DataFrame :=
  pandas.mkFrame [pandas.LInt 0; pandas.LInt 1; pandas.LInt 2]
    [pandas.mkColumn (pandas.LStr "name") pandas.object
       [Some (VStr " ann "); None; Some (VStr "bob")];
     pandas.mkColumn (pandas.LStr "age") pandas.float64
       [Some (VFloat (inject_Z 31)); None; Some (VFloat (inject_Z 27))];
     pandas.mkColumn (pandas.LStr "note") pandas.float64 [None; None; None]].

(** A data platform over one file content; JSON is given parsed. *)
Definition data_io (bytes : string) (parsed : value) : backend_data.DataIO :=
  backend_data.mkDataIO
    (fun _ => Return bytes)
    (fun _ _ => Raise (pil.mkExt "LookupError" "unknown encoding"))
    "utf-8"
    (fun _ => Return parsed).

End fixtures.

(** * Properties *)

Import py.

(** ** Batches: statistics and status *)

Section Batches.

Import converters.

(** Every status falls in exactly one of the three buckets counted by
    [_update_statistics]. *)
Lemma status_bucket (r : ConversionResult) :
  (if is_success r then 1 else 0)
  + (if status_eqb (status r) FAILURE then 1 else 0)
  + (if status_eqb (status r) SKIPPED then 1 else 0) = 1.
Proof.
  unfold is_success; destruct (status r); reflexivity.
Qed.

Lemma add_result_results (b : BatchConversionResult) (r : ConversionResult) :
  results (add_result b r) = (results b ++ [r])%list.
Proof. reflexivity. Qed.

(** The counting invariant of a batch. *)
Definition counted (b : BatchConversionResult) : Prop :=
  let st := batch_statistics b in
  files_processed st = len (results b)
  /\ files_processed st
     = files_succeeded st + files_failed st + files_skipped st.

Lemma counted_empty : counted empty_batch.
Proof. split; reflexivity. Qed.

Lemma counted_add_result (b : BatchConversionResult) (r : ConversionResult) :
  counted b -> counted (add_result b r).
Proof.
  intros [Hlen Hsum]; split; cbn.
  - unfold len in *. rewrite length_app, Nat2Z.inj_add, Hlen. reflexivity.
  - pose proof (status_bucket r). lia.
Qed.

Lemma fold_add_result_results (rs : list ConversionResult) :
  forall b, results (fold_left add_result rs b) = (results b ++ rs)%list.
Proof.
  induction rs as [|r rs IH]; intro b; cbn.
  - now rewrite app_nil_r.
  - rewrite IH, add_result_results, <- app_assoc. reflexivity.
Qed.

Lemma fold_add_result_counted (rs : list ConversionResult) :
  forall b, counted b -> counted (fold_left add_result rs b).
Proof.
  induction rs as [|r rs IH]; intros b Hb; cbn; auto using counted_add_result.
Qed.

End Batches.

(** C10.  After any sequence of [add_result] calls on a fresh
    [BatchConversionResult], the results are the ones added, in order, and
    the statistics satisfy [files_processed] = number of results =
    [files_succeeded + files_failed + files_skipped]. *)
Theorem C10_batch_statistics_invariant :
  forall rs : list converters.ConversionResult,
    let b := fold_left converters.add_result rs converters.empty_batch in
    let st := converters.batch_statistics b in
    converters.results b = rs
    /\ converters.files_processed st = len (converters.results b)
    /\ converters.files_processed st
       = converters.files_succeeded st + converters.files_failed st
         + converters.files_skipped st.
Proof.
  intros rs b st.
  destruct (fold_add_result_counted rs converters.empty_batch counted_empty)
    as [Hlen Hsum].
  split; [|split]; auto.
  unfold b. rewrite fold_add_result_results. reflexivity.
Qed.

(** ** Batches: the overall status and the batch loops *)

Section BatchStatus.

Import converters.

Lemma successes_bounds (rs : list ConversionResult) :
  0 <= successes rs <= len rs.
Proof.
  unfold successes, len. pose proof (filter_length_le is_success rs). lia.
Qed.

Lemma filter_length_all {A : Type} (f : A -> bool) (l : list A) :
  List.length (filter f l) = List.length l <-> forall x, In x l -> f x = true.
Proof.
  induction l as [|a l IH]; cbn.
  - split; [intros _ x []|reflexivity].
  - pose proof (filter_length_le f l) as Hle.
    destruct (f a) eqn:Ha; cbn.
    + split.
      * intros H x [<-|Hx]; [assumption|]. apply IH; [lia|assumption].
      * intros H. f_equal. apply IH. intros x Hx. apply H. now right.
    + split.
      * intros H. lia.
      * intros H. specialize (H a (or_introl eq_refl)). congruence.
Qed.

Lemma filter_length_none {A : Type} (f : A -> bool) (l : list A) :
  List.length (filter f l) = 0%nat <-> forall x, In x l -> f x = false.
Proof.
  induction l as [|a l IH]; cbn.
  - split; [intros _ x []|reflexivity].
  - destruct (f a) eqn:Ha; cbn.
    + split.
      * intros H. discriminate.
      * intros H. specialize (H a (or_introl eq_refl)). congruence.
    + split.
      * intros H x [<-|Hx]; [assumption|]. now apply IH.
      * intros H. apply IH. intros x Hx. apply H. now right.
Qed.

Lemma successes_all (rs : list ConversionResult) :
  successes rs = len rs <-> forall r, In r rs -> is_success r = true.
Proof.
  unfold successes, len. rewrite <- filter_length_all. lia.
Qed.

Lemma successes_none (rs : list ConversionResult) :
  successes rs = 0 <-> forall r, In r rs -> is_success r = false.
Proof.
  unfold successes, len. rewrite <- filter_length_none. lia.
Qed.

(** The four cases of the [status] property. *)
Lemma batch_status_cases (b : BatchConversionResult) :
  (batch_status b = SKIPPED <-> results b = [])
  /\ (batch_status b = SUCCESS <->
      results b <> [] /\ forall r, In r (results b) -> is_success r = true)
  /\ (batch_status b = PARTIAL_SUCCESS <->
      (exists r, In r (results b) /\ is_success r = true)
      /\ (exists r, In r (results b) /\ is_success r = false))
  /\ (batch_status b = FAILURE <->
      results b <> [] /\ forall r, In r (results b) -> is_success r = false).
Proof.
  unfold batch_status.
  destruct (results b) as [|r0 rs] eqn:Hrs.
  - repeat split; try congruence; try discriminate.
    + intros [? _]; congruence.
    + intros [[r [[] _]] _].
    + intros [? _]; congruence.
  - set (l := r0 :: rs).
    pose proof (successes_bounds l) as Hb.
    pose proof (successes_all l) as Hall.
    pose proof (successes_none l) as Hnone.
    assert (Hsome : successes l > 0 <-> exists r, In r l /\ is_success r = true).
    { split.
      - intros Hpos.
        destruct (existsb is_success l) eqn:Hex.
        + apply existsb_exists in Hex. exact Hex.
        + exfalso. assert (successes l = 0); [|lia].
          apply Hnone. intros r Hr.
          destruct (is_success r) eqn:E; [|reflexivity].
          assert (existsb is_success l = true) by (apply existsb_exists; eauto).
          congruence.
      - intros [r [Hr Hs]].
        destruct (Z.eq_dec (successes l) 0) as [Hz|Hz]; [|lia].
        rewrite (proj1 Hnone Hz r Hr) in Hs. discriminate. }
    assert (Hnotall : successes l <> len l <->
                      exists r, In r l /\ is_success r = false).
    { split.
      - intros Hne.
        destruct (forallb is_success l) eqn:Hfa.
        + exfalso. apply Hne, Hall. intros r Hr.
          rewrite forallb_forall in Hfa. now apply Hfa.
        + assert (Hex : existsb (fun r => negb (is_success r)) l = true).
          { clear -Hfa. induction l as [|x l IH]; cbn in *; [discriminate|].
            destruct (is_success x); cbn in *; auto. }
          apply existsb_exists in Hex. destruct Hex as [r [Hr Hs]].
          exists r. split; [assumption|]. now destruct (is_success r).
      - intros [r [Hr Hs]] Heq.
        rewrite (proj1 Hall Heq r Hr) in Hs. discriminate. }
    destruct (successes l =? len l) eqn:E1.
    + apply Z.eqb_eq in E1.
      repeat split; try congruence; try discriminate.
      * now apply Hall.
      * intros [_ Hex]. apply Hnotall in Hex. contradiction.
      * intros [_ Hf]. apply Hnone in Hf. unfold len in *. cbn in *. lia.
    + apply Z.eqb_neq in E1.
      destruct (successes l >? 0) eqn:E2.
      * assert (successes l > 0) by lia.
        repeat split; try congruence; try discriminate.
        -- intros [_ Ha]. apply Hall in Ha. contradiction.
        -- now apply Hsome.
        -- now apply Hnotall.
        -- intros [_ Hf]. apply Hnone in Hf. lia.
      * assert (successes l = 0) by lia.
        repeat split; try congruence; try discriminate.
        -- intros [_ Ha]. apply Hall in Ha. contradiction.
        -- intros [Hex _]. apply Hsome in Hex. lia.
        -- now apply Hnone.
Qed.

(** A loop whose conversions all return runs to the end of the list and
    adds one result per input, in order. *)
Lemma batch_loop_returns (convert_one : Path -> result exn ConversionResult)
  (f : Path -> ConversionResult) (input_paths : list Path) :
  (forall p, In p input_paths -> convert_one p = Return (f p)) ->
  forall b,
    batch_loop convert_one input_paths b
    = Return (fold_left add_result (map f input_paths) b).
Proof.
  induction input_paths as [|p ps IH]; intros H b; cbn.
  - reflexivity.
  - rewrite (H p (or_introl eq_refl)). cbn.
    apply IH. intros q Hq. apply H. now right.
Qed.

(** A conversion that raises ends the loop: the inputs after it are never
    converted. *)
Lemma batch_loop_raises (convert_one : Path -> result exn ConversionResult)
  (p : Path) (rest : list Path) (e : exn) (b : BatchConversionResult) :
  convert_one p = Raise e ->
  batch_loop convert_one (p :: rest) b = Raise e.
Proof. intros H; cbn; rewrite H; reflexivity. Qed.

(** With an explicit output format, [ImageConverter.convert] never raises
    once Pillow is there: a failing conversion is a [Failure] result. *)
Lemma image_convert_returns (self : ImageConverter) (pl : pil.Pillow)
  (fs : FileSystem) (io : ImageIO) (input_path output_path : Path)
  (output_format : ImageFormat) (options : option ImageConversionOptions) :
  _pillow_available self = true ->
  exists r,
    ImageConverter_convert self pl fs io input_path output_path
      (Some output_format) options = Return r
    /\ input_path = converters.input_path r
    /\ (status r = SUCCESS \/ status r = FAILURE).
Proof.
  intros Hp. unfold ImageConverter_convert. rewrite Hp. cbn [negb].
  set (o := match options with Some o => o | None => _ end).
  destruct (convert_try pl fs io input_path output_path (Some output_format) o)
    as [r|e] eqn:Htry.
  - exists r. split; [reflexivity|].
    unfold convert_try in Htry.
    repeat match type of Htry with
    | (bind ?m _ = _) => destruct m; cbn [bind] in Htry; try discriminate
    end.
    injection Htry as <-. cbn. auto.
  - assert (He : is_UnsupportedFormatError e = false).
    { unfold convert_try in Htry.
      unfold _validate_input_file, _ensure_output_dir, flatten_for_output,
        resize_step, platform in Htry.
      repeat match type of Htry with
      | context [if ?c then _ else _] => destruct c; cbn [bind] in Htry
      | context [match ?x with _ => _ end] => destruct x; cbn [bind] in Htry
      end; try discriminate; injection Htry as <-; reflexivity. }
    rewrite He. eexists. split; [reflexivity|]. cbn. auto.
Qed.

End BatchStatus.

(** C9.  [ImageConverter.batch_convert] converts every input of the list,
    in order, whatever the earlier conversions gave: a failing conversion
    is a [Failure] result in the batch and the loop goes on.  The overall
    status is [SKIPPED] iff the input list is empty, and for a non-empty
    list [SUCCESS] iff every result succeeded, [PARTIAL_SUCCESS] iff some
    but not all did, [FAILURE] iff none did. *)
Theorem C9_batch_convert_processes_every_input :
  forall (self : converters.ImageConverter) (pl : pil.Pillow)
         (fs : converters.FileSystem) (io : converters.ImageIO)
         (input_paths : list Path) (output_dir : string)
         (output_format : converters.ImageFormat)
         (options : option converters.ImageConversionOptions),
    converters._pillow_available self = true ->
    converters.mkdir fs output_dir = Return tt ->
    exists b : converters.BatchConversionResult,
      converters.ImageConverter_batch_convert self pl fs io input_paths
        output_dir output_format options = Return b
      /\ Forall2
           (fun p r =>
              converters.ImageConverter_convert self pl fs io p
                (mkPath output_dir (stem p)
                   (converters.get_extension output_format))
                (Some output_format) options = Return r)
           input_paths (converters.results b)
      /\ (converters.batch_status b = converters.SKIPPED <-> input_paths = [])
      /\ (converters.batch_status b = converters.SUCCESS <->
          input_paths <> []
          /\ forall r, In r (converters.results b) ->
                       converters.is_success r = true)
      /\ (converters.batch_status b = converters.PARTIAL_SUCCESS <->
          (exists r, In r (converters.results b)
                     /\ converters.is_success r = true)
          /\ (exists r, In r (converters.results b)
                        /\ converters.is_success r = false))
      /\ (converters.batch_status b = converters.FAILURE <->
          input_paths <> []
          /\ forall r, In r (converters.results b) ->
                       converters.is_success r = false).
Proof.
  intros self pl fs io input_paths output_dir output_format options Hp Hmk.
  set (out := fun p : Path =>
         mkPath output_dir (stem p) (converters.get_extension output_format)).
  set (one := fun p : Path =>
         converters.ImageConverter_convert self pl fs io p (out p)
           (Some output_format) options).
  (* every conversion returns a result *)
  assert (Hret : forall p, exists r, one p = Return r).
  { intro p.
    destruct (image_convert_returns self pl fs io p (out p) output_format
                options Hp) as [r [Hr _]].
    now exists r. }
  set (f := fun p : Path =>
         match one p with
         | Return r => r
         | Raise _ => converters.failure_result fs p (converters.ConversionError "")
         end).
  assert (Hf : forall p, one p = Return (f p)).
  { intro p. unfold f. destruct (Hret p) as [r ->]. reflexivity. }
  set (b := fold_left converters.add_result (map f input_paths)
              converters.empty_batch).
  assert (Hres : converters.results b = map f input_paths).
  { unfold b. rewrite fold_add_result_results. reflexivity. }
  assert (Hrun : converters.ImageConverter_batch_convert self pl fs io
                   input_paths output_dir output_format options = Return b).
  { unfold converters.ImageConverter_batch_convert.
    destruct input_paths as [|p ps]; [reflexivity|].
    replace (len (p :: ps) =? 0) with false
      by (symmetry; apply Z.eqb_neq; unfold len; cbn; lia).
    rewrite Hmk. cbn [converters.platform bind].
    apply (batch_loop_returns one f). intros q _. apply Hf. }
  assert (Hnil : converters.results b = [] <-> input_paths = []).
  { rewrite Hres. destruct input_paths; cbn; split; congruence. }
  exists b. split; [exact Hrun|]. split.
  { rewrite Hres. clear -Hf. induction input_paths; cbn; constructor; auto.
    apply Hf. }
  destruct (batch_status_cases b) as [Hsk [Hsu [Hpa Hfa]]].
  split; [now rewrite Hsk|].
  split; [now rewrite Hsu, Hnil|].
  split; [exact Hpa|].
  now rewrite Hfa, Hnil.
Qed.

(** The theorem on a batch of three files whose second is missing: all
    three are converted, and the batch is a partial success. *)
Lemma C9_witness :
  exists b : converters.BatchConversionResult,
    converters.ImageConverter_batch_convert
      (converters.mkImageConverter true) fixtures.pillow fixtures.fs
      fixtures.image_io [fixtures.photo; fixtures.missing; fixtures.photo]
      "out" converters.JPG None = Return b
    /\ map converters.status (converters.results b)
       = [converters.SUCCESS; converters.FAILURE; converters.SUCCESS]
    /\ converters.batch_status b = converters.PARTIAL_SUCCESS.
Proof.
  destruct (C9_batch_convert_processes_every_input
              (converters.mkImageConverter true) fixtures.pillow fixtures.fs
              fixtures.image_io [fixtures.photo; fixtures.missing; fixtures.photo]
              "out" converters.JPG None eq_refl eq_refl)
    as [b [Hrun _]].
  exists b. split; [exact Hrun|].
  vm_compute in Hrun. injection Hrun as <-. vm_compute. split; reflexivity.
Defined.

(** [DataConverter.batch_convert] uses the same loop, but
    [DataConverter.convert] raises before any [try]: an input whose format
    is the target format ends the batch, and the files after it are not
    converted. *)
Lemma data_batch_convert_stops_at_same_format :
  converters.DataConverter_batch_convert
    (converters.mkDataConverter true true) fixtures.pandas_ fixtures.fs
    (converters.mkDataIO
       (fun _ => Return "[]") (fun _ => Return (VList []))
       (fun _ _ _ => Return 0)
       (fun _ p _ _ => converters.success_result fixtures.fs p p 0 0 []))
    [mkPath "in" "a" ".csv"; mkPath "in" "b" ".json"] "out" converters.CSV None
  = Raise (converters.ConversionError
             "Source and target formats are the same: csv").
Proof. reflexivity. Qed.

(** ** Quality validation *)

(** The claim fails on the backend: a quality of 150 is not rejected, the
    JPEG handler clamps it to 100 and the conversion goes on. *)
Lemma C8_counterexample :
  backend_image._validate_quality fixtures.python (Obj (VInt 150)) = Return 100
  /\ exists request,
       backend_image.prepare fixtures.pillow fixtures.backend_image_io
         fixtures.photo "jpg" [("quality", VInt 150)] = Return request
       /\ dict_get "quality" (backend_image.save_options request)
          = Some (VInt 100).
Proof.
  split; [reflexivity|].
  eexists. split; reflexivity.
Qed.

Section Quality.

Variable i : Interpreter.

(** [int] overflows on the infinities and on nothing else. *)
Lemma int_overflow (x : Any) :
  int_ i x = Raise IntOverflowError <-> exists negative, x = Float_inf negative.
Proof.
  split.
  - destruct x as [v|negative|]; cbn; try discriminate.
    + destruct v; cbn; try discriminate.
      destruct (int_of_text i s); discriminate.
    + eauto.
  - intros [negative ->]. reflexivity.
Qed.

Lemma validate_quality_int (x : Any) (z : Z) :
  int_ i x = Return z ->
  backend_image._validate_quality i x = Return (Z.max 1 (Z.min 100 z)).
Proof. intros H. unfold backend_image._validate_quality. now rewrite H. Qed.

Lemma validate_quality_default (x : Any) :
  int_ i x = Raise IntValueError \/ int_ i x = Raise IntTypeError ->
  backend_image._validate_quality i x = Return 85.
Proof.
  intros [H|H]; unfold backend_image._validate_quality; now rewrite H.
Qed.

Lemma validate_quality_raises (x : Any) :
  (exists e, backend_image._validate_quality i x = Raise e)
  <-> exists negative, x = Float_inf negative.
Proof.
  rewrite <- int_overflow. unfold backend_image._validate_quality.
  destruct (int_ i x) as [z|[]]; split;
    try (intros [e He]; discriminate); try discriminate; try reflexivity.
  intros _. eexists. reflexivity.
Qed.

Lemma validate_quality_range (x : Any) (r : Z) :
  backend_image._validate_quality i x = Return r -> 1 <= r <= 100.
Proof.
  unfold backend_image._validate_quality,
    backend_image.MIN_QUALITY, backend_image.MAX_QUALITY,
    backend_image.DEFAULT_QUALITY.
  destruct (int_ i x) as [z|[]]; intros H; try discriminate;
    injection H as <-; lia.
Qed.

(** An option of the bag is a value: its validation always returns. *)
Lemma validate_quality_option (v : value) :
  exists quality,
    backend_image._validate_quality i (Obj v) = Return quality
    /\ 1 <= quality <= 100.
Proof.
  destruct (backend_image._validate_quality i (Obj v)) as [r|e] eqn:H.
  - exists r. split; [reflexivity|]. exact (validate_quality_range _ _ H).
  - destruct (proj1 (validate_quality_raises (Obj v)) (ex_intro _ e H))
      as [negative Hx].
    discriminate.
Qed.

End Quality.

Lemma post_init_quality_rejected (o : converters.ImageConversionOptions) :
  converters.quality o < 1 \/ converters.quality o > 100 ->
  converters.ImageConversionOptions_post_init o
  = Raise (converters.ValueError "Quality must be between 1 and 100").
Proof.
  intros H. unfold converters.ImageConversionOptions_post_init.
  destruct (converters.quality o <? 1) eqn:E1; [reflexivity|].
  destruct (converters.quality o >? 100) eqn:E2; [reflexivity|].
  apply Z.ltb_ge in E1. lia.
Qed.

(** C8, as the code has it.  The library's [ImageConversionOptions]
    rejects a quality outside [1, 100] when it is constructed, with
    [ValueError("Quality must be between 1 and 100")], and keeps a quality
    inside the range unchanged down to the [quality] argument of the
    encoder.  The backend's [_validate_quality] does not reject a quality
    outside the range: it takes [int(quality)] and clamps it into
    [1, 100], so that an integer of the range is used unchanged; what
    [int] refuses with [ValueError] or [TypeError] ([None], a list, a
    tuple, an object, NaN, a text that is no decimal literal) gives the
    default 85; the one exception that leaves it is the [OverflowError] of
    [int] on an infinite float.  In the JPEG and WEBP handlers the
    [quality] handed to the encoder is this validated quality, whatever
    the option holds. *)
Theorem C8_quality_validation :
  forall (q : Z) (w h : option Z) (s : option Q) (par opt : bool)
         (i : Interpreter) (x : Any),
    ((q < 1 \/ q > 100) ->
       converters.new_ImageConversionOptions q w h s par opt
       = Raise (converters.ValueError "Quality must be between 1 and 100"))
    /\ (1 <= q <= 100 ->
          converters.new_ImageConversionOptions q None None None par opt
          = Return (converters.mkImageOptions q None None None par opt)
          /\ forall o,
               converters.new_ImageConversionOptions q w h s par opt = Return o ->
               converters.quality o = q
               /\ forall f, converters.supports_quality f = true ->
                    dict_get "quality" (converters.save_kwargs f o)
                    = Some (VInt q))
    /\ backend_image._validate_quality i (Obj (VInt q))
       = Return (Z.max 1 (Z.min 100 q))
    /\ (1 <= q <= 100 ->
        backend_image._validate_quality i (Obj (VInt q)) = Return q)
    /\ (forall z, int_ i x = Return z ->
          backend_image._validate_quality i x = Return (Z.max 1 (Z.min 100 z)))
    /\ (forall r, backend_image._validate_quality i x = Return r ->
          1 <= r <= 100)
    /\ (int_ i x = Raise IntValueError \/ int_ i x = Raise IntTypeError ->
        backend_image._validate_quality i x = Return 85)
    /\ (x = Obj VNone \/ x = Float_nan
        \/ (exists l, x = Obj (VList l) \/ x = Obj (VTuple l))
        \/ (exists d, x = Obj (VDict d))
        \/ (exists t, x = Obj (VStr t) /\ int_of_text i t = None) ->
        backend_image._validate_quality i x = Return 85)
    /\ ((exists e, backend_image._validate_quality i x = Raise e)
        <-> exists negative, x = Float_inf negative)
    /\ (forall negative,
          backend_image._validate_quality i (Float_inf negative)
          = Raise (pil.mkExt "OverflowError"
                     "cannot convert float infinity to integer"))
    /\ (forall (pl : pil.Pillow) (io : backend_image.ImageIO)
               (image : pil.Image) (options : dict),
          exists quality,
            backend_image._validate_quality (backend_image.interpreter io)
              (Obj (get_default "quality" options (VInt 85)))
            = Return quality
            /\ 1 <= quality <= 100
            /\ (exists request,
                  backend_image._save_as_jpeg pl io image options = Return request
                  /\ dict_get "quality" (backend_image.save_options request)
                     = Some (VInt quality))
            /\ (exists request,
                  backend_image._save_as_webp pl io image options = Return request
                  /\ dict_get "quality" (backend_image.save_options request)
                     = Some (VInt quality))).
Proof.
  intros q w h s par opt i x.
  split; [|split; [|split; [|split; [|split; [|split; [|split; [|split;
    [|split; [|split]]]]]]]]].
  - intros H. unfold converters.new_ImageConversionOptions.
    rewrite post_init_quality_rejected by exact H. reflexivity.
  - intros H. split.
    + unfold converters.new_ImageConversionOptions,
        converters.ImageConversionOptions_post_init. cbn.
      replace (q <? 1) with false by (symmetry; apply Z.ltb_ge; lia).
      replace (q >? 100) with false by (symmetry; lia).
      reflexivity.
    + intros o H0.
      unfold converters.new_ImageConversionOptions in H0.
      destruct (converters.ImageConversionOptions_post_init _);
        cbn in H0; [|discriminate].
      injection H0 as <-. split; [reflexivity|].
      intros f Hf. unfold converters.save_kwargs. rewrite Hf. reflexivity.
  - reflexivity.
  - intros H. unfold backend_image._validate_quality,
      backend_image.MIN_QUALITY, backend_image.MAX_QUALITY.
    cbn [int_]. f_equal. lia.
  - intros z. apply validate_quality_int.
  - intros r. apply validate_quality_range.
  - apply validate_quality_default.
  - intros H. apply validate_quality_default.
    destruct H as [->|[->|[[l [->| ->]]|[[d ->]|[t [-> Ht]]]]]]; cbn;
      try rewrite Ht; auto.
  - apply validate_quality_raises.
  - reflexivity.
  - intros pl io image options.
    destruct (validate_quality_option (backend_image.interpreter io)
                (get_default "quality" options (VInt 85)))
      as [quality [Hq Hr]].
    exists quality. split; [exact Hq|]. split; [exact Hr|].
    unfold backend_image._save_as_jpeg, backend_image._save_as_webp,
      backend_image.DEFAULT_QUALITY.
    rewrite Hq. cbn [bind]. split; eexists; split; reflexivity.
Qed.

(** ** The format registry and the format gates *)

Lemma str_in_In (x : string) (xs : list string) :
  str_in x xs = true <-> In x xs.
Proof.
  induction xs as [|y ys IH]; cbn.
  - split; [discriminate|tauto].
  - rewrite orb_true_iff, IH, String.eqb_eq. split; intros [H|H]; auto.
Qed.

(** Running a check over every registered format. *)
Lemma for_registered (P : string -> Prop) :
  Forall P utils.registered_formats ->
  forall f, In f utils.registered_formats -> P f.
Proof. intros H f Hf. rewrite Forall_forall in H. now apply H. Qed.

(** Normalising a format name twice is normalising it once. *)
Lemma lower_ascii_not_upper (c : ascii) :
  lower_ascii (lower_ascii c) = lower_ascii c.
Proof.
  unfold lower_ascii.
  destruct (Nat.leb 65 (nat_of_ascii c) && Nat.leb (nat_of_ascii c) 90)%bool eqn:E.
  - apply andb_prop in E. destruct E as [E1 E2].
    apply Nat.leb_le in E1, E2.
    rewrite nat_ascii_embedding by lia.
    replace (Nat.leb (nat_of_ascii c + 32) 90) with false
      by (symmetry; apply Nat.leb_gt; lia).
    now rewrite andb_false_r.
  - now rewrite E.
Qed.

Lemma lower_idempotent (s : string) : lower (lower s) = lower s.
Proof.
  induction s as [|c s IH]; cbn; [reflexivity|].
  now rewrite lower_ascii_not_upper, IH.
Qed.

Lemma lower_ascii_dot (c : ascii) :
  lower_ascii c = "."%char <-> c = "."%char.
Proof.
  unfold lower_ascii.
  destruct (Nat.leb 65 (nat_of_ascii c) && Nat.leb (nat_of_ascii c) 90)%bool eqn:E;
    [|tauto].
  apply andb_prop in E. destruct E as [E1 E2]. apply Nat.leb_le in E1, E2.
  split; intros H.
  - apply (f_equal nat_of_ascii) in H.
    rewrite nat_ascii_embedding in H by lia. cbn in H. lia.
  - subst c. cbn in E1. lia.
Qed.

Lemma lstrip_dot_cons (c : ascii) (s : string) :
  lstrip_dot (String c s)
  = if Ascii.eqb c "." then lstrip_dot s else String c s.
Proof.
  destruct (Ascii.eqb c ".") eqn:E.
  - apply Ascii.eqb_eq in E. now subst c.
  - apply Ascii.eqb_neq in E.
    destruct c as [[] [] [] [] [] [] [] []]; try reflexivity. now elim E.
Qed.

Lemma lower_lstrip_dot (s : string) :
  lower (lstrip_dot s) = lstrip_dot (lower s).
Proof.
  induction s as [|c s IH]; [reflexivity|].
  cbn [lower]. rewrite !lstrip_dot_cons.
  destruct (Ascii.eqb c ".") eqn:E.
  - apply Ascii.eqb_eq in E. subst c. cbn. exact IH.
  - replace (Ascii.eqb (lower_ascii c) ".") with false; [reflexivity|].
    symmetry. apply Ascii.eqb_neq. rewrite lower_ascii_dot.
    now apply Ascii.eqb_neq.
Qed.

Lemma lstrip_dot_idempotent (s : string) :
  lstrip_dot (lstrip_dot s) = lstrip_dot s.
Proof.
  induction s as [|c s IH]; [reflexivity|].
  rewrite lstrip_dot_cons. destruct (Ascii.eqb c ".") eqn:E; [exact IH|].
  rewrite lstrip_dot_cons, E. reflexivity.
Qed.

Lemma normalize_idempotent (g : string) :
  lstrip_dot (lower (lstrip_dot (lower g))) = lstrip_dot (lower g).
Proof.
  now rewrite lower_lstrip_dot, lstrip_dot_idempotent, lower_idempotent.
Qed.

(** In [DataConverter.convert] an input of the Excel kind and an output
    of the Excel kind are the same format: [xls] to [xlsx], which the
    registry does not list and which are different names, is refused as a
    conversion of a format to itself, not as an unsupported format.  The
    HTTP gate refuses [png] to [png] with the error of every pair the
    registry does not list. *)
Lemma C1_counterexample :
  In "xls" utils.registered_formats
  /\ ~ In "xlsx" (utils.get_compatible_formats "xls")
  /\ "xlsx" <> "xls"
  /\ converters.select_route (mkPath "in" "book" ".xls")
       (mkPath "out" "book" ".xlsx") None
     = Raise (converters.ConversionError
                "Source and target formats are the same: xlsx")
  /\ backend_main.validate_request "png" "png"
     = Raise (backend_main.mkHTTPException 400 "Cannot convert png to png")
  /\ backend_main.validate_request "png" "txt"
     = Raise (backend_main.mkHTTPException 400 "Cannot convert png to txt").
Proof.
  split; [cbn; tauto|].
  split; [rewrite <- str_in_In; cbn; discriminate|].
  split; [discriminate|].
  repeat split; reflexivity.
Qed.

Lemma data_format_routes (fi fo : converters.DataFormat) :
  (fi <> fo -> exists r, converters.conversion_map fi fo = Some r)
  /\ (fi = fo -> converters.conversion_map fi fo = None).
Proof.
  split.
  - destruct fi, fo; intros H; try congruence; eexists; reflexivity.
  - intros ->. destruct fo; reflexivity.
Qed.

(** C1, as the code has it.  No registered format lists itself as a
    compatible output, and the registry check holds exactly for the listed
    outputs.  The HTTP gate accepts a pair exactly when the registry lists
    it, the converter of the input's category then supports the output,
    and every other pair, a format with itself included, is refused with
    the one error "Cannot convert f to g".  [DataConverter.convert]
    compares data formats, with [xls] and [xlsx] one format: two different
    formats have a route, equal formats raise [ConversionError] with
    "Source and target formats are the same: <format>", and an output
    extension that is no data format raises [UnsupportedFormatError]. *)
Theorem C1_format_compatibility :
  (forall f, In f utils.registered_formats ->
     ~ In f (utils.get_compatible_formats f)
     /\ utils.validate_conversion f f = false
     /\ backend_main.validate_request f f
        = Raise (backend_main.mkHTTPException 400
                   ("Cannot convert " ++ f ++ " to " ++ f)))
  /\ (forall f g,
        utils.validate_conversion f g = true
        <-> In (lstrip_dot (lower g)) (utils.get_compatible_formats f))
  /\ (forall f g,
        (In (lstrip_dot (lower g)) (utils.get_compatible_formats f) ->
           backend_main.validate_request f g = Return (lstrip_dot (lower g)))
        /\ (~ In (lstrip_dot (lower g)) (utils.get_compatible_formats f) ->
              backend_main.validate_request f g
              = Raise (backend_main.mkHTTPException 400
                         ("Cannot convert " ++ f ++ " to "
                          ++ lstrip_dot (lower g)))))
  /\ (forall f g, In f utils.registered_formats ->
        In g (utils.get_compatible_formats f) ->
        exists category,
          dict_get ("." ++ f) utils.EXTENSION_TO_CATEGORY = Some category
          /\ In g (backend_main.converter_outputs category))
  /\ (forall input_path output_path fi,
        converters.DataFormat_from_extension (suffix input_path) = Return fi ->
        (forall fo,
           converters.DataFormat_from_extension (suffix output_path) = Return fo ->
           (fi <> fo ->
              exists r, converters.select_route input_path output_path None
                        = Return r)
           /\ (fi = fo ->
                 converters.select_route input_path output_path None
                 = Raise (converters.ConversionError
                            ("Source and target formats are the same: "
                             ++ converters.DataFormat_value fi))))
        /\ (forall e,
              converters.DataFormat_from_extension (suffix output_path) = Raise e ->
              converters.select_route input_path output_path None = Raise e
              /\ converters.is_UnsupportedFormatError e = true)).
Proof.
  split; [|split; [|split; [|split]]].
  - apply for_registered.
    repeat constructor;
      try (rewrite <- str_in_In; cbn; discriminate); reflexivity.
  - intros f g. unfold utils.validate_conversion. apply str_in_In.
  - intros f g. unfold backend_main.validate_request, utils.validate_conversion.
    pose proof (normalize_idempotent g) as Hidem.
    rewrite Hidem. split; intros H.
    + apply str_in_In in H. now rewrite H.
    + destruct (str_in _ _) eqn:E; [|reflexivity].
      apply str_in_In in E. contradiction.
  - intros f g Hf. revert g. revert f Hf.
    apply (for_registered
             (fun f => forall g, In g (utils.get_compatible_formats f) ->
                exists category,
                  dict_get ("." ++ f) utils.EXTENSION_TO_CATEGORY = Some category
                  /\ In g (backend_main.converter_outputs category))).
    repeat constructor; intros g Hg; cbn in Hg;
      eexists; (split; [reflexivity|]);
      repeat (destruct Hg as [<-|Hg]; [cbn; tauto|]); destruct Hg.
  - intros input_path output_path fi Hfi. split.
    + intros fo Hfo. unfold converters.select_route. rewrite Hfi, Hfo.
      cbn [bind]. destruct (data_format_routes fi fo) as [Hne Heq]. split.
      * intros H. destruct (Hne H) as [r ->]. now exists r.
      * intros H. rewrite (Heq H). subst fo.
        replace (converters.DataFormat_eqb fi fi) with true
          by (destruct fi; reflexivity).
        reflexivity.
    + intros e He. unfold converters.select_route. rewrite Hfi, He.
      cbn [bind]. split; [reflexivity|].
      unfold converters.DataFormat_from_extension in He.
      destruct (dict_get _ _); [discriminate|]. now injection He as <-.
Qed.

(** ** PDF text extraction *)

Lemma range_In (a b i : Z) : In i (range a b) <-> a <= i < b.
Proof.
  unfold range. rewrite in_map_iff. split.
  - intros [k [<- Hk]]. apply in_seq in Hk. lia.
  - intros H. exists (Z.to_nat (i - a)). split; [lia|].
    apply in_seq. lia.
Qed.

Lemma range_cons (a b : Z) : a < b -> range a b = a :: range (a + 1) b.
Proof.
  intros H. unfold range.
  replace (Z.to_nat (b - a)) with (S (Z.to_nat (b - (a + 1)))) by lia.
  cbn [seq map]. f_equal; [lia|].
  rewrite <- seq_shift, map_map. apply map_ext. intros k. lia.
Qed.

Lemma range_nil (a b : Z) : b <= a -> range a b = [].
Proof.
  intros H. unfold range. replace (Z.to_nat (b - a)) with 0%nat by lia.
  reflexivity.
Qed.

Lemma index_in_bounds {A : Type} (xs : list A) (i : Z) :
  0 <= i < len xs -> exists x, index xs i = Some x /\ In x xs.
Proof.
  intros H. unfold index.
  replace (i <? 0) with false by (symmetry; apply Z.ltb_ge; lia).
  replace (i <? 0) with false by (symmetry; apply Z.ltb_ge; lia).
  destruct (nth_error xs (Z.to_nat i)) as [x|] eqn:E.
  - exists x. split; [reflexivity|]. eapply nth_error_In; eauto.
  - apply nth_error_None in E. unfold len in H. lia.
Qed.

Section BackendDocument.

Import backend_document.

Lemma readable_exists (pages : list pypdf.Page) (nums : list Z) :
  (forall n, In n nums -> 0 <= n < len pages) ->
  (forall p, In p pages -> exists t, pypdf.extract_text p = Return t) ->
  exists texts, pypdf.readable pages nums texts.
Proof.
  intros Hb Hr. induction nums as [|n nums IH].
  - exists []. constructor.
  - destruct IH as [texts IH]; [intros m Hm; apply Hb; now right|].
    destruct (index_in_bounds pages n (Hb n (or_introl eq_refl)))
      as [p [Hp Hin]].
    destruct (Hr p Hin) as [t Ht].
    exists (t :: texts). constructor; [now exists p|exact IH].
Qed.

(** The loop reads the pages of its list in order and appends the parts
    of each. *)
Lemma extract_pages_readable (pages : list pypdf.Page) (nums : list Z)
  (texts : list (option string)) :
  pypdf.readable pages nums texts ->
  forall parts trace,
    extract_pages pages nums parts trace
    = ((trace ++ map ExtractText nums)%list,
       Return (parts ++ flat_map (fun nt => page_parts (fst nt) (snd nt))
                          (combine nums texts))%list).
Proof.
  induction 1 as [|n t nums texts [p [Hp Ht]] _ IH]; intros parts trace.
  - cbn. now rewrite !app_nil_r.
  - cbn [extract_pages]. rewrite Hp, Ht. rewrite IH.
    cbn [map combine flat_map fst snd].
    rewrite <- !app_assoc. reflexivity.
Qed.

(** The clamped bounds select the pages of the half-open interval that
    exist. *)
Lemma clamped_range (s e n i : Z) :
  In i (range (Z.max 0 s) (Z.min n e)) <-> (s <= i < e /\ 0 <= i < n).
Proof. rewrite range_In. lia. Qed.

Lemma In_ExtractText_app (nums : list Z) (rest : list event) (i : Z) :
  (forall j, ~ In (ExtractText j) rest) ->
  In (ExtractText i) (map ExtractText nums ++ rest) <-> In i nums.
Proof.
  intros Hrest. rewrite in_app_iff, in_map_iff. split.
  - intros [[j [Hj Hin]]|H]; [now injection Hj as ->|now apply Hrest in H].
  - intros H. left. now exists i.
Qed.

(** What [_convert_pdf_to_text] does on a document within the page limit
    whose selected pages can be read. *)
Lemma convert_pdf_to_text_readable (io : DocumentIO)
  (input_path output_path : Path) (options : dict)
  (pages : list pypdf.Page) (start_page end_page : Z)
  (texts : list (option string)) :
  pdf_pages io input_path = Return pages ->
  len pages <= MAX_PDF_PAGES ->
  page_bounds (get "page_range" options) (len pages)
  = Return (start_page, end_page) ->
  pypdf.readable pages (range start_page end_page) texts ->
  let nums := range start_page end_page in
  let full_text :=
    join "" (flat_map (fun nt => page_parts (fst nt) (snd nt))
               (combine nums texts)) in
  let target :=
    if negb (lower (suffix output_path) =? ".txt")%string
    then with_suffix output_path ".txt" else output_path in
  _convert_pdf_to_text io input_path output_path options
  = if text_too_large full_text then
      (map ExtractText nums, Raise (TextTooLarge (str_len full_text)))
    else
      ((map ExtractText nums ++ [WriteFile target full_text])%list,
       match write_file io target full_text with
       | Return _ => Return target
       | Raise e => Raise (FailedToExtract e)
       end).
Proof.
  intros Hpages Hmax Hbounds Hread nums full_text target.
  unfold _convert_pdf_to_text. rewrite Hpages.
  replace (len pages >? MAX_PDF_PAGES) with false by (symmetry; lia).
  unfold extract_and_write. rewrite Hbounds.
  rewrite (extract_pages_readable pages _ texts Hread). cbn [app].
  fold nums. fold full_text.
  destruct (text_too_large full_text); [reflexivity|].
  fold target. destruct (write_file io target full_text); reflexivity.
Qed.

End BackendDocument.

Lemma str_len_app (a b : string) : str_len (a ++ b) = str_len a + str_len b.
Proof.
  unfold str_len. induction a as [|c a IH]; cbn [append String.length].
  - reflexivity.
  - rewrite !Nat2Z.inj_succ. lia.
Qed.

Lemma str_len_cons (c : ascii) (s : string) :
  str_len (String c s) = 1 + str_len s.
Proof. unfold str_len. cbn [String.length]. lia. Qed.

Lemma str_len_nonneg (s : string) : 0 <= str_len s.
Proof. unfold str_len. lia. Qed.

Lemma str_len_doubled (k : nat) :
  forall s, str_len (fixtures.doubled k s) = 2 ^ Z.of_nat k * str_len s.
Proof.
  induction k as [|k IH]; intro s.
  - cbn [fixtures.doubled]. change (Z.of_nat 0) with 0. lia.
  - cbn [fixtures.doubled]. rewrite IH, str_len_app, Nat2Z.inj_succ.
    rewrite Z.pow_succ_r by lia. lia.
Qed.

Section BackendDocumentLimits.

Import backend_document.

Lemma extract_pages_no_write (pages : list pypdf.Page) (nums : list Z) :
  forall parts trace trace' r,
    extract_pages pages nums parts trace = (trace', r) ->
    (forall p t, ~ In (WriteFile p t) trace) ->
    forall p t, ~ In (WriteFile p t) trace'.
Proof.
  induction nums as [|n nums IH]; intros parts trace trace' r H Hno p t.
  - cbn in H. injection H as <- _. apply Hno.
  - cbn [extract_pages] in H.
    destruct (index pages n) as [page|].
    2:{ injection H as <- _. apply Hno. }
    assert (Hno' : forall p t,
               ~ In (WriteFile p t) (trace ++ [ExtractText n])%list).
    { intros p' t' Hin. apply in_app_iff in Hin.
      destruct Hin as [Hin|[Hin|[]]]; [now apply Hno in Hin|discriminate]. }
    destruct (pypdf.extract_text page).
    + eapply IH; eauto.
    + injection H as <- _. apply Hno'.
Qed.

(** A cap failure leaves no output: the trace of a call that ends in
    [TooManyPages] is empty, and that of a call that ends in
    [TextTooLarge] holds no write. *)
Lemma cap_failure_writes_nothing (io : DocumentIO)
  (input_path output_path : Path) (options : dict) :
  forall trace e,
    _convert_pdf_to_text io input_path output_path options = (trace, Raise e) ->
    match e with
    | TooManyPages _ => trace = []
    | TextTooLarge _ => forall p t, ~ In (WriteFile p t) trace
    | FailedToExtract _ => True
    end.
Proof.
  intros trace e H. unfold _convert_pdf_to_text in H.
  destruct (pdf_pages io input_path) as [pages|e0].
  2:{ injection H as <- <-. exact I. }
  destruct (len pages >? MAX_PDF_PAGES).
  { injection H as <- <-. reflexivity. }
  unfold extract_and_write in H.
  destruct (page_bounds _ _) as [[s e']|e0].
  2:{ injection H as <- <-. exact I. }
  destruct (extract_pages pages (range s e') [] []) as [tr [parts|e0]] eqn:Hx.
  2:{ injection H as <- <-. exact I. }
  destruct (text_too_large _).
  { injection H as <- <-.
    eapply extract_pages_no_write; [exact Hx|]. intros p t []. }
  destruct (write_file _ _ _); [discriminate|].
  injection H as <- <-. exact I.
Qed.

End BackendDocumentLimits.

(** C3.  For a PDF whose pages are [pages]: with more than 500 pages the
    extraction fails with the page-limit error before any page text is
    extracted and before anything is written (the trace is empty); when
    the pages of the range are read and their text is larger than 50 MB it
    fails with the text-size error after the extraction and before the
    output file is opened.  Whenever the call ends in one of the two limit
    errors, no output file has been written. *)
Theorem C3_pdf_resource_limits :
  forall (io : backend_document.DocumentIO) (input_path output_path : Path)
         (options : dict) (pages : list pypdf.Page),
    backend_document.pdf_pages io input_path = Return pages ->
    (len pages > backend_document.MAX_PDF_PAGES ->
       backend_document._convert_pdf_to_text io input_path output_path options
       = ([], Raise (backend_document.TooManyPages (len pages))))
    /\ (forall start_page end_page texts,
          len pages <= backend_document.MAX_PDF_PAGES ->
          backend_document.page_bounds (get "page_range" options) (len pages)
          = Return (start_page, end_page) ->
          pypdf.readable pages (range start_page end_page) texts ->
          let full_text :=
            join "" (flat_map
                       (fun nt => backend_document.page_parts (fst nt) (snd nt))
                       (combine (range start_page end_page) texts)) in
          str_len full_text
          > backend_document.MAX_TEXT_SIZE_MB * (1024 * 1024) ->
          backend_document._convert_pdf_to_text io input_path output_path options
          = (map backend_document.ExtractText (range start_page end_page),
             Raise (backend_document.TextTooLarge (str_len full_text))))
    /\ (forall trace e,
          backend_document._convert_pdf_to_text io input_path output_path options
          = (trace, Raise e) ->
          (forall n, e = backend_document.TooManyPages n -> trace = [])
          /\ (forall n, e = backend_document.TextTooLarge n ->
                forall p t, ~ In (backend_document.WriteFile p t) trace)).
Proof.
  intros io input_path output_path options pages Hpages.
  split; [|split].
  - intros Hmany. unfold backend_document._convert_pdf_to_text.
    rewrite Hpages.
    replace (len pages >? backend_document.MAX_PDF_PAGES) with true
      by (symmetry; lia).
    reflexivity.
  - intros start_page end_page texts Hmax Hbounds Hread full_text Hbig.
    rewrite (convert_pdf_to_text_readable io input_path output_path options
               pages start_page end_page texts Hpages Hmax Hbounds Hread).
    fold full_text. unfold backend_document.text_too_large.
    replace (str_len full_text
             >? backend_document.MAX_TEXT_SIZE_MB * (1024 * 1024))
      with true by (symmetry; lia).
    reflexivity.
  - intros trace e H.
    pose proof (cap_failure_writes_nothing io input_path output_path options
                  trace e H) as Hcap.
    split; intros n ->; exact Hcap.
Qed.

(** The theorem on a document of 501 pages, and on a document whose single
    page holds more than fifty megabytes of text. *)
Lemma C3_witness :
  backend_document._convert_pdf_to_text
    (fixtures.document_io (repeat (fixtures.page "x") 501))
    fixtures.doc fixtures.out_txt []
  = ([], Raise (backend_document.TooManyPages 501))
  /\ backend_document._convert_pdf_to_text
       (fixtures.document_io [fixtures.page fixtures.big_text])
       fixtures.doc fixtures.out_txt []
     = ([backend_document.ExtractText 0],
        Raise (backend_document.TextTooLarge (str_len fixtures.big_text + 17))).
Proof.
  split.
  - exact (proj1 (C3_pdf_resource_limits
                    (fixtures.document_io (repeat (fixtures.page "x") 501))
                    fixtures.doc fixtures.out_txt []
                    (repeat (fixtures.page "x") 501) eq_refl)
             ltac:(vm_compute; reflexivity)).
  - pose proof (proj1 (proj2 (C3_pdf_resource_limits
                    (fixtures.document_io [fixtures.page fixtures.big_text])
                    fixtures.doc fixtures.out_txt []
                    [fixtures.page fixtures.big_text] eq_refl))
                  0 1 [Some fixtures.big_text]) as H.
    assert (Hlen : str_len fixtures.big_text = 1 + 2 ^ 26).
    { unfold fixtures.big_text. rewrite str_len_cons, str_len_doubled.
      change (str_len "a") with 1. change (Z.of_nat 26) with 26. lia. }
    assert (Hsize :
      str_len (join "" (flat_map
                 (fun nt => backend_document.page_parts (fst nt) (snd nt))
                 (combine (range 0 1) [Some fixtures.big_text])))
      = str_len fixtures.big_text + 17).
    { change (range 0 1) with [0].
      unfold fixtures.big_text.
      generalize (fixtures.doubled 26 "a"). intros r.
      cbn [combine flat_map fst snd List.app backend_document.page_parts join].
      rewrite !str_len_app, !str_len_cons.
      change (str_len "--- Page ") with 9.
      change (str_len (str_of_Z (0 + 1))) with 1.
      change (str_len " ---") with 4.
      change (str_len nl) with 1.
      change (str_len "") with 0.
      lia. }
    cbv zeta in H. rewrite Hsize in H. apply H.
    + unfold len, backend_document.MAX_PDF_PAGES. cbn [List.length]. lia.
    + reflexivity.
    + constructor; [|constructor].
      exists (fixtures.page fixtures.big_text). split; reflexivity.
    + rewrite Hlen. vm_compute. reflexivity.
Defined.

(** ** The page range of the text extraction *)

Section LibraryDocument.

Import converters.

(** The library's loop appends one entry per page number, in order. *)
Lemma library_extract_pages_readable (pages : list pypdf.Page) (nums : list Z)
  (texts : list (option string)) :
  pypdf.readable pages nums texts ->
  forall extracted total_chars,
    extract_pages pages nums extracted total_chars
    = Return
        ((extracted
          ++ map (fun nt => page_entry (fst nt) (pypdf.text_or_empty (snd nt)))
               (combine nums texts))%list,
         fold_left (fun n t => n + char_len (pypdf.text_or_empty t)) texts
           total_chars).
Proof.
  induction 1 as [|n t nums texts [p [Hp Ht]] _ IH]; intros extracted total.
  - cbn. now rewrite app_nil_r.
  - cbn [extract_pages]. rewrite Hp. cbn [bind]. rewrite Ht.
    cbn [platform bind]. rewrite IH.
    cbn [map combine fold_left fst snd]. rewrite <- app_assoc. reflexivity.
Qed.

(** With a validated range on a document that has pages, the library
    reads the pages [min(first, n-1) .. min(last, n-1)]: the end of the
    range is included. *)
Lemma library_selected_pages (options : PDFConversionOptions)
  (first last n i : Z) :
  page_range options = Some (first, last) ->
  0 <= first <= last -> 1 <= n ->
  let '(start_page, end_page) := selected_pages options n in
  (In i (range start_page end_page)
   <-> Z.min first (n - 1) <= i <= Z.min last (n - 1))
  /\ 0 <= start_page /\ end_page <= n.
Proof.
  intros Hr Hfl Hn. unfold selected_pages. rewrite Hr.
  rewrite range_In. lia.
Qed.

End LibraryDocument.

(** The claim fails on both extractors.  The library's [pdf_to_text]
    takes the end of the range as included: on three pages, the range
    (0, 2), which its options accept, gives a text with a marker for page
    3.  The backend writes no marker for a page without text: on three
    pages whose first is empty, the range (0, 2) gives a text without a
    marker for page 1. *)
Lemma C2_counterexample :
  (exists options text n chars,
     converters.new_PDFConversionOptions (Some (0, 2)) 200 converters.PNG
     = Return options
     /\ converters.extract_full_text fixtures.three_pages options
        = Return (text, n, chars)
     /\ n = 3
     /\ str_contains "--- Page 3 ---" text = true)
  /\ (exists text,
        backend_document._convert_pdf_to_text
          (fixtures.document_io
             [fixtures.page ""; fixtures.page "two"; fixtures.page "three"])
          fixtures.doc fixtures.out_txt
          [("page_range", VTuple [VInt 0; VInt 2])]
        = ([backend_document.ExtractText 0; backend_document.ExtractText 1;
            backend_document.WriteFile fixtures.out_txt text],
           Return fixtures.out_txt)
        /\ str_contains "--- Page 1 ---" text = false
        /\ str_contains "--- Page 2 ---" text = true).
Proof.
  split.
  - do 4 eexists. split; [reflexivity|]. split; [reflexivity|].
    split; reflexivity.
  - eexists. split; [reflexivity|]. split; reflexivity.
Qed.

(** C2, as the code has it.  The backend's [_convert_pdf_to_text] reads a
    range [(start, end)] as the half-open interval [start, end) clamped to
    the pages of the document: on a document within the page limit whose
    pages can be read, the pages extracted are exactly those with
    [start <= i < end] and [0 <= i < pageCount].  On three pages with the
    range (0, 2) it extracts pages 1 and 2 only and, when the text is
    within the size limit, writes the parts of those two pages: for each
    a marker, its text and a blank line, and nothing for a page whose text
    is empty; the third page is never read.  The library's [pdf_to_text]
    takes the end of a validated range as included: it extracts the pages
    [min(start, n-1) .. min(end, n-1)], one marked entry per page. *)
Theorem C2_page_range :
  (forall (io : backend_document.DocumentIO) (input_path output_path : Path)
          (options : dict) (pages : list pypdf.Page) (s e : Z),
     backend_document.pdf_pages io input_path = Return pages ->
     len pages <= backend_document.MAX_PDF_PAGES ->
     get "page_range" options = VTuple [VInt s; VInt e] ->
     (forall p, In p pages -> exists t, pypdf.extract_text p = Return t) ->
     forall i,
       In (backend_document.ExtractText i)
          (fst (backend_document._convert_pdf_to_text io input_path
                  output_path options))
       <-> (s <= i < e /\ 0 <= i < len pages))
  /\ (forall (io : backend_document.DocumentIO) (input_path output_path : Path)
             (options : dict) (t1 t2 : option string) (p3 : pypdf.Page),
        backend_document.pdf_pages io input_path
        = Return [pypdf.mkPage (Return t1); pypdf.mkPage (Return t2); p3] ->
        get "page_range" options = VTuple [VInt 0; VInt 2] ->
        let text := join "" (backend_document.page_parts 0 t1
                             ++ backend_document.page_parts 1 t2)%list in
        let target :=
          if negb (lower (suffix output_path) =? ".txt")%string
          then with_suffix output_path ".txt" else output_path in
        backend_document.text_too_large text = false ->
        backend_document._convert_pdf_to_text io input_path output_path options
        = ([backend_document.ExtractText 0; backend_document.ExtractText 1;
            backend_document.WriteFile target text],
           match backend_document.write_file io target text with
           | Return _ => Return target
           | Raise err => Raise (backend_document.FailedToExtract err)
           end))
  /\ (forall (pages : list pypdf.Page)
             (options : converters.PDFConversionOptions) (first last : Z),
        converters.page_range options = Some (first, last) ->
        0 <= first <= last ->
        1 <= len pages ->
        (forall p, In p pages -> exists t, pypdf.extract_text p = Return t) ->
        exists texts,
          let nums := range (Z.min first (len pages - 1))
                            (Z.min (last + 1) (len pages)) in
          pypdf.readable pages nums texts
          /\ (forall i, In i nums <->
                Z.min first (len pages - 1) <= i <= Z.min last (len pages - 1))
          /\ converters.extract_full_text pages options
             = Return
                 (join nl
                    (map (fun nt =>
                            converters.page_entry (fst nt)
                              (pypdf.text_or_empty (snd nt)))
                         (combine nums texts)),
                  Z.min (last + 1) (len pages) - Z.min first (len pages - 1),
                  fold_left (fun n t => n + char_len (pypdf.text_or_empty t))
                    texts 0)).
Proof.
  split; [|split].
  - intros io input_path output_path options pages s e Hpages Hmax Hopt Hread i.
    assert (Hbounds :
      backend_document.page_bounds (get "page_range" options) (len pages)
      = Return (Z.max 0 s, Z.min (len pages) e)).
    { rewrite Hopt. reflexivity. }
    destruct (readable_exists pages (range (Z.max 0 s) (Z.min (len pages) e)))
      as [texts Htexts]; [|exact Hread|].
    { intros n Hn. apply range_In in Hn. lia. }
    rewrite (convert_pdf_to_text_readable io input_path output_path options
               pages _ _ texts Hpages Hmax Hbounds Htexts).
    rewrite <- clamped_range.
    destruct (backend_document.text_too_large _); cbn [fst].
    + rewrite <- (app_nil_r (map _ _)).
      apply In_ExtractText_app. intros j [].
    + apply In_ExtractText_app. intros j [H|[]]. discriminate.
  - intros io input_path output_path options t1 t2 p3 Hpages Hopt text target
           Hsmall.
    assert (Hbounds :
      backend_document.page_bounds (get "page_range" options)
        (len [pypdf.mkPage (Return t1); pypdf.mkPage (Return t2); p3])
      = Return (0, 2)).
    { rewrite Hopt. reflexivity. }
    assert (Hread : pypdf.readable
                      [pypdf.mkPage (Return t1); pypdf.mkPage (Return t2); p3]
                      (range 0 2) [t1; t2]).
    { change (range 0 2) with [0; 1].
      repeat constructor; eexists; split; reflexivity. }
    rewrite (convert_pdf_to_text_readable io input_path output_path options
               _ 0 2 [t1; t2] Hpages ltac:(vm_compute; discriminate)
               Hbounds Hread).
    change (range 0 2) with [0; 1].
    cbn [combine flat_map fst snd map List.app].
    rewrite app_nil_r. fold text. rewrite Hsmall. reflexivity.
  - intros pages options first last Hr Hfl Hn Hread.
    pose proof (library_selected_pages options first last (len pages)) as Hsel.
    unfold converters.extract_full_text.
    unfold converters.selected_pages in *. rewrite Hr in *.
    destruct (readable_exists pages
                (range (Z.min first (len pages - 1))
                       (Z.min (last + 1) (len pages))))
      as [texts Htexts]; [|exact Hread|].
    { intros n Hin. apply range_In in Hin. lia. }
    exists texts. cbv zeta. split; [exact Htexts|]. split.
    + intros i. apply (Hsel i eq_refl Hfl Hn).
    + rewrite (library_extract_pages_readable pages _ texts Htexts).
      reflexivity.
Qed.

(** The theorem on a document of three pages with the range (0, 2): the
    backend writes the text of pages 1 and 2, with no marker for page 3. *)
Lemma C2_witness :
  exists text,
    backend_document._convert_pdf_to_text
      (fixtures.document_io fixtures.three_pages) fixtures.doc fixtures.out_txt
      [("page_range", VTuple [VInt 0; VInt 2])]
    = ([backend_document.ExtractText 0; backend_document.ExtractText 1;
        backend_document.WriteFile fixtures.out_txt text],
       Return fixtures.out_txt)
    /\ str_contains "--- Page 1 ---" text = true
    /\ str_contains "--- Page 2 ---" text = true
    /\ str_contains "--- Page 3 ---" text = false.
Proof.
  eexists. split.
  - exact (proj1 (proj2 C2_page_range)
             (fixtures.document_io fixtures.three_pages) fixtures.doc
             fixtures.out_txt [("page_range", VTuple [VInt 0; VInt 2])]
             (Some "one") (Some "two") (fixtures.page "three")
             eq_refl eq_refl eq_refl).
  - repeat split; reflexivity.
Defined.

(** ** Reading CSV: the latin-1 retry *)

Section BackendCsv.

Import backend_data.

Variable pd : pandas.Pandas.

Lemma read_csv_attempts (path : Path) (options : dict) :
  (List.length (fst (_read_csv pd path options)) <= 2)%nat.
Proof.
  unfold _read_csv.
  destruct (pandas.read_csv pd path _ _ _) as [df|e]; cbn; [lia|].
  destruct (is_class "UnicodeDecodeError" e); cbn; lia.
Qed.

(** The file is read a second time exactly when the first reading ends in
    a [UnicodeDecodeError]. *)
Lemma read_csv_retries (path : Path) (options : dict) :
  List.length (fst (_read_csv pd path options)) = 2%nat
  <-> exists e,
        pandas.read_csv pd path
          (get_default "encoding" options (VStr "utf-8"))
          (get_default "delimiter" options (VStr ","))
          (get_default "header" options (VInt 0)) = Raise e
        /\ is_class "UnicodeDecodeError" e = true.
Proof.
  unfold _read_csv.
  destruct (pandas.read_csv pd path _ _ _) as [df|e]; cbn.
  - split; [discriminate|]. intros [e [He _]]. discriminate.
  - destruct (is_class "UnicodeDecodeError" e) eqn:Hc; cbn.
    + split; [eauto|reflexivity].
    + split; [discriminate|]. intros [e' [He' Hc']].
      injection He' as <-. congruence.
Qed.

End BackendCsv.

(** C7.  When the reading of a CSV file under the declared encoding (UTF-8
    when none is declared) fails to decode, that is, ends in a
    [UnicodeDecodeError], [_read_csv] reads the file a second time, as
    latin-1, and only a second time: the outcome of that reading is the
    outcome of the call, so that a file that is read as latin-1 is read
    successfully, and a failure of the second reading, whatever it is, is
    the failure of the call.  The file is read a second time in no other
    case: a first reading that returns, or that fails in another way, is
    the outcome of the call. *)
Theorem C7_csv_latin1_retry :
  forall (pd : pandas.Pandas) (path : Path) (options : dict),
    let encoding := get_default "encoding" options (VStr "utf-8") in
    let delimiter := get_default "delimiter" options (VStr ",") in
    let header := get_default "header" options (VInt 0) in
    let first := pandas.read_csv pd path encoding delimiter header in
    let second := pandas.read_csv pd path (VStr "latin-1") delimiter header in
    (forall e,
       first = Raise e ->
       backend_data.is_class "UnicodeDecodeError" e = true ->
       backend_data._read_csv pd path options
       = ([encoding; VStr "latin-1"], second))
    /\ (forall e df,
          first = Raise e ->
          backend_data.is_class "UnicodeDecodeError" e = true ->
          second = Return df ->
          backend_data._read_csv pd path options
          = ([encoding; VStr "latin-1"], Return df))
    /\ (forall e e',
          first = Raise e ->
          backend_data.is_class "UnicodeDecodeError" e = true ->
          second = Raise e' ->
          backend_data._read_csv pd path options
          = ([encoding; VStr "latin-1"], Raise e'))
    /\ ((forall e, first = Raise e ->
                   backend_data.is_class "UnicodeDecodeError" e = false) ->
        backend_data._read_csv pd path options = ([encoding], first))
    /\ (List.length (fst (backend_data._read_csv pd path options)) <= 2)%nat
    /\ (List.length (fst (backend_data._read_csv pd path options)) = 2%nat
        <-> exists e,
              first = Raise e
              /\ backend_data.is_class "UnicodeDecodeError" e = true).
Proof.
  intros pd path options encoding delimiter header first second.
  assert (Hretry : forall e,
    first = Raise e ->
    backend_data.is_class "UnicodeDecodeError" e = true ->
    backend_data._read_csv pd path options
    = ([encoding; VStr "latin-1"], second)).
  { intros e Hfirst Hclass. unfold backend_data._read_csv.
    fold encoding delimiter header. fold first. rewrite Hfirst, Hclass.
    reflexivity. }
  split; [exact Hretry|]. split; [|split; [|split; [|split]]].
  - intros e df Hfirst Hclass Hsecond.
    rewrite (Hretry e Hfirst Hclass). now rewrite Hsecond.
  - intros e e' Hfirst Hclass Hsecond.
    rewrite (Hretry e Hfirst Hclass). now rewrite Hsecond.
  - intros Hother. unfold backend_data._read_csv.
    fold encoding delimiter header. fold first.
    destruct first as [df|e] eqn:Hfirst; [reflexivity|].
    now rewrite (Hother e eq_refl).
  - apply read_csv_attempts.
  - apply read_csv_retries.
Qed.

(** The theorem on a file that holds the single byte E9, "e acute" in
    latin-1 and no text in UTF-8: the second reading gives a frame. *)
Lemma C7_witness :
  exists df,
    backend_data._read_csv fixtures.pandas_ (mkPath "in" "names" ".csv") []
    = ([VStr "utf-8"; VStr "latin-1"], Return df)
    /\ pandas.nrows df = 1.
Proof.
  eexists. split.
  - exact (proj1 (proj2 (C7_csv_latin1_retry fixtures.pandas_
             (mkPath "in" "names" ".csv") []))
             _ _ eq_refl eq_refl eq_refl).
  - reflexivity.
Defined.

(** ** Transparency *)

Section Paste.

Variable pl : pil.Pillow.

(** Pillow's contract for [paste] with a mask: where the mask is 0 the
    destination keeps its value. *)
Hypothesis blend_keeps : forall d s, pil.blend pl d s 0 = d.

Lemma paste_pixel_transparent (d s : pil.pixel) :
  (List.length d <= List.length s)%nat ->
  pil.paste_pixel pl d s 0 = d.
Proof.
  unfold pil.paste_pixel. revert s.
  induction d as [|x d IH]; intros [|y s] H; cbn in *; try lia; try reflexivity.
  rewrite blend_keeps. f_equal. apply IH. lia.
Qed.

Lemma paste_data_nth (dst src : list pil.pixel) (mask : list Z) :
  forall i d s m,
    nth_error dst i = Some d ->
    nth_error src i = Some s ->
    nth_error mask i = Some m ->
    nth_error (pil.paste_data pl dst src mask) i
    = Some (pil.paste_pixel pl d s m).
Proof.
  revert src mask.
  induction dst as [|d0 dst IH]; intros [|s0 src] [|m0 mask] [|i] d s m Hd Hs Hm;
    cbn in *; try discriminate.
  - now injection Hd as <-; injection Hs as <-; injection Hm as <-.
  - eapply IH; eauto.
Qed.

(** Pasting an RGBA image onto a solid background through its own alpha
    band leaves the background colour wherever the image is fully
    transparent. *)
Lemma paste_over_background (img : pil.Image) (color : py.value)
  (background : pil.Image) (i : nat) (r g b : Z) :
  pil.mode img = pil.RGBA ->
  List.length (pil.data img) = pil.npixels (pil.size img) ->
  nth_error (pil.data img) i = Some [r; g; b; 0] ->
  pil.new_rgb pl (pil.size img) color = Return background ->
  exists cr cg cb,
    pil.ink pl color = Some (cr, cg, cb)
    /\ pil.mode (pil.paste pl background img (pil.last_band img)) = pil.RGB
    /\ pil.getpixel (pil.paste pl background img (pil.last_band img)) i
       = Some [cr; cg; cb].
Proof.
  intros Hmode Hlen Hpx Hnew. unfold pil.new_rgb in Hnew.
  destruct (pil.ink pl color) as [[[cr cg] cb]|]; [|discriminate].
  injection Hnew as <-. exists cr, cg, cb.
  split; [reflexivity|]. split; [reflexivity|].
  unfold pil.getpixel, pil.paste. cbn [pil.data pil.mode pil.size].
  assert (Hi : (i < pil.npixels (pil.size img))%nat).
  { rewrite <- Hlen. apply nth_error_Some. congruence. }
  rewrite (paste_data_nth _ _ _ i [cr; cg; cb]
             (pil.rgb_bands (pil.mode img) [r; g; b; 0]) 0).
  - rewrite paste_pixel_transparent; [reflexivity|].
    rewrite Hmode. cbn. lia.
  - apply nth_error_repeat. exact Hi.
  - rewrite nth_error_map, Hpx. reflexivity.
  - unfold pil.last_band. rewrite nth_error_map.
    unfold pil.pixel in Hpx. rewrite Hpx. reflexivity.
Qed.

End Paste.

Lemma handle_transparency_rgba (pl : pil.Pillow) (img : pil.Image)
  (options : dict) :
  pil.mode img = pil.RGBA ->
  backend_image._handle_transparency pl img options
  = (background <- pil.new_rgb pl (pil.size img)
                     (get_default "background_color" options backend_image.white) ;;
     Return (pil.paste pl background img (pil.last_band img))).
Proof.
  intros Hmode. unfold backend_image._handle_transparency.
  repeat (rewrite Hmode;
          cbn [pil.mode_in existsb pil.mode_eqb orb andb negb]).
  reflexivity.
Qed.

Lemma load_image_ok (io : backend_image.ImageIO) (path : Path) (img : pil.Image) :
  backend_image.image_open io path = Return img ->
  backend_image.image_load io img = Return tt ->
  fst (pil.size img) <= backend_image.MAX_DIMENSION ->
  snd (pil.size img) <= backend_image.MAX_DIMENSION ->
  backend_image._load_image io path = Return img.
Proof.
  intros Hopen Hload Hw Hh. unfold backend_image._load_image.
  rewrite Hopen. cbn [bind]. destruct (pil.size img) as [w h]. cbn in Hw, Hh.
  replace (w >? backend_image.MAX_DIMENSION) with false by (symmetry; lia).
  replace (h >? backend_image.MAX_DIMENSION) with false by (symmetry; lia).
  cbn [orb]. rewrite Hload. reflexivity.
Qed.

(** C4.  Let [img] be an RGBA image whose pixel [i] is fully transparent,
    and let Pillow's [paste] keep the destination where the mask is 0.
    Converted to JPEG without a resize, the image handed to the encoder is
    RGB, hence opaque, and its pixel [i] is the ink of the configured
    background colour: the option [background_color] in the backend,
    white when the option is absent; always white in the library.
    Converted to WEBP, the image handed to the encoder is [img] itself,
    alpha band included. *)
Theorem C4_transparency_flattening :
  forall (pl : pil.Pillow),
    (forall d s, pil.blend pl d s 0 = d) ->
    forall (img : pil.Image) (i : nat) (r g b : Z),
      pil.mode img = pil.RGBA ->
      List.length (pil.data img) = pil.npixels (pil.size img) ->
      nth_error (pil.data img) i = Some [r; g; b; 0] ->
      (forall (io : backend_image.ImageIO) (input_path : Path) (options : dict),
         backend_image.image_open io input_path = Return img ->
         backend_image.image_load io img = Return tt ->
         fst (pil.size img) <= backend_image.MAX_DIMENSION ->
         snd (pil.size img) <= backend_image.MAX_DIMENSION ->
         truthy (get "resize" options) = false ->
         (forall output_format cr cg cb,
            output_format = "jpg" \/ output_format = "jpeg" ->
            pil.ink pl (get_default "background_color" options
                          backend_image.white) = Some (cr, cg, cb) ->
            exists request,
              backend_image.prepare pl io input_path output_format options
              = Return request
              /\ backend_image.save_format request = "JPEG"
              /\ pil.mode (backend_image.save_image request) = pil.RGB
              /\ pil.getpixel (backend_image.save_image request) i
                 = Some [cr; cg; cb])
         /\ (exists request,
               backend_image.prepare pl io input_path "webp" options
               = Return request
               /\ backend_image.save_format request = "WEBP"
               /\ backend_image.save_image request = img))
      /\ (forall options,
            dict_get "background_color" options = None ->
            pil.ink pl (get_default "background_color" options
                          backend_image.white) = Some (255, 255, 255))
      /\ (forall output_format,
            output_format = converters.JPG \/ output_format = converters.JPEG ->
            exists flat,
              converters.flatten_for_output pl output_format img = Return flat
              /\ pil.mode flat = pil.RGB
              /\ pil.getpixel flat i = Some [255; 255; 255])
      /\ converters.flatten_for_output pl converters.WEBP img = Return img.
Proof.
  intros pl Hblend img i r g b Hmode Hlen Hpx.
  split; [|split; [|split]].
  - intros io input_path options Hopen Hload Hw Hh Hresize. split.
    + intros output_format cr cg cb Hfmt Hink.
      unfold backend_image.prepare.
      rewrite (load_image_ok io input_path img Hopen Hload Hw Hh).
      cbn [bind]. rewrite Hresize. cbn [bind].
      assert (Hnt : str_in output_format backend_image.NON_TRANSPARENT_FORMATS
                    = true) by (destruct Hfmt as [-> | ->]; reflexivity).
      rewrite Hnt, (handle_transparency_rgba pl img options Hmode).
      destruct (pil.new_rgb pl (pil.size img)
                  (get_default "background_color" options backend_image.white))
        as [background|e] eqn:Hnew.
      2:{ unfold pil.new_rgb in Hnew. rewrite Hink in Hnew. discriminate. }
      destruct (paste_over_background pl Hblend img _ background i r g b
                  Hmode Hlen Hpx Hnew) as [cr' [cg' [cb' [Hink' [Hm Hp]]]]].
      rewrite Hink in Hink'. injection Hink' as <- <- <-.
      cbn [bind].
      assert (Hh' : dict_get output_format backend_image._format_handlers
                    = Some backend_image._save_as_jpeg)
        by (destruct Hfmt as [-> | ->]; reflexivity).
      rewrite Hh'.
      destruct (validate_quality_option (backend_image.interpreter io)
                  (get_default "quality" options
                     (VInt backend_image.DEFAULT_QUALITY)))
        as [quality [Hq _]].
      unfold backend_image._save_as_jpeg. rewrite Hq. cbn [bind].
      eexists. split; [reflexivity|].
      unfold backend_image.ensure_mode.
      cbn [backend_image.save_format backend_image.save_image].
      rewrite Hm. cbn [pil.mode_in existsb pil.mode_eqb orb negb].
      auto.
    + unfold backend_image.prepare.
      rewrite (load_image_ok io input_path img Hopen Hload Hw Hh).
      cbn [bind]. rewrite Hresize. cbn [bind].
      destruct (validate_quality_option (backend_image.interpreter io)
                  (get_default "quality" options
                     (VInt backend_image.DEFAULT_QUALITY)))
        as [quality [Hq _]].
      cbn [str_in String.eqb Ascii.eqb Bool.eqb orb
           backend_image.NON_TRANSPARENT_FORMATS].
      cbn [dict_get backend_image._format_handlers String.eqb Ascii.eqb Bool.eqb].
      unfold backend_image._save_as_webp. rewrite Hq. cbn [bind].
      eexists. split; [reflexivity|].
      unfold backend_image.ensure_mode.
      cbn [backend_image.save_format backend_image.save_image].
      rewrite Hmode. split; reflexivity.
  - intros options Hnone. unfold get_default. rewrite Hnone. reflexivity.
  - intros output_format Hfmt.
    assert (Hflat :
      converters.flatten_for_output pl output_format img
      = (background <- converters.platform
                         (pil.new_rgb pl (pil.size img) backend_image.white) ;;
         Return (pil.paste pl background img (pil.last_band img)))).
    { unfold converters.flatten_for_output.
      destruct Hfmt as [-> | ->];
        repeat (rewrite Hmode;
                cbn [pil.mode_in existsb pil.mode_eqb orb andb negb]);
        reflexivity. }
    rewrite Hflat.
    destruct (pil.new_rgb pl (pil.size img) backend_image.white)
      as [background|e] eqn:Hnew; [|discriminate].
    destruct (paste_over_background pl Hblend img _ background i r g b
                Hmode Hlen Hpx Hnew) as [cr [cg [cb [Hink [Hm Hp]]]]].
    injection Hink as <- <- <-.
    eexists. split; [reflexivity|]. split; assumption.
  - reflexivity.
Qed.

(** The theorem on the 2x1 image of the fixtures, whose first pixel is
    fully transparent, with the background (10, 20, 30): the JPEG encoder
    gets an RGB image whose first pixel is (10, 20, 30), and whose second,
    opaque, pixel is the image's. *)
Lemma C4_witness :
  exists request,
    backend_image.prepare fixtures.pillow fixtures.backend_image_io
      fixtures.photo "jpg"
      [("background_color", VTuple [VInt 10; VInt 20; VInt 30])]
    = Return request
    /\ pil.mode (backend_image.save_image request) = pil.RGB
    /\ pil.data (backend_image.save_image request)
       = [[10; 20; 30]; [0; 0; 255]].
Proof.
  destruct (proj1 (proj1 (C4_transparency_flattening fixtures.pillow
              ltac:(intros d s; cbn; rewrite Z.mul_0_r, Z.add_0_r;
                    apply Z.div_mul; discriminate)
              fixtures.two_pixels 0%nat 255 0 0 eq_refl eq_refl eq_refl)
              fixtures.backend_image_io fixtures.photo
              [("background_color", VTuple [VInt 10; VInt 20; VInt 30])]
              eq_refl eq_refl ltac:(vm_compute; discriminate)
              ltac:(vm_compute; discriminate) eq_refl)
              "jpg" 10 20 30 (or_introl eq_refl) eq_refl)
    as [request [Hrun _]].
  exists request. split; [exact Hrun|].
  vm_compute in Hrun. injection Hrun as <-. split; reflexivity.
Defined.

(** ** Frames built from JSON *)

Section Keys.

Import pandas.

Lemma add_keys_In (ks seen : list string) (k : string) :
  In k (add_keys seen ks) <-> In k seen \/ In k ks.
Proof.
  revert seen. induction ks as [|x ks IH]; intro seen; cbn.
  - tauto.
  - rewrite IH. destruct (str_in x seen) eqn:E.
    + apply str_in_In in E. split; [tauto|].
      intros [H|[<-|H]]; auto.
    + rewrite in_app_iff. cbn. tauto.
Qed.

Lemma NoDup_snoc {A : Type} (l : list A) (x : A) :
  NoDup l -> ~ In x l -> NoDup (l ++ [x]).
Proof.
  induction l as [|a l IH]; intros Hl Hx; cbn.
  - constructor; [intros []|constructor].
  - inversion Hl as [|? ? Ha Hl']; subst. constructor.
    + rewrite in_app_iff. cbn. intros [H|[H|[]]]; [auto|].
      apply Hx. now left.
    + apply IH; [exact Hl'|]. intros H. apply Hx. now right.
Qed.

Lemma add_keys_NoDup (ks seen : list string) :
  NoDup seen -> NoDup (add_keys seen ks).
Proof.
  revert seen. induction ks as [|x ks IH]; intros seen H; cbn; [exact H|].
  apply IH. destruct (str_in x seen) eqn:E; [exact H|].
  apply NoDup_snoc; [exact H|]. intros Hin.
  apply str_in_In in Hin. congruence.
Qed.

(** Keys that are all known add nothing; new keys without repetition
    are added in their order. *)
Lemma add_keys_known (ks seen : list string) :
  (forall k, In k ks -> In k seen) -> add_keys seen ks = seen.
Proof.
  revert seen. induction ks as [|x ks IH]; intros seen H; cbn; [reflexivity|].
  assert (Hx : str_in x seen = true) by (apply str_in_In, H; now left).
  rewrite Hx. apply IH. intros k Hk. apply H. now right.
Qed.

Lemma add_keys_new (ks seen : list string) :
  NoDup ks -> (forall k, In k ks -> ~ In k seen) ->
  add_keys seen ks = (seen ++ ks)%list.
Proof.
  revert seen. induction ks as [|x ks IH]; intros seen Hnd H; cbn.
  - now rewrite app_nil_r.
  - inversion Hnd as [|? ? Hx Hnd']; subst.
    assert (E : str_in x seen = false).
    { destruct (str_in x seen) eqn:E; [|reflexivity].
      apply str_in_In in E. exfalso. apply (H x); [now left|exact E]. }
    rewrite E, IH; [now rewrite <- app_assoc|exact Hnd'|].
    intros k Hk Hin. apply in_app_iff in Hin. destruct Hin as [Hin|[<-|[]]].
    + apply (H k); [now right|exact Hin].
    + contradiction.
Qed.

Lemma fold_keys_In {V : Type} (ds : list (list (string * V)))
  (seen : list string) (k : string) :
  In k (fold_left (fun seen d => add_keys seen (dict_keys d)) ds seen)
  <-> In k seen \/ exists d, In d ds /\ In k (dict_keys d).
Proof.
  revert seen. induction ds as [|d ds IH]; intro seen; cbn [fold_left].
  - split; [tauto|]. intros [H|[d [[] _]]]. exact H.
  - rewrite IH, add_keys_In. split.
    + intros [[H|H]|[d' [Hd' Hk]]]; [tauto| |].
      * right. exists d. split; [now left|exact H].
      * right. exists d'. split; [now right|exact Hk].
    + intros [H|[d' [[<-|Hd'] Hk]]]; [tauto|tauto|].
      right. exists d'. tauto.
Qed.

Lemma fold_keys_NoDup {V : Type} (ds : list (list (string * V)))
  (seen : list string) :
  NoDup seen ->
  NoDup (fold_left (fun seen d => add_keys seen (dict_keys d)) ds seen).
Proof.
  revert seen. induction ds as [|d ds IH]; intros seen H; cbn [fold_left].
  - exact H.
  - apply IH, add_keys_NoDup, H.
Qed.

(** [all_keys] lists every key of the dictionaries, once. *)
Lemma all_keys_In {V : Type} (ds : list (list (string * V))) (k : string) :
  In k (all_keys ds) <-> exists d, In d ds /\ In k (dict_keys d).
Proof.
  unfold all_keys. rewrite fold_keys_In. split; [|tauto].
  intros [[]|H]. exact H.
Qed.

Lemma all_keys_NoDup {V : Type} (ds : list (list (string * V))) :
  NoDup (all_keys ds).
Proof. apply fold_keys_NoDup. constructor. Qed.

Lemma dict_get_key {V : Type} (d : list (string * V)) (k : string) (v : V) :
  dict_get k d = Some v -> In k (dict_keys d).
Proof.
  induction d as [|[k' v'] d IH]; cbn; [discriminate|].
  destruct (k =? k')%string eqn:E.
  - apply String.eqb_eq in E. subst. now left.
  - intros H. right. now apply IH.
Qed.

Lemma dict_key_get {V : Type} (d : list (string * V)) (k : string) :
  In k (dict_keys d) -> exists v, dict_get k d = Some v.
Proof.
  induction d as [|[k' v'] d IH]; cbn; [intros []|].
  destruct (k =? k')%string eqn:E; [eauto|].
  intros [H|H]; [|now apply IH].
  apply String.eqb_neq in E. congruence.
Qed.

(** In a dictionary without repeated keys an entry is what [get] finds. *)
Lemma dict_get_In {V : Type} (d : list (string * V)) (k : string) (v : V) :
  NoDup (dict_keys d) -> In (k, v) d -> dict_get k d = Some v.
Proof.
  induction d as [|[k' v'] d IH]; cbn; [intros _ []|].
  intros Hnd Hin. inversion Hnd as [|? ? Hk' Hnd']; subst.
  destruct Hin as [Heq|Hin].
  - injection Heq as -> ->. now rewrite String.eqb_refl.
  - destruct (k =? k')%string eqn:E; [|now apply IH].
    apply String.eqb_eq in E. subst. exfalso. apply Hk'.
    change (In k' (map fst d)). apply in_map_iff. now exists (k', v).
Qed.

End Keys.

Section Frames.

Import pandas.

Variable pd : Pandas.

Lemma Forall2_map_right {A B : Type} (R : A -> B -> Prop) (f : A -> B)
  (l : list A) :
  (forall x, In x l -> R x (f x)) -> Forall2 R l (map f l).
Proof.
  induction l as [|a l IH]; intros H; cbn; constructor.
  - apply H. now left.
  - apply IH. intros x Hx. apply H. now right.
Qed.

Lemma range_index_length (n : nat) : List.length (range_index n) = n.
Proof. unfold range_index. now rewrite length_map, length_seq. Qed.

Lemma all_objects_length (l : list value) (records : list dict) :
  all_objects l = Some records -> List.length records = List.length l.
Proof.
  revert records. induction l as [|v l IH]; intros records H; cbn in H.
  - now injection H as <-.
  - destruct (as_object v); [|discriminate].
    destruct (all_objects l); [|discriminate].
    injection H as <-. cbn. f_equal. now apply IH.
Qed.

Lemma all_arrays_length (vs : list value) (arrays : list (list value)) :
  all_arrays vs = Some arrays -> List.length arrays = List.length vs.
Proof.
  revert arrays. induction vs as [|v vs IH]; intros arrays H; cbn in H.
  - now injection H as <-.
  - destruct (as_array v); [|discriminate].
    destruct (all_arrays vs); [|discriminate].
    injection H as <-. cbn. f_equal. now apply IH.
Qed.

Lemma all_entries_keys (d : dict) (entries : list (string * dict)) :
  all_entries d = Some entries -> map fst entries = dict_keys d.
Proof.
  revert entries. induction d as [|[k v] d IH]; intros entries H; cbn in H.
  - now injection H as <-.
  - destruct (as_object v); [|discriminate].
    destruct (all_entries d); [|discriminate].
    injection H as <-. cbn. f_equal. now apply IH.
Qed.

Lemma all_entries_values (d : dict) (entries : list (string * dict)) :
  all_entries d = Some entries ->
  map snd d = map (fun e => VDict (snd e)) entries.
Proof.
  revert entries. induction d as [|[k v] d IH]; intros entries H; cbn in H.
  - now injection H as <-.
  - destruct v; cbn in H; try discriminate.
    destruct (all_entries d); [|discriminate].
    injection H as <-. cbn. f_equal. now apply IH.
Qed.

(** A frame of records has one row per record and one column per key. *)
Lemma of_records_shape (records : list dict) :
  rows_of_records pd records (of_records pd records).
Proof.
  split; [reflexivity|]. unfold of_records. cbn [cols].
  apply Forall2_map_right. intros k _. split; [reflexivity|].
  unfold holds, column_of. cbn [cells dtype]. reflexivity.
Qed.

Lemma combine_fst {A B : Type} (l : list A) (l' : list B) :
  List.length l = List.length l' -> map fst (combine l l') = l.
Proof.
  revert l'. induction l as [|a l IH]; intros [|b l'] H; cbn in *;
    try discriminate; [reflexivity|].
  f_equal. apply IH. lia.
Qed.

(** A frame of columns has one column per key, holding its array. *)
Lemma of_columns_shape (keys : list string) (arrays : list (list value))
  (n : nat) :
  columns_of_arrays pd keys arrays n (of_columns pd keys arrays n).
Proof.
  split; [reflexivity|]. unfold of_columns. cbn [cols].
  apply Forall2_map_right. intros ka _. split; [reflexivity|].
  unfold holds, column_of. cbn [cells dtype]. reflexivity.
Qed.

(** *** An object of objects, turned round *)

Definition column_entries (k : string) (entries : list (string * dict)) : dict :=
  flat_map (fun entry => match dict_get k (snd entry) with
                         | Some v => [(fst entry, v)]
                         | None => []
                         end) entries.

Lemma from_nested_dict_columns (entries : list (string * dict)) :
  from_nested_dict entries
  = map (fun k => (k, column_entries k entries)) (all_keys (map snd entries)).
Proof. reflexivity. Qed.

Lemma column_entries_keys (k : string) (entries : list (string * dict))
  (o : string) :
  In o (dict_keys (column_entries k entries))
  <-> exists d, In (o, d) entries /\ dict_get k d <> None.
Proof.
  induction entries as [|[o' d'] entries IH]; cbn.
  - split; [intros []|intros [d [[] _]]].
  - unfold dict_keys in *. rewrite map_app, in_app_iff, IH. split.
    + intros [H|[d [Hd Hk]]].
      * destruct (dict_get k d') eqn:E; cbn in H; [|destruct H].
        destruct H as [<-|[]]. exists d'. split; [now left|congruence].
      * exists d. split; [now right|exact Hk].
    + intros [d [[Heq|Hd] Hk]].
      * injection Heq as <- <-. left.
        destruct (dict_get k d'); [now left|congruence].
      * right. eauto.
Qed.

Lemma dict_get_absent {V : Type} (d : list (string * V)) (k : string) :
  ~ In k (dict_keys d) -> dict_get k d = None.
Proof.
  intros H. destruct (dict_get k d) eqn:E; [|reflexivity].
  exfalso. apply H. eapply dict_get_key; eauto.
Qed.

(** The cell of an outer key under an inner key is the entry of its
    object. *)
Lemma column_entries_get (k : string) (entries : list (string * dict))
  (o : string) :
  NoDup (map fst entries) ->
  dict_get o (column_entries k entries)
  = match dict_get o entries with
    | Some d => dict_get k d
    | None => None
    end.
Proof.
  induction entries as [|[o' d'] entries IH]; intros Hnd; [reflexivity|].
  inversion Hnd as [|? ? Ho' Hnd']; subst.
  cbn [column_entries flat_map fst snd dict_get].
  fold (column_entries k entries).
  destruct (o =? o')%string eqn:E.
  - apply String.eqb_eq in E. subst o'.
    destruct (dict_get k d') as [v|] eqn:Ek.
    + cbn. now rewrite String.eqb_refl.
    + cbn. apply dict_get_absent. intros Hin.
      apply column_entries_keys in Hin. destruct Hin as [d [Hd _]].
      apply Ho'. change (In o (map fst entries)). apply in_map_iff.
      now exists (o, d).
  - rewrite <- (IH Hnd').
    destruct (dict_get k d') as [v|]; [|reflexivity].
    cbn. now rewrite E.
Qed.

Lemma fold_keys_known {V : Type} (ds : list (list (string * V)))
  (seen : list string) :
  (forall d k, In d ds -> In k (dict_keys d) -> In k seen) ->
  fold_left (fun seen d => add_keys seen (dict_keys d)) ds seen = seen.
Proof.
  revert seen. induction ds as [|d ds IH]; intros seen H; cbn [fold_left].
  - reflexivity.
  - rewrite add_keys_known.
    + apply IH. intros d' k Hd' Hk. apply (H d' k); [now right|exact Hk].
    + intros k Hk. apply (H d k); [now left|exact Hk].
Qed.

Lemma column_entries_all (k : string) (entries : list (string * dict)) :
  (forall o d, In (o, d) entries -> In k (dict_keys d)) ->
  dict_keys (column_entries k entries) = map fst entries.
Proof.
  induction entries as [|[o d] entries IH]; intros H; [reflexivity|].
  cbn [column_entries flat_map fst snd]. fold (column_entries k entries).
  destruct (dict_key_get d k (H o d (or_introl eq_refl))) as [v ->].
  cbn. f_equal. apply IH. intros o' d' Hin. apply (H o' d'). now right.
Qed.

Lemma nonempty_has_key (d : dict) :
  d <> [] <-> exists k, dict_get k d <> None.
Proof.
  split.
  - destruct d as [|[k v] d]; [congruence|]. intros _. exists k.
    cbn. rewrite String.eqb_refl. discriminate.
  - intros [k H] ->. now apply H.
Qed.

(** The frame of an object of objects. *)
Lemma of_nested_shape (entries : list (string * dict)) :
  NoDup (map fst entries) ->
  rows_of_entries pd entries (of_nested pd (from_nested_dict entries)).
Proof.
  intros Hnd.
  set (keys := all_keys (map snd entries)).
  set (idx := all_keys (map snd (from_nested_dict entries))).
  assert (Hidx : forall o, In o idx <-> exists d, In (o, d) entries /\ d <> []).
  { intros o. unfold idx. rewrite all_keys_In, from_nested_dict_columns.
    rewrite map_map. cbn [snd]. split.
    - intros [cd [Hcd Ho]]. apply in_map_iff in Hcd.
      destruct Hcd as [k [<- _]]. apply column_entries_keys in Ho.
      destruct Ho as [d [Hd Hk]]. exists d. split; [exact Hd|].
      apply nonempty_has_key. eauto.
    - intros [d [Hd Hne]]. apply nonempty_has_key in Hne.
      destruct Hne as [k Hk]. exists (column_entries k entries). split.
      + apply in_map_iff. exists k. split; [reflexivity|].
        apply all_keys_In. exists d. split.
        * apply in_map_iff. now exists (o, d).
        * destruct (dict_get k d) eqn:E; [|congruence].
          eapply dict_get_key; eauto.
      + apply column_entries_keys. eauto. }
  exists idx. split; [reflexivity|]. split; [apply all_keys_NoDup|].
  split; [exact Hidx|]. split.
  - intros [k0 [Hhd Hall]]. unfold idx. rewrite from_nested_dict_columns.
    fold keys. change (hd_error keys = Some k0) in Hhd.
    destruct keys as [|k keys'] eqn:Hkeys; [discriminate|].
    injection Hhd as ->. cbn [map snd]. unfold all_keys. cbn [fold_left].
    rewrite (column_entries_all k0 entries Hall).
    rewrite (add_keys_new _ [] Hnd) by (intros ? _ []). cbn [List.app].
    apply fold_keys_known. intros cd o Hcd Ho.
    apply in_map_iff in Hcd. destruct Hcd as [[k' cd'] [<- Hin]].
    apply in_map_iff in Hin. destruct Hin as [k'' [Heq _]].
    injection Heq as <- <-. cbn [snd] in Ho.
    apply column_entries_keys in Ho. destruct Ho as [d [Hd _]].
    apply in_map_iff. now exists (o, d).
  - unfold of_nested. cbn [cols]. fold idx.
    rewrite from_nested_dict_columns. fold keys. rewrite map_map.
    apply Forall2_map_right. intros k _. cbn [fst snd].
    split; [reflexivity|]. unfold holds, column_of. cbn [cells dtype].
    f_equal. apply map_ext. intros o.
    apply column_entries_get, Hnd.
Qed.

End Frames.

Section FrameShapes.

Import pandas.

Variable pd : Pandas.

Lemma Forall2_names {A : Type} (P : A -> Column -> Prop) (name : A -> label)
  (xs : list A) (cs : list Column) :
  Forall2 (fun x c => col_name c = name x /\ P x c) xs cs ->
  map col_name cs = map name xs.
Proof.
  induction 1 as [|x c xs cs [Hn _] _ IH]; cbn; [reflexivity|].
  now rewrite Hn, IH.
Qed.

Lemma rows_of_records_columns (records : list dict) (df : DataFrame) :
  rows_of_records pd records df ->
  nrows df = len records /\ columns df = map LStr (all_keys records).
Proof.
  intros [Hi Hc]. split.
  - unfold nrows, len. now rewrite Hi, range_index_length.
  - unfold columns.
    exact (Forall2_names _ (fun k => LStr k) _ _ Hc).
Qed.

Lemma columns_of_arrays_columns (keys : list string)
  (arrays : list (list value)) (n : nat) (df : DataFrame) :
  List.length keys = List.length arrays ->
  columns_of_arrays pd keys arrays n df ->
  nrows df = Z.of_nat n /\ columns df = map LStr keys.
Proof.
  intros Hlen [Hi Hc]. split.
  - unfold nrows, len. now rewrite Hi, range_index_length.
  - unfold columns.
    rewrite (Forall2_names _ (fun ka => LStr (fst ka)) _ _ Hc).
    rewrite <- (combine_fst keys arrays Hlen) at 2. now rewrite map_map.
Qed.

Lemma rows_of_entries_columns (entries : list (string * dict))
  (df : DataFrame) :
  rows_of_entries pd entries df ->
  columns df = map LStr (all_keys (map snd entries)).
Proof.
  intros [idx [_ [_ [_ [_ Hc]]]]]. unfold columns.
  exact (Forall2_names _ (fun k => LStr k) _ _ Hc).
Qed.

(** [pd.DataFrame(data)] on a list of objects. *)
Lemma DataFrame_of_records (l : list value) (records : list dict) :
  all_objects l = Some records ->
  exists df,
    DataFrame_of pd (VList l) = Return df
    /\ rows_of_records pd records df
    /\ nrows df = len l
    /\ columns df = map LStr (all_keys records).
Proof.
  intros Hobj. exists (of_records pd records).
  unfold DataFrame_of. rewrite Hobj. split; [reflexivity|].
  pose proof (of_records_shape pd records) as Hshape.
  split; [exact Hshape|].
  destruct (rows_of_records_columns _ _ Hshape) as [Hn Hc].
  split; [|exact Hc]. rewrite Hn. unfold len.
  now rewrite (all_objects_length l records Hobj).
Qed.

(** [pd.DataFrame(data)] on an object of arrays of one length. *)
Lemma DataFrame_of_arrays (d : dict) (arrays : list (list value)) (n : nat) :
  d <> [] ->
  all_arrays (map snd d) = Some arrays ->
  (forall a, In a arrays -> List.length a = n) ->
  exists df,
    DataFrame_of pd (VDict d) = Return df
    /\ columns_of_arrays pd (dict_keys d) arrays n df
    /\ nrows df = Z.of_nat n
    /\ columns df = map LStr (dict_keys d).
Proof.
  intros Hne Harr Hsame.
  destruct d as [|kv d]; [congruence|].
  pose proof (all_arrays_length _ _ Harr) as Hlen.
  destruct arrays as [|a arrays]; [cbn in Hlen; discriminate|].
  assert (Hall : forallb (fun b => Nat.eqb (List.length b) (List.length a))
                   (a :: arrays) = true).
  { apply forallb_forall. intros b Hb. apply Nat.eqb_eq.
    rewrite (Hsame b Hb), (Hsame a (or_introl eq_refl)). reflexivity. }
  exists (of_columns pd (dict_keys (kv :: d)) (a :: arrays) n).
  unfold DataFrame_of. rewrite Harr, Hall.
  rewrite (Hsame a (or_introl eq_refl)). split; [reflexivity|].
  pose proof (of_columns_shape pd (dict_keys (kv :: d)) (a :: arrays) n)
    as Hshape.
  split; [exact Hshape|].
  apply (columns_of_arrays_columns _ (a :: arrays)); [|exact Hshape].
  unfold dict_keys. rewrite length_map, Hlen, length_map. reflexivity.
Qed.

(** [pd.DataFrame.from_dict(data, orient="index")] on an object of
    objects. *)
Lemma DataFrame_from_dict_index_entries (d : dict)
  (entries : list (string * dict)) :
  d <> [] ->
  NoDup (dict_keys d) ->
  all_entries d = Some entries ->
  exists df,
    DataFrame_from_dict_index pd (VDict d) = Return df
    /\ rows_of_entries pd entries df
    /\ columns df = map LStr (all_keys (map snd entries)).
Proof.
  intros Hne Hnd Hent.
  destruct d as [|kv d]; [congruence|].
  exists (of_nested pd (from_nested_dict entries)).
  unfold DataFrame_from_dict_index. rewrite Hent. split; [reflexivity|].
  assert (Hshape : rows_of_entries pd entries
                     (of_nested pd (from_nested_dict entries))).
  { apply of_nested_shape. now rewrite (all_entries_keys _ _ Hent). }
  split; [exact Hshape|]. now apply rows_of_entries_columns.
Qed.

(** [pd.DataFrame([data])] on an object: a single row. *)
Lemma DataFrame_of_single (d : dict) :
  exists df,
    DataFrame_of pd (VList [VDict d]) = Return df
    /\ rows_of_records pd [d] df
    /\ nrows df = 1
    /\ columns df = map LStr (all_keys [d]).
Proof.
  destruct (DataFrame_of_records [VDict d] [d] eq_refl)
    as [df [Hdf [Hshape [Hn Hc]]]].
  exists df. auto.
Qed.

End FrameShapes.

Section BackendJson.

Import backend_data.

(** [_read_json] once the file is read and parsed. *)
Lemma read_json_parsed (pd : pandas.Pandas) (io : DataIO) (path : Path)
  (options : dict) (content : string) (data : value) :
  read_text io path (get_default "encoding" options (VStr "utf-8"))
  = Return content ->
  json_loads io content = Return data ->
  _read_json pd io path options
  = match data with
    | VList _ =>
        if truthy (get "orient" options)
        then pandas.other_frame pd
               (pandas.read_json_path path (get "orient" options)
                  (get_default "encoding" options (VStr "utf-8")))
        else pandas.DataFrame_of pd data
    | VDict d =>
        if truthy (get "orient" options)
        then pandas.other_frame pd
               (pandas.read_json_path path (get "orient" options)
                  (get_default "encoding" options (VStr "utf-8")))
        else
          match first_value d with
          | VList _ => pandas.DataFrame_of pd data
          | VDict _ => pandas.DataFrame_from_dict_index pd data
          | _ => pandas.DataFrame_of pd (VList [data])
          end
    | _ => raise_ "DataConversionError" "JSON must be an object or array"
    end.
Proof.
  intros Hread Hparse. unfold _read_json. rewrite Hread. cbn [bind].
  rewrite Hparse. reflexivity.
Qed.

End BackendJson.

(** The claim fails on the library's [json_to_csv]: an object whose values
    are arrays is read as a single row whose cells hold the arrays, also
    when the options ask for the "columns" orientation; the backend reads
    the same object as two rows under the columns [a] and [b]. *)
Lemma C5_counterexample :
  let data := VDict [("a", VList [VInt 1; VInt 2]);
                     ("b", VList [VInt 3; VInt 4])] in
  (exists df,
     converters.frame_of_json fixtures.pandas_ (mkPath "in" "data" ".json")
       "" data = Return df
     /\ pandas.nrows df = 1
     /\ pandas.row df 0
        = [(pandas.LStr "a", Some (VList [VInt 1; VInt 2]));
           (pandas.LStr "b", Some (VList [VInt 3; VInt 4]))])
  /\ (exists r,
        converters.run_route (converters.mkDataConverter true true)
          fixtures.pandas_ fixtures.fs
          (converters.mkDataIO (fun _ => Return "") (fun _ => Return data)
             (fun _ _ _ => Return 0)
             (fun _ p _ _ => converters.failure_result fixtures.fs p
                               (converters.ConversionError "")))
          converters.json_to_csv (mkPath "in" "data" ".json")
          (mkPath "out" "data" ".csv")
          (Some (converters.mkDataOptions "," "utf-8" true (Some 2) "columns"
                   "Sheet1" false None))
        = Return r
        /\ converters.status r = converters.SUCCESS
        /\ dict_get "row_count" (converters.metadata r) = Some (VInt 1))
  /\ (exists df,
        backend_data._read_json fixtures.pandas_ (fixtures.data_io "" data)
          (mkPath "in" "data" ".json") [] = Return df
        /\ pandas.nrows df = 2
        /\ pandas.columns df = [pandas.LStr "a"; pandas.LStr "b"]).
Proof.
  cbv zeta. split; [|split].
  - eexists. split; [reflexivity|]. split; reflexivity.
  - eexists. split; [reflexivity|]. split; reflexivity.
  - eexists. split; [reflexivity|]. split; reflexivity.
Qed.

(** C5, as the code has it.  Let a JSON file be read and parsed to [data].

    The backend's [_read_json] with an orientation option reads an array
    or an object with [pd.read_json] under that orientation.  Without one
    it chooses the constructor by the kind of [data] and, for an object,
    by the kind of its first value alone: an array goes to
    [pd.DataFrame]; an object whose first value is an array goes to
    [pd.DataFrame]; an object whose first value is an object goes to
    [DataFrame.from_dict(orient="index")]; any other object, the empty
    one included, goes to [pd.DataFrame([data])]; a value that is neither
    array nor object is refused.

    The constructors build: from an array of objects, one row per object
    and one column per key; from an object whose values are all arrays of
    one length, one column per key and one row per element; from an object
    whose values are all objects, one row per outer key whose object is
    not empty and one column per inner key; from [[data]], a single row
    with one column per key.

    The library's [json_to_csv] builds its frame from [data] alone, with
    no orientation: an array goes to [pd.DataFrame]; an object with the
    keys "data" and "columns" goes to
    [pd.DataFrame(data["data"], columns=data["columns"])]; failing that,
    an object with the keys "columns" and "index" goes to
    [pd.read_json(orient="split")]; every other object, an object of
    arrays or of objects included, becomes a single row; any other value
    is refused.  The frame is the one written, whatever the options. *)
Theorem C5_json_structure :
  forall (pd : pandas.Pandas) (io : backend_data.DataIO) (path : Path)
         (options : dict) (content : string) (data : value),
    backend_data.read_text io path (get_default "encoding" options (VStr "utf-8"))
    = Return content ->
    backend_data.json_loads io content = Return data ->
    let read := backend_data._read_json pd io path options in
    let library := converters.frame_of_json pd path content data in
    (* the backend: the orientation option *)
    (truthy (get "orient" options) = true ->
     pandas.is_array data = true \/ pandas.is_object data = true ->
     read = pandas.other_frame pd
              (pandas.read_json_path path (get "orient" options)
                 (get_default "encoding" options (VStr "utf-8"))))
    (* the backend: the constructor chosen without it *)
    /\ (truthy (get "orient" options) = false ->
        (pandas.is_array data = true -> read = pandas.DataFrame_of pd data)
        /\ (forall d, data = VDict d ->
              (pandas.is_array (backend_data.first_value d) = true ->
                 read = pandas.DataFrame_of pd data)
              /\ (pandas.is_object (backend_data.first_value d) = true ->
                    read = pandas.DataFrame_from_dict_index pd data)
              /\ (pandas.is_array (backend_data.first_value d) = false ->
                  pandas.is_object (backend_data.first_value d) = false ->
                    read = pandas.DataFrame_of pd (VList [data]))))
    /\ (pandas.is_array data = false -> pandas.is_object data = false ->
        read = Raise (pil.mkExt "DataConversionError"
                        "JSON must be an object or array"))
    (* what the constructors build *)
    /\ (forall l records,
          pandas.all_objects l = Some records ->
          exists df,
            pandas.DataFrame_of pd (VList l) = Return df
            /\ pandas.rows_of_records pd records df
            /\ pandas.nrows df = len l
            /\ pandas.columns df = map pandas.LStr (pandas.all_keys records))
    /\ (forall d arrays n,
          d <> [] ->
          pandas.all_arrays (map snd d) = Some arrays ->
          (forall a, In a arrays -> List.length a = n) ->
          exists df,
            pandas.DataFrame_of pd (VDict d) = Return df
            /\ pandas.columns_of_arrays pd (dict_keys d) arrays n df
            /\ pandas.nrows df = Z.of_nat n
            /\ pandas.columns df = map pandas.LStr (dict_keys d))
    /\ (forall d entries,
          d <> [] -> NoDup (dict_keys d) ->
          pandas.all_entries d = Some entries ->
          exists df,
            pandas.DataFrame_from_dict_index pd (VDict d) = Return df
            /\ pandas.rows_of_entries pd entries df
            /\ pandas.columns df
               = map pandas.LStr (pandas.all_keys (map snd entries)))
    /\ (forall d,
          exists df,
            pandas.DataFrame_of pd (VList [VDict d]) = Return df
            /\ pandas.rows_of_records pd [d] df
            /\ pandas.nrows df = 1
            /\ pandas.columns df = map pandas.LStr (pandas.all_keys [d]))
    (* the library *)
    /\ (pandas.is_array data = true ->
        library = converters.platform (pandas.DataFrame_of pd data))
    /\ (forall d, data = VDict d ->
          (converters.has_key "data" d && converters.has_key "columns" d = true ->
             library
             = converters.platform
                 (pandas.other_frame pd
                    (pandas.DataFrame_columns (get "data" d) (get "columns" d))))
          /\ (converters.has_key "data" d && converters.has_key "columns" d = false ->
              converters.has_key "columns" d && converters.has_key "index" d = true ->
                library
                = converters.platform
                    (pandas.other_frame pd
                       (pandas.read_json content (VStr "split"))))
          /\ (converters.has_key "data" d && converters.has_key "columns" d = false ->
              converters.has_key "columns" d && converters.has_key "index" d = false ->
                library
                = converters.platform (pandas.DataFrame_of pd (VList [data]))))
    /\ (pandas.is_array data = false -> pandas.is_object data = false ->
        library = Raise (converters.InvalidInputError
                           ("Unsupported JSON structure in " ++ path_str path)))
    /\ (forall (fs : converters.FileSystem) (cio : converters.DataIO)
               (output_path : Path) (o : converters.DataConversionOptions)
               (df : pandas.DataFrame),
          converters._validate_input_file fs path = Return tt ->
          converters._ensure_output_dir fs output_path = Return tt ->
          converters.read_text cio path = Return content ->
          converters.json_loads cio content = Return data ->
          library = Return df ->
          converters.json_to_csv_try pd fs cio path output_path o
          = (bytes_written <- converters.platform
                                (converters.to_csv cio df output_path o) ;;
             Return (converters.success_result fs path output_path
                       (converters.file_size fs path) bytes_written
                       [ ("row_count", VInt (pandas.nrows df));
                         ("column_count", VInt (len (pandas.columns df)));
                         ("columns",
                          VList (map converters.label_value
                                   (pandas.columns df))) ]))).
Proof.
  intros pd io path options content data Hread Hparse read library.
  pose proof (read_json_parsed pd io path options content data Hread Hparse)
    as Hrj. fold read in Hrj.
  split; [|split; [|split; [|split; [|split; [|split; [|split; [|split;
    [|split; [|split]]]]]]]]].
  - intros Horient Hshape. rewrite Hrj.
    destruct data; cbn in Hshape; destruct Hshape as [H|H]; try discriminate;
      now rewrite Horient.
  - intros Horient. split.
    + intros Harr. rewrite Hrj.
      destruct data; try discriminate. now rewrite Horient.
    + intros d ->. rewrite Hrj, Horient.
      split; [|split].
      * intros H. destruct (backend_data.first_value d); try discriminate.
        reflexivity.
      * intros H. destruct (backend_data.first_value d); try discriminate.
        reflexivity.
      * intros Ha Ho.
        destruct (backend_data.first_value d); try discriminate; reflexivity.
  - intros Ha Ho. rewrite Hrj. destruct data; try discriminate; reflexivity.
  - apply DataFrame_of_records.
  - apply DataFrame_of_arrays.
  - apply DataFrame_from_dict_index_entries.
  - apply DataFrame_of_single.
  - intros Harr. unfold library, converters.frame_of_json.
    destruct data; try discriminate. reflexivity.
  - intros d ->. unfold library, converters.frame_of_json.
    split; [|split].
    + intros H. now rewrite H.
    + intros H1 H2. now rewrite H1, H2.
    + intros H1 H2. rewrite H1, H2.
      destruct (DataFrame_of_single pd d) as [df [Hdf _]].
      now rewrite Hdf.
  - intros Ha Ho. unfold library, converters.frame_of_json.
    destruct data; try discriminate; reflexivity.
  - intros fs cio output_path o df Hval Hdir Htext Hloads Hlib.
    unfold converters.json_to_csv_try.
    rewrite Hval, Hdir. cbn [bind]. rewrite Htext. cbn [bind converters.platform].
    rewrite Hloads. cbn [bind converters.platform].
    fold library. rewrite Hlib. reflexivity.
Qed.

(** The theorem on the array [{"a": 1}, {"a": 2}]: two rows under the
    column [a]. *)
Lemma C5_witness :
  exists df,
    backend_data._read_json fixtures.pandas_
      (fixtures.data_io ""
         (VList [VDict [("a", VInt 1)]; VDict [("a", VInt 2)]]))
      (mkPath "in" "data" ".json") [] = Return df
    /\ pandas.nrows df = 2
    /\ pandas.row df 0 = [(pandas.LStr "a", Some (VInt 1))]
    /\ pandas.row df 1 = [(pandas.LStr "a", Some (VInt 2))].
Proof.
  pose proof (proj1 (proj1 (proj2 (C5_json_structure fixtures.pandas_
              (fixtures.data_io ""
                 (VList [VDict [("a", VInt 1)]; VDict [("a", VInt 2)]]))
              (mkPath "in" "data" ".json") [] ""
              (VList [VDict [("a", VInt 1)]; VDict [("a", VInt 2)]])
              eq_refl eq_refl)) eq_refl) eq_refl) as Hrun.
  eexists. split; [exact Hrun|]. repeat split; reflexivity.
Defined.

(** ** Transformations *)

Section FrameOperations.

Import pandas.

Lemma keep_at_positions {A : Type} (keep : nat -> bool) (d : A) (xs : list A)
  (s : nat) :
  keep_at keep s xs
  = map (fun i => nth (i - s) xs d) (filter keep (seq s (List.length xs))).
Proof.
  revert s. induction xs as [|x xs IH]; intro s; cbn; [reflexivity|].
  rewrite IH. 
  assert (Hshift :
    map (fun i => nth (i - S s) xs d) (filter keep (seq (S s) (List.length xs)))
    = map (fun i => nth (i - s) (x :: xs) d)
          (filter keep (seq (S s) (List.length xs)))).
  { apply map_ext_in. intros i Hi. apply filter_In in Hi.
    destruct Hi as [Hi _]. apply in_seq in Hi.
    replace (i - s)%nat with (S (i - S s)) by lia. reflexivity. }
  destruct (keep s); cbn; rewrite Hshift; [|reflexivity].
  now rewrite Nat.sub_diag.
Qed.

Lemma nth_map_in {A B : Type} (f : A -> B) (l : list A) (d : A) (d' : B)
  (j : nat) :
  (j < List.length l)%nat -> nth j (map f l) d' = f (nth j l d).
Proof.
  intros H. rewrite (nth_indep _ d' (f d)) by (now rewrite length_map).
  apply map_nth.
Qed.

Lemma map_seq_nth {A B : Type} (f : A -> B) (l : list A) (d : A) :
  map (fun j => f (nth j l d)) (seq 0 (List.length l)) = map f l.
Proof.
  rewrite <- (map_map (fun j => nth j l d) f). f_equal.
  apply nth_ext with (d := d) (d' := d).
  - now rewrite length_map, length_seq.
  - intros n Hn. rewrite length_map, length_seq in Hn.
    rewrite (nth_indep _ d (nth 0 l d)) by (now rewrite length_map, length_seq).
    rewrite (map_nth (fun j => nth j l d) (seq 0 (List.length l)) 0%nat n).
    now rewrite seq_nth.
Qed.

Lemma forallb_negb_existsb {A : Type} (f : A -> bool) (l : list A) :
  negb (forallb f l) = existsb (fun x => negb (f x)) l.
Proof.
  induction l as [|a l IH]; cbn; [reflexivity|].
  rewrite negb_andb, IH. reflexivity.
Qed.

Lemma existsb_map_comp {A B : Type} (f : A -> B) (p : B -> bool) (l : list A) :
  existsb p (map f l) = existsb (fun x => p (f x)) l.
Proof.
  induction l as [|a l IH]; cbn; [reflexivity|]. now rewrite IH.
Qed.

Lemma filter_map_comm {A B : Type} (f : A -> B) (p : B -> bool) (l : list A) :
  filter p (map f l) = map f (filter (fun x => p (f x)) l).
Proof.
  induction l as [|a l IH]; cbn; [reflexivity|].
  destruct (p (f a)); cbn; now rewrite IH.
Qed.

(** [dropna(how="all")] keeps the rows that hold a value. *)
Lemma dropna_rows_spec (df : DataFrame) :
  wf df -> rows_dropped df (dropna_rows df).
Proof.
  intros Hwf.
  set (keep := fun i => negb (row_all_missing df i)).
  set (kept := filter keep (seq 0 (List.length (index df)))).
  assert (Hidx : index (dropna_rows df)
                 = map (fun i => nth i (index df) (LInt 0)) kept).
  { change (index (dropna_rows df)) with (keep_at keep 0 (index df)).
    rewrite (keep_at_positions keep (LInt 0)).
    apply map_ext. intros i. now rewrite Nat.sub_0_r. }
  assert (Hcells : forall c, In c (cols df) ->
            keep_at keep 0 (cells c) = map (fun i => nth i (cells c) None) kept).
  { intros c Hc. rewrite (@keep_at_positions cell keep None (cells c) 0).
    rewrite (proj1 (Forall_forall _ _) Hwf c Hc). fold kept.
    apply map_ext. intros i. now rewrite Nat.sub_0_r. }
  assert (Hcols : cols (dropna_rows df)
                  = map (fun c => mkColumn (col_name c) (dtype c)
                                    (map (fun i => nth i (cells c) None) kept))
                        (cols df)).
  { change (cols (dropna_rows df))
      with (map (fun c => mkColumn (col_name c) (dtype c)
                            (keep_at keep 0 (cells c))) (cols df)).
    apply map_ext_in. intros c Hc. now rewrite (Hcells c Hc). }
  split; [|split; [|split]].
  - unfold rows at 1. rewrite Hidx, Hcols, length_map.
    transitivity
      (map (fun i => (nth i (index df) (LInt (Z.of_nat i)),
                      map (fun c => nth i (cells c) None) (cols df))) kept).
    + rewrite <- (map_seq_nth
                    (fun i => (nth i (index df) (LInt (Z.of_nat i)),
                               map (fun c => nth i (cells c) None) (cols df)))
                    kept 0%nat).
      apply map_ext_in. intros j Hj. apply in_seq in Hj.
      assert (Hk : In (nth j kept 0%nat) kept) by (apply nth_In; lia).
      apply filter_In in Hk. destruct Hk as [Hk _]. apply in_seq in Hk.
      f_equal.
      * rewrite (nth_map_in _ kept 0%nat) by lia.
        apply nth_indep. lia.
      * rewrite map_map. apply map_ext. intros c. cbn [cells].
        now rewrite (nth_map_in _ kept 0%nat) by lia.
    + unfold rows. rewrite filter_map_comm. f_equal.
      apply filter_ext. intros i. cbn [snd]. unfold keep, row_all_missing.
      unfold has_value. rewrite forallb_negb_existsb.
      now rewrite existsb_map_comp.
  - rewrite Hcols, map_map. reflexivity.
  - rewrite Hcols, map_map. reflexivity.
  - unfold wf. rewrite Hcols, Hidx. apply Forall_forall. intros c Hc.
    apply in_map_iff in Hc. destruct Hc as [c0 [<- _]]. cbn [cells].
    now rewrite !length_map.
Qed.

(** [dropna(axis=1, how="all")] keeps the columns that hold a value. *)
Lemma dropna_columns_spec (df : DataFrame) :
  columns_dropped df (dropna_columns df).
Proof.
  split; [reflexivity|]. unfold dropna_columns. cbn [cols].
  apply filter_ext. intros c. apply forallb_negb_existsb.
Qed.

Lemma dropna_columns_wf (df : DataFrame) : wf df -> wf (dropna_columns df).
Proof.
  unfold wf, dropna_columns. cbn [cols index]. intros H.
  apply Forall_forall. intros c Hc. apply filter_In in Hc.
  apply (proj1 (Forall_forall _ _) H c), Hc.
Qed.

End FrameOperations.

Section StripLoop.

Import pandas backend_data.

Lemma label_eqb_eq (a b : label) : label_eqb a b = true <-> a = b.
Proof.
  destruct a, b; cbn; split; try discriminate; try congruence.
  - intros H. apply String.eqb_eq in H. now subst.
  - intros H. injection H as ->. apply String.eqb_refl.
  - intros H. apply Z.eqb_eq in H. now subst.
  - intros H. injection H as ->. apply Z.eqb_refl.
Qed.

Lemma label_eqb_refl (a : label) : label_eqb a a = true.
Proof. now apply label_eqb_eq. Qed.

Lemma label_in_In (l : label) (ls : list label) :
  label_in l ls = true <-> In l ls.
Proof.
  unfold label_in. rewrite existsb_exists. split.
  - intros [x [Hx He]]. apply label_eqb_eq in He. now subst.
  - intros H. exists l. split; [exact H|apply label_eqb_refl].
Qed.

(** A stripped column, and a frame whose columns of some names are
    stripped. *)
Definition strip_one (c : Column) : Column :=
  mkColumn (col_name c) object (map str_strip_cell (cells c)).

Definition strip_set (names : list label) (df : DataFrame) : DataFrame :=
  mkFrame (index df)
    (map (fun c => if label_in (col_name c) names then strip_one c else c)
         (cols df)).

Definition named (col : label) (c : Column) : bool :=
  label_eqb (col_name c) col.

Lemma strip_set_names (names : list label) (df : DataFrame) (col : label) :
  filter (named col) (cols (strip_set names df))
  = map (fun c => if label_in (col_name c) names then strip_one c else c)
        (filter (named col) (cols df)).
Proof.
  unfold strip_set. cbn [cols]. rewrite filter_map_comm.
  f_equal. apply filter_ext. intros c. unfold named.
  destruct (label_in (col_name c) names); reflexivity.
Qed.

Lemma strip_column_spec (df : DataFrame) (col : label) (out : DataFrame) :
  strip_column df col = Return out
  <-> (exists c, filter (named col) (cols df) = [c]
                 /\ str_accessor_ok (cells c) = true)
      /\ out = strip_set [col] df.
Proof.
  unfold strip_column. fold (named col).
  assert (Hout :
    mkFrame (index df)
      (map (fun c' => if label_eqb (col_name c') col
                      then mkColumn col object (map str_strip_cell (cells c'))
                      else c') (cols df))
    = strip_set [col] df).
  { unfold strip_set. f_equal. apply map_ext. intros c.
    unfold label_in. cbn [existsb]. rewrite orb_false_r.
    destruct (label_eqb (col_name c) col) eqn:E; [|reflexivity].
    apply label_eqb_eq in E. unfold strip_one. now rewrite E. }
  destruct (filter (named col) (cols df)) as [|c [|c' rest]] eqn:Hf.
  - split; [discriminate|]. intros [[c [Hc _]] _]. discriminate.
  - destruct (str_accessor_ok (cells c)) eqn:Hok.
    + rewrite Hout. split.
      * intros H. injection H as <-. split; [|reflexivity]. eauto.
      * intros [_ ->]. reflexivity.
    + split; [discriminate|]. intros [[c0 [Hc0 Hok0]] _].
      injection Hc0 as <-. congruence.
  - split; [discriminate|]. intros [[c0 [Hc0 _]] _]. discriminate.
Qed.

Lemma strip_set_comp (col : label) (names : list label) (df : DataFrame) :
  ~ In col names ->
  strip_set names (strip_set [col] df) = strip_set (col :: names) df.
Proof.
  intros Hnot. unfold strip_set. cbn [index cols]. f_equal.
  rewrite map_map. apply map_ext. intros c.
  unfold label_in. cbn [existsb]. rewrite orb_false_r.
  destruct (label_eqb (col_name c) col) eqn:E.
  - apply label_eqb_eq in E. cbn [strip_one col_name]. cbn [orb].
    replace (existsb (label_eqb (col_name c)) names) with false; [reflexivity|].
    symmetry. apply not_true_is_false. intros H.
    apply (proj1 (label_in_In _ _)) in H. congruence.
  - cbn [orb]. reflexivity.
Qed.

(** The loop returns exactly when each of the names is the name of one
    column whose accessor exists, and then strips the columns of these
    names. *)
Lemma strip_columns_spec (names : list label) :
  NoDup names ->
  forall df out,
    strip_columns df names = Return out
    <-> (forall col, In col names ->
           exists c, filter (named col) (cols df) = [c]
                     /\ str_accessor_ok (cells c) = true)
        /\ out = strip_set names df.
Proof.
  induction 1 as [|col names Hcol Hnd IH]; intros df out.
  - cbn. split.
    + intros H. injection H as <-. split; [intros ? []|].
      unfold strip_set. destruct df as [idx cs]. cbn. now rewrite map_id.
    + intros [_ ->]. f_equal. unfold strip_set. destruct df as [idx cs].
      cbn. now rewrite map_id.
  - cbn [strip_columns].
    assert (Hother : forall col', In col' names ->
              forall c', 
                (filter (named col') (cols (strip_set [col] df)) = [c']
                 /\ str_accessor_ok (cells c') = true)
                <-> (filter (named col') (cols df) = [c']
                     /\ str_accessor_ok (cells c') = true)).
    { intros col' Hin c'. rewrite strip_set_names.
      assert (Hid : map (fun c => if label_in (col_name c) [col]
                                  then strip_one c else c)
                      (filter (named col') (cols df))
                    = filter (named col') (cols df)).
      { rewrite <- (map_id (filter (named col') (cols df))) at 2.
        apply map_ext_in. intros c Hc. apply filter_In in Hc.
        destruct Hc as [_ Hc]. unfold named in Hc. apply label_eqb_eq in Hc.
        unfold label_in. cbn [existsb]. rewrite orb_false_r.
        destruct (label_eqb (col_name c) col) eqn:E; [|reflexivity].
        apply label_eqb_eq in E. congruence. }
      now rewrite Hid. }
    destruct (strip_column df col) as [df'|e] eqn:Hstep; cbn [bind].
    + apply strip_column_spec in Hstep. destruct Hstep as [Hc ->].
      rewrite IH. rewrite (strip_set_comp col names df Hcol). split.
      * intros [Hall ->]. split; [|reflexivity].
        intros col' [<-|Hin]; [exact Hc|].
        destruct (Hall col' Hin) as [c' Hc']. exists c'.
        now apply (Hother col' Hin c').
      * intros [Hall ->]. split; [|reflexivity].
        intros col' Hin. destruct (Hall col' (or_intror Hin)) as [c' Hc'].
        exists c'. now apply (Hother col' Hin c').
    + split; [discriminate|]. intros [Hall _]. exfalso.
      destruct (Hall col (or_introl eq_refl)) as [c Hc].
      assert (Hret : strip_column df col = Return (strip_set [col] df))
        by (apply strip_column_spec; eauto).
      congruence.
Qed.

(** Whatever the names, a loop that returns has found one column of each
    name. *)
Lemma strip_columns_unique (names : list label) :
  forall df out,
    strip_columns df names = Return out ->
    forall col, In col names ->
      exists c, filter (named col) (cols df) = [c].
Proof.
  induction names as [|col names IH]; intros df out Hrun col' Hin;
    [destruct Hin|].
  cbn [strip_columns] in Hrun.
  destruct (strip_column df col) as [df'|e] eqn:Hstep; cbn [bind] in Hrun;
    [|discriminate].
  apply strip_column_spec in Hstep. destruct Hstep as [[c [Hc _]] ->].
  destruct Hin as [<-|Hin]; [eauto|].
  destruct (IH _ _ Hrun col' Hin) as [c' Hc'].
  rewrite strip_set_names in Hc'.
  destruct (filter (named col') (cols df)) as [|c0 [|c1 rest]];
    cbn in Hc'; try discriminate. eauto.
Qed.

Lemma filter_In_length {A : Type} (p : A -> bool) (l : list A) (x : A) :
  In x l -> p x = true -> (1 <= List.length (filter p l))%nat.
Proof.
  induction l as [|a l IH]; intros Hin Hp; [destruct Hin|].
  cbn. destruct Hin as [<-|Hin].
  - rewrite Hp. cbn. lia.
  - destruct (p a); cbn; [lia|]. now apply IH.
Qed.

Lemma unique_names_NoDup (p : Column -> bool) (cs : list Column) :
  (forall c, In c cs -> p c = true ->
     (List.length (filter (named (col_name c)) cs) <= 1)%nat) ->
  NoDup (map col_name (filter p cs)).
Proof.
  induction cs as [|c cs IH]; intros H; cbn; [constructor|].
  assert (Hrest : NoDup (map col_name (filter p cs))).
  { apply IH. intros c' Hin Hp. specialize (H c' (or_intror Hin) Hp).
    cbn in H. destruct (named (col_name c') c); cbn in H; lia. }
  destruct (p c) eqn:Hp; [|exact Hrest].
  cbn. constructor; [|exact Hrest].
  intros Hin. apply in_map_iff in Hin. destruct Hin as [c' [Hname Hc']].
  apply filter_In in Hc'. destruct Hc' as [Hc' _].
  specialize (H c (or_introl eq_refl) Hp). cbn in H.
  unfold named at 1 in H. rewrite label_eqb_refl in H. cbn in H.
  assert (1 <= List.length (filter (named (col_name c)) cs))%nat.
  { apply (filter_In_length _ _ c' Hc'). unfold named.
    apply label_eqb_eq. exact Hname. }
  lia.
Qed.

(** The strip step. *)
Lemma strip_step_spec (df out : DataFrame) :
  strip_columns df (object_columns df) = Return out
  <-> strippable df /\ stripped df out.
Proof.
  assert (Hobj : forall c, In c (cols df) -> dtype c = object ->
                           In (col_name c) (object_columns df)).
  { intros c Hc Hd. unfold object_columns. apply in_map.
    apply filter_In. split; [exact Hc|]. now rewrite Hd. }
  assert (Hstripped : strippable df ->
            forall out', out' = strip_set (object_columns df) df
                         <-> stripped df out').
  { intros Hs out'.
    assert (Hmap : cols (strip_set (object_columns df) df)
                   = map (fun c => if dtype_is_object (dtype c)
                                   then strip_one c else c) (cols df)).
    { unfold strip_set. cbn [cols]. apply map_ext_in. intros c Hc.
      destruct (dtype_is_object (dtype c)) eqn:Hd.
      - assert (Hdt : dtype c = object) by (destruct (dtype c); now try discriminate).
        replace (label_in (col_name c) (object_columns df)) with true;
          [reflexivity|].
        symmetry. apply label_in_In, Hobj; assumption.
      - destruct (label_in (col_name c) (object_columns df)) eqn:Hin;
          [|reflexivity].
        exfalso. apply label_in_In in Hin. unfold object_columns in Hin.
        apply in_map_iff in Hin. destruct Hin as [c' [Hname Hc']].
        apply filter_In in Hc'. destruct Hc' as [Hc' Hd'].
        assert (Hdt' : dtype c' = object)
          by (destruct (dtype c'); now try discriminate).
        destruct (Hs c' Hc' Hdt') as [Hu _].
        assert (Hcin : In c (filter (fun c0 => label_eqb (col_name c0) (col_name c'))
                               (cols df))).
        { apply filter_In. split; [exact Hc|]. apply label_eqb_eq. congruence. }
        rewrite Hu in Hcin. destruct Hcin as [<-|[]]. congruence. }
    split.
    - intros ->. split; [reflexivity|]. rewrite Hmap.
      apply Forall2_map_right. intros c _.
      destruct (dtype_is_object (dtype c)); reflexivity.
    - intros [Hi Hc]. destruct out' as [idx cs]. cbn in Hi, Hc.
      unfold strip_set. f_equal; [exact Hi|].
      change (cs = cols (strip_set (object_columns df) df)).
      rewrite Hmap. clear -Hc. induction Hc as [|c c' l l' Hcc _ IH]; cbn;
        [reflexivity|].
      rewrite IH. destruct (dtype_is_object (dtype c)); now rewrite Hcc. }
  split.
  - intros Hrun.
    pose proof (strip_columns_unique _ _ _ Hrun) as Huniq.
    assert (Hnd : NoDup (object_columns df)).
    { apply unique_names_NoDup. intros c Hc Hd.
      destruct (Huniq (col_name c)) as [c' Hc'].
      - apply Hobj; [exact Hc|]. destruct (dtype c); now try discriminate.
      - rewrite Hc'. cbn. lia. }
    apply (strip_columns_spec _ Hnd) in Hrun. destruct Hrun as [Hall ->].
    assert (Hs : strippable df).
    { intros c Hc Hd. destruct (Hall _ (Hobj c Hc Hd)) as [c' [Hf Hok]].
      assert (Hcin : In c (filter (named (col_name c)) (cols df))).
      { apply filter_In. split; [exact Hc|]. apply label_eqb_refl. }
      rewrite Hf in Hcin. destruct Hcin as [->|[]].
      split; [exact Hf|exact Hok]. }
    split; [exact Hs|]. now apply (Hstripped Hs).
  - intros [Hs Hout].
    assert (Hnd : NoDup (object_columns df)).
    { apply unique_names_NoDup. intros c Hc Hd.
      assert (Hdt : dtype c = object) by (destruct (dtype c); now try discriminate).
      destruct (Hs c Hc Hdt) as [Hf _]. fold (named (col_name c)) in Hf.
      rewrite Hf. cbn. lia. }
    apply (strip_columns_spec _ Hnd). split.
    + intros col Hin. unfold object_columns in Hin.
      apply in_map_iff in Hin. destruct Hin as [c [<- Hc]].
      apply filter_In in Hc. destruct Hc as [Hc Hd].
      assert (Hdt : dtype c = object) by (destruct (dtype c); now try discriminate).
      exists c. exact (Hs c Hc Hdt).
    + now apply (Hstripped Hs).
Qed.

End StripLoop.

Section RenameAndSelect.

Import pandas backend_data.

Variable pd : Pandas.

Lemma frame_eq (a b : DataFrame) :
  index a = index b -> cols a = cols b -> a = b.
Proof. destruct a, b. cbn. now intros -> ->. Qed.

Lemma rename_spec (df : DataFrame) (mapping : list (string * label)) :
  renamed mapping df (rename df mapping).
Proof.
  split; [reflexivity|]. unfold rename. cbn [cols].
  apply Forall2_map_right. intros c _. cbn.
  split; [|split; reflexivity].
  unfold rename_label. destruct (col_name c); reflexivity.
Qed.

Lemma renamed_unique (mapping : list (string * label)) (df out : DataFrame) :
  renamed mapping df out -> out = rename df mapping.
Proof.
  intros [Hi Hc]. apply frame_eq; [exact Hi|].
  unfold rename. cbn [cols].
  induction Hc as [|c c' l l' [Hn [Hd Hcs]] _ IH]; cbn; [reflexivity|].
  rewrite IH. f_equal. destruct c' as [n d cs]. cbn in *. subst.
  unfold rename_label. destruct (col_name c); reflexivity.
Qed.

(** The comprehension over a selection of names keeps the names that are
    columns, in their order, and raises nothing. *)
Lemma available_columns_names (df : DataFrame) (selection : list value) :
  forall names,
    all_labels selection = Some names ->
    exists available,
      available_columns pd df selection = Return available
      /\ all_labels available
         = Some (filter (fun l => label_in l (columns df)) names).
Proof.
  induction selection as [|v rest IH]; intros names Hnames.
  - injection Hnames as <-. exists []. split; reflexivity.
  - cbn [all_labels] in Hnames.
    destruct (value_label v) as [l|] eqn:Hv; [|discriminate].
    destruct (all_labels rest) as [ls|] eqn:Hrest; [|discriminate].
    injection Hnames as <-.
    destruct (IH ls eq_refl) as [available [Hrun Hlabels]].
    cbn [available_columns]. unfold contains. rewrite Hv. cbn [bind].
    rewrite Hrun. cbn [bind filter].
    destruct (label_in l (columns df)).
    + exists (v :: available). split; [reflexivity|].
      cbn [all_labels]. now rewrite Hv, Hlabels.
    + exists available. split; [reflexivity|exact Hlabels].
Qed.

Lemma selected_unique (names : list label) (df out out' : DataFrame) :
  selected names df out -> selected names df out' -> out = out'.
Proof.
  unfold selected.
  destruct (filter (fun l => label_in l (columns df)) names).
  - congruence.
  - intros [Hi Hc] [Hi' Hc']. apply frame_eq; congruence.
Qed.

(** The selection step on a selection of names returns, with the columns
    of the names that are columns. *)
Lemma select_step_names (options : dict) (df : DataFrame)
  (v : value) (rest : list value) (names : list label) :
  get "columns" options = VList (v :: rest) ->
  all_labels (v :: rest) = Some names ->
  exists out, select_step pd options df = Return out /\ selected names df out.
Proof.
  intros Hopt Hnames. unfold select_step. rewrite Hopt.
  destruct (available_columns_names df (v :: rest) names Hnames)
    as [available [Hrun Hlabels]].
  rewrite Hrun. cbn [bind]. unfold selected.
  destruct available as [|a available].
  - cbn in Hlabels. injection Hlabels as <-. exists df. split; reflexivity.
  - rewrite Hlabels.
    cbn [all_labels] in Hlabels.
    destruct (value_label a); [|discriminate].
    destruct (all_labels available); [|discriminate].
    injection Hlabels as <-.
    eexists. split; [reflexivity|]. split; reflexivity.
Qed.

(** A name that is no column changes nothing in a selection. *)
Lemma selected_ignores (before after : list label) (absent : label)
  (df out : DataFrame) :
  label_in absent (columns df) = false ->
  selected (before ++ absent :: after) df out
  <-> selected (before ++ after) df out.
Proof.
  intros Habsent. unfold selected.
  rewrite !filter_app. cbn [filter]. rewrite Habsent. reflexivity.
Qed.

(** The columns of a selection are columns of the frame, under names of
    the selection when one of them is a column. *)
Lemma selected_columns (names : list label) (df out : DataFrame) :
  selected names df out ->
  forall c, In c (cols out) ->
    In c (cols df)
    /\ ((exists l, In l names /\ label_in l (columns df) = true) ->
        In (col_name c) names).
Proof.
  unfold selected. intros Hsel c Hc.
  destruct (filter (fun l => label_in l (columns df)) names) as [|l ls] eqn:Hf.
  - subst out. split; [exact Hc|]. intros [l [Hl Hin]]. exfalso.
    assert (H : In l (filter (fun l => label_in l (columns df)) names))
      by (apply filter_In; auto).
    rewrite Hf in H. destruct H.
  - destruct Hsel as [_ Hcols]. rewrite Hcols in Hc.
    apply in_flat_map in Hc. destruct Hc as [l' [Hl' Hc]].
    apply filter_In in Hc. destruct Hc as [Hc Hn].
    split; [exact Hc|]. intros _.
    apply label_eqb_eq in Hn. rewrite Hn.
    rewrite <- Hf in Hl'. apply filter_In in Hl'. tauto.
Qed.

(** A column of texts, some of them missing, has the [str] accessor. *)
Lemma text_cells_accessor (cs : list cell) :
  Forall (fun x => is_missing x = true \/ exists s, x = Some (VStr s)) cs ->
  str_accessor_ok cs = true.
Proof.
  intros Hcs. unfold str_accessor_ok.
  destruct (filter (fun c => negb (is_missing c)) cs) as [|x present] eqn:Hf;
    [reflexivity|].
  assert (Hx : In x (filter (fun c => negb (is_missing c)) cs))
    by (rewrite Hf; now left).
  apply filter_In in Hx. destruct Hx as [Hin Hpresent].
  rewrite Forall_forall in Hcs. destruct (Hcs x Hin) as [Hm|[s ->]].
  - rewrite Hm in Hpresent. discriminate.
  - reflexivity.
Qed.

End RenameAndSelect.

(** C6.  [_apply_transformations] makes of a frame [df], whose columns
    have one cell per row, the frames [d1], [d2], [d3], [d4] and [out] in
    this order.  [d1] is [df] without its rows that hold no value when
    [drop_empty_rows] is asked for, and [df] otherwise.  [d2] is [d1]
    without its columns that hold no value when [drop_empty_columns] is
    asked for, and [d1] otherwise.  [d3] is [d2] with the texts of its
    object columns stripped of leading and trailing whitespace when
    [strip_whitespace] is asked for, and [d2] otherwise; the cells of an
    object column that are no text become missing, and the step raises
    when an object column shares its name with another column or holds
    only numbers or only booleans, and never when the object columns
    have names of their own and hold texts and missing cells only.  [d4]
    is [d3] with its columns renamed by [rename_columns] when that is a
    non-empty mapping, and [d3] otherwise.  [out] is [d4] reduced to the
    names of [columns] that are columns of [d4], in the order of
    [columns], when that is a non-empty list of names one of which is a
    column, and [d4] otherwise.  The call returns exactly the frames made
    this way.  The selection of names never raises: a name that is no
    column is left out as if it were not listed, and [out] has no column
    that [d4] has not. *)
Theorem C6_transformations_in_order
  (pd : pandas.Pandas) (df : pandas.DataFrame) (options : dict) :
  pandas.wf df ->
  let requested := fun name => truthy (get_default name options (VBool false)) in
  exists d1 d2,
    (if requested "drop_empty_rows"
     then pandas.rows_dropped df d1 else d1 = df)
    /\ (if requested "drop_empty_columns"
        then pandas.columns_dropped d1 d2 else d2 = d1)
    /\ (forall out,
          backend_data._apply_transformations pd df options = Return out
          <-> exists d3 d4,
                (if requested "strip_whitespace"
                 then pandas.strippable d2 /\ pandas.stripped d2 d3
                 else d3 = d2)
                /\ match get "rename_columns" options with
                   | VDict ((_ :: _) as mapping) =>
                       match backend_data.label_mapping mapping with
                       | Some names => pandas.renamed names d3 d4
                       | None =>
                           pandas.other_frame pd
                             (pandas.rename_columns d3 mapping) = Return d4
                       end
                   | _ => d4 = d3
                   end
                /\ match get "columns" options with
                   | VList ((_ :: _) as selection) =>
                       match pandas.all_labels selection with
                       | Some names => pandas.selected names d4 out
                       | None =>
                           backend_data.select_step pd options d4 = Return out
                       end
                   | _ => out = d4
                   end)
    /\ ((forall c, In c (pandas.cols d2) -> pandas.dtype c = pandas.object ->
           filter (fun c' => pandas.label_eqb (pandas.col_name c')
                               (pandas.col_name c)) (pandas.cols d2) = [c]
           /\ Forall (fun x => pandas.is_missing x = true
                               \/ exists s, x = Some (VStr s))
                     (pandas.cells c)) ->
        pandas.strippable d2)
    /\ (forall selection names d4,
          get "columns" options = VList selection ->
          pandas.all_labels selection = Some names ->
          exists out,
            backend_data.select_step pd options d4 = Return out
            /\ (selection <> [] -> pandas.selected names d4 out)
            /\ (selection = [] -> out = d4)
            /\ forall c, In c (pandas.cols out) -> In c (pandas.cols d4))
    /\ (forall before after absent d4 out,
          pandas.label_in absent (pandas.columns d4) = false ->
          pandas.selected (before ++ absent :: after) d4 out
          <-> pandas.selected (before ++ after) d4 out).
Proof.
  intros Hwf requested.
  exists (backend_data.drop_empty_rows_step options df).
  exists (backend_data.drop_empty_columns_step options
            (backend_data.drop_empty_rows_step options df)).
  set (d1 := backend_data.drop_empty_rows_step options df).
  set (d2 := backend_data.drop_empty_columns_step options d1).
  split; [|split; [|split; [|split; [|split]]]].
  - unfold d1, backend_data.drop_empty_rows_step, requested.
    destruct (truthy (get_default "drop_empty_rows" options (VBool false)));
      [|reflexivity].
    now apply dropna_rows_spec.
  - unfold d2, backend_data.drop_empty_columns_step, requested.
    destruct (truthy (get_default "drop_empty_columns" options (VBool false)));
      [|reflexivity].
    apply dropna_columns_spec.
  - intros out. unfold backend_data._apply_transformations. fold d1. fold d2.
    assert (Hstrip : forall d3,
              backend_data.strip_whitespace_step options d2 = Return d3
              <-> (if requested "strip_whitespace"
                   then pandas.strippable d2 /\ pandas.stripped d2 d3
                   else d3 = d2)).
    { intros d3. unfold backend_data.strip_whitespace_step, requested.
      destruct (truthy (get_default "strip_whitespace" options (VBool false))).
      - apply strip_step_spec.
      - split; [intros H; now injection H as <-|now intros ->]. }
    assert (Hrename : forall d3 d4,
              backend_data.rename_step pd options d3 = Return d4
              <-> match get "rename_columns" options with
                  | VDict ((_ :: _) as mapping) =>
                      match backend_data.label_mapping mapping with
                      | Some names => pandas.renamed names d3 d4
                      | None =>
                          pandas.other_frame pd
                            (pandas.rename_columns d3 mapping) = Return d4
                      end
                  | _ => d4 = d3
                  end).
    { intros d3 d4. unfold backend_data.rename_step.
      assert (Hid : @Return pil.ext_exn _ d3 = Return d4 <-> d4 = d3)
        by (split; [intros H; now injection H as <-|now intros ->]).
      destruct (get "rename_columns" options) as [| | | | | | |m]; try exact Hid.
      destruct m as [|kv m]; [exact Hid|].
      destruct (backend_data.label_mapping (kv :: m)) as [names|];
        [|reflexivity].
      split.
      - intros H. injection H as <-. apply rename_spec.
      - intros H. apply renamed_unique in H. now subst. }
    assert (Hselect : forall d4,
              backend_data.select_step pd options d4 = Return out
              <-> match get "columns" options with
                  | VList ((_ :: _) as selection) =>
                      match pandas.all_labels selection with
                      | Some names => pandas.selected names d4 out
                      | None =>
                          backend_data.select_step pd options d4 = Return out
                      end
                  | _ => out = d4
                  end).
    { intros d4.
      assert (Hid : @Return pil.ext_exn _ d4 = Return out <-> out = d4)
        by (split; [intros H; now injection H as <-|now intros ->]).
      destruct (get "columns" options) as [| | | | |sel| |] eqn:Hopt;
        try (unfold backend_data.select_step; rewrite Hopt; exact Hid).
      destruct sel as [|v rest];
        [unfold backend_data.select_step; rewrite Hopt; exact Hid|].
      destruct (pandas.all_labels (v :: rest)) as [names|] eqn:Hnames;
        [|reflexivity].
      destruct (select_step_names pd options d4 v rest names Hopt Hnames)
        as [out' [Hrun Hsel]].
      rewrite Hrun. split.
      - intros H. injection H as <-. exact Hsel.
      - intros H. f_equal. exact (selected_unique names d4 out' out Hsel H). }
    split.
    + intros Hrun.
      destruct (backend_data.strip_whitespace_step options d2) as [d3|e] eqn:H3;
        cbn [bind] in Hrun; [|discriminate].
      destruct (backend_data.rename_step pd options d3) as [d4|e] eqn:H4;
        cbn [bind] in Hrun; [|discriminate].
      exists d3, d4. split; [now apply Hstrip|].
      split; [now apply Hrename|now apply Hselect].
    + intros [d3 [d4 [H3 [H4 H5]]]].
      apply Hstrip in H3. apply Hrename in H4. apply Hselect in H5.
      rewrite H3. cbn [bind]. rewrite H4. cbn [bind]. exact H5.
  - intros Htext c Hc Hd. destruct (Htext c Hc Hd) as [Hu Hcells].
    split; [exact Hu|]. now apply text_cells_accessor.
  - intros selection names d4 Hopt Hnames.
    destruct selection as [|v rest].
    + exists d4. unfold backend_data.select_step. rewrite Hopt.
      split; [reflexivity|]. split; [congruence|]. split; [reflexivity|auto].
    + destruct (select_step_names pd options d4 v rest names Hopt Hnames)
        as [out [Hrun Hsel]].
      exists out. split; [exact Hrun|]. split; [auto|].
      split; [discriminate|].
      intros c Hc. exact (proj1 (selected_columns names d4 out Hsel c Hc)).
  - intros before after absent d4 out Habsent.
    now apply selected_ignores.
Qed.

(** The theorem on a table of three rows and three columns, with the
    second row and the third column empty: the empty row goes, then the
    empty column, and the call returns. *)
Lemma C6_witness :
  exists d1 d2 out,
    pandas.rows_dropped fixtures.table d1
    /\ pandas.columns_dropped d1 d2
    /\ backend_data._apply_transformations fixtures.pandas_ fixtures.table
         [("drop_empty_rows", VBool true); ("drop_empty_columns", VBool true);
          ("strip_whitespace", VBool true);
          ("rename_columns", VDict [("name", VStr "first")]);
          ("columns", VList [VStr "first"; VStr "absent"])] = Return out
    /\ pandas.columns out = [pandas.LStr "first"]
    /\ pandas.rows out
       = [(pandas.LInt 0, [Some (VStr "ann")]);
          (pandas.LInt 2, [Some (VStr "bob")])].
Proof.
  assert (Hwf : pandas.wf fixtures.table)
    by (repeat constructor).
  destruct (C6_transformations_in_order fixtures.pandas_ fixtures.table
              [("drop_empty_rows", VBool true); ("drop_empty_columns", VBool true);
               ("strip_whitespace", VBool true);
               ("rename_columns", VDict [("name", VStr "first")]);
               ("columns", VList [VStr "first"; VStr "absent"])] Hwf)
    as [d1 [d2 [H1 [H2 _]]]].
  exists d1, d2. eexists.
  split; [exact H1|]. split; [exact H2|].
  split; [reflexivity|]. split; reflexivity.
Defined.

(** The order shows when a column is renamed and selected in one call: the
    selection is made on the new name, and a selection by the old name
    finds no column and leaves the frame as it is. *)
Example rename_then_select :
  (exists out,
     backend_data._apply_transformations fixtures.pandas_ fixtures.table
       [("rename_columns", VDict [("name", VStr "first")]);
        ("columns", VList [VStr "age"; VStr "first"; VStr "name"])]
     = Return out
     /\ pandas.columns out = [pandas.LStr "age"; pandas.LStr "first"])
  /\ (exists out,
        backend_data._apply_transformations fixtures.pandas_ fixtures.table
          [("rename_columns", VDict [("name", VStr "first")]);
           ("columns", VList [VStr "name"])] = Return out
        /\ pandas.columns out
           = [pandas.LStr "first"; pandas.LStr "age"; pandas.LStr "note"]).
Proof.
  split; eexists; (split; [reflexivity|]); reflexivity.
Qed.

(** The strip step raises on an object column that holds only numbers,
    such as the column of an integer too large for [int64], and on a
    column name that two columns have. *)
Example strip_raises :
  backend_data._apply_transformations fixtures.pandas_
    (pandas.mkFrame [pandas.LInt 0]
       [pandas.mkColumn (pandas.LStr "a") pandas.object
          [Some (VInt 18446744073709551616)]])
    [("strip_whitespace", VBool true)]
  = Raise (pil.mkExt "AttributeError"
             "Can only use .str accessor with string values!")
  /\ backend_data._apply_transformations fixtures.pandas_
       (pandas.mkFrame [pandas.LInt 0]
          [pandas.mkColumn (pandas.LStr "a") pandas.object [Some (VStr "x")];
           pandas.mkColumn (pandas.LStr "a") pandas.object [Some (VStr "y")]])
       [("strip_whitespace", VBool true)]
     = Raise (pil.mkExt "AttributeError"
                "'DataFrame' object has no attribute 'str'").
Proof. split; reflexivity. Qed.
